(** * Simple Ollama GUI Client: the [OllamaChat] session core

    A shallow embedding of the class [OllamaChat] of
    [Simple Ollama GUI Client.py] (conversation log, generation
    parameters, persistence to disk, streaming of the server's answer) and
    of the handlers of [OllamaChatGUI] that call it ([clear_chat],
    [save_settings], [change_model], [save_params], [process_message],
    [rename_current_chat], [save_chat]), as far as they act on the
    session, the disk and the current file.  The properties of the
    specification are stated and settled on it; further properties
    follow: what each operation writes, what survives a restart, what
    a loaded record brings, what is left when an operation fails
    half-way.

    Three things are abstracted.  A file is kept as the value its reader
    finds in it, not as text.  The answers of the server are arguments
    of the methods.  The functions of the Python library that cannot be
    derived from the program ([str], [float] on a string, [str.lower],
    the interpolation of [configparser]) are the fields of the class
    [Builtins]: the properties hold for any such functions, and the
    module [Reference] gives executable ones for the examples.

    Python objects are values of [value]; the object [self] is the record
    [session]; what lies outside the interpreter (the disk, the log file,
    the calls received by the stream callback) is the record [world].  A
    method is a function [world -> res A]: it returns or raises, and in
    both cases leaves a world behind. *)

From Stdlib Require Import ZArith Ascii String List Bool Lia.
From Stdlib Require Import DecimalString.
From stdpp Require Import base option list strings gmap.

Import ListNotations.
Local Open Scope Z_scope.

Set Warnings "-register-all".

(* ================================================================== *)
(** ** Python values                                                    *)
(* ================================================================== *)

(** A [float].  A finite float is written as the decimal [m * 10^e] that
    denotes it; the model performs no arithmetic on floats and therefore
    no rounding. *)
Inductive pyfloat :=
| FFin (m e : Z)
| FInf (negative : bool)
| FNan.

(** The objects the program handles: what [json.load] can return, which
    is also what the program builds itself ([None], [bool], [int],
    [float], [str], [list], [dict] with [str] keys, in insertion
    order). *)
Inductive value :=
| PNone
| PBool (b : bool)
| PInt (z : Z)
| PFloat (f : pyfloat)
| PStr (s : string)
| PList (l : list value)
| PDict (d : list (string * value)).

(** Keys of the dictionary [self.parameters].  Its keys are [str] until
    [dict.update] is fed a sequence of pairs, which can bring in any
    hashable object. *)
Inductive key :=
| KNone
| KBool (b : bool)
| KInt (z : Z)
| KFloat (f : pyfloat)
| KStr (s : string).

Definition to_key (v : value) : option key :=
  match v with
  | PNone => Some KNone
  | PBool b => Some (KBool b)
  | PInt z => Some (KInt z)
  | PFloat f => Some (KFloat f)
  | PStr s => Some (KStr s)
  | PList _ | PDict _ => None
  end.

(** [m1 * 10^e1 = m2 * 10^e2], on integers. *)
Definition dec_eqb (m1 e1 m2 e2 : Z) : bool :=
  let e := Z.min e1 e2 in
  Z.eqb (m1 * 10 ^ (e1 - e)) (m2 * 10 ^ (e2 - e)).

(** The number a numeric key stands for: [True == 1 == 1.0]. *)
Definition key_number (k : key) : option pyfloat :=
  match k with
  | KBool b => Some (FFin (if b then 1 else 0) 0)
  | KInt z => Some (FFin z 0)
  | KFloat f => Some f
  | KNone | KStr _ => None
  end.

Definition float_eqb (f g : pyfloat) : bool :=
  match f, g with
  | FFin m1 e1, FFin m2 e2 => dec_eqb m1 e1 m2 e2
  | FInf a, FInf b => Bool.eqb a b
  | _, _ => false
  end.

(** [k1 == k2] on hashable objects. *)
Definition key_eqb (k1 k2 : key) : bool :=
  match k1, k2 with
  | KNone, KNone => true
  | KStr s, KStr t => String.eqb s t
  | _, _ =>
      match key_number k1, key_number k2 with
      | Some f, Some g => float_eqb f g
      | _, _ => false
      end
  end.

(** [bool(v)]. *)
Definition truthy (v : value) : bool :=
  match v with
  | PNone => false
  | PBool b => b
  | PInt z => negb (Z.eqb z 0)
  | PFloat (FFin m _) => negb (Z.eqb m 0)
  | PFloat _ => true
  | PStr s => negb (String.eqb s "")
  | PList l => match l with [] => false | _ => true end
  | PDict d => match d with [] => false | _ => true end
  end.

(** [str(z)] for an [int]. *)
Definition dec (z : Z) : string := NilZero.string_of_int (Z.to_int z).

(* ================================================================== *)
(** ** Exceptions                                                       *)
(* ================================================================== *)

(** The exception classes that can reach the [except] clauses of
    [OllamaChat], each with its [str(e)]. *)
Inductive exn :=
| ConnectionError (msg : string)       (* requests: no answer from the server *)
| HTTPError (msg : string)             (* requests: raise_for_status *)
| ChunkedEncodingError (msg : string)  (* requests: the body broke off *)
| RequestsJSONDecodeError (msg : string) (* requests: Response.json() *)
| JSONDecodeError (msg : string)       (* json.load, json.loads *)
| ValueError (msg : string)
| TypeError (msg : string)
| KeyError (msg : string)
| AttributeError (msg : string)
| OverflowError (msg : string)
| OSError (msg : string)               (* FileNotFoundError, PermissionError *)
| ConfigParserError (msg : string).    (* configparser.Error *)

Definition str_exn (e : exn) : string :=
  match e with
  | ConnectionError m | HTTPError m | ChunkedEncodingError m
  | RequestsJSONDecodeError m | JSONDecodeError m | ValueError m
  | TypeError m | KeyError m | AttributeError m | OverflowError m
  | OSError m | ConfigParserError m => m
  end.

(** [isinstance(e, requests.exceptions.RequestException)]. *)
Definition is_RequestException (e : exn) : bool :=
  match e with
  | ConnectionError _ | HTTPError _ | ChunkedEncodingError _
  | RequestsJSONDecodeError _ => true
  | _ => false
  end.

(** [isinstance(e, ValueError)]: both JSON decoding errors derive from
    it. *)
Definition is_ValueError (e : exn) : bool :=
  match e with
  | ValueError _ | JSONDecodeError _ | RequestsJSONDecodeError _ => true
  | _ => false
  end.

(** What a library call that touches no state gives: a result or an
    exception. *)
Inductive outcome (A : Type) :=
| Fine (a : A)
| Raised (e : exn).
Arguments Fine {A} a.
Arguments Raised {A} e.

(* ================================================================== *)
(** ** Dictionaries                                                     *)
(* ================================================================== *)

(** A [dict] is the list of its items in insertion order. *)
Section Items.
Context {K V : Type} (eqb : K -> K -> bool).

(** [d.get(k)] *)
Fixpoint items_get (k : K) (d : list (K * V)) : option V :=
  match d with
  | [] => None
  | (k', v) :: d' => if eqb k k' then Some v else items_get k d'
  end.

(** [k in d] *)
Definition items_mem (k : K) (d : list (K * V)) : bool :=
  match items_get k d with Some _ => true | None => false end.

(** [d[k] = v]: an existing item keeps its key and its place. *)
Fixpoint items_set (k : K) (v : V) (d : list (K * V)) : list (K * V) :=
  match d with
  | [] => [(k, v)]
  | (k', v') :: d' =>
      if eqb k k' then (k', v) :: d' else (k', v') :: items_set k v d'
  end.
End Items.

Definition dict_get := items_get (V := value) String.eqb.
Definition dict_mem := items_mem (V := value) String.eqb.
Definition dict_set := items_set (V := value) String.eqb.

(** [d.get(k, default)] *)
Definition dict_get_default (k : string) (default : value)
    (d : list (string * value)) : value :=
  match dict_get k d with Some v => v | None => default end.

Definition param_get := items_get (V := value) key_eqb.
Definition param_mem := items_mem (V := value) key_eqb.
Definition param_set := items_set (V := value) key_eqb.

(** [v[k]] for a [str] index [k]. *)
Definition subscript (v : value) (k : string) : outcome value :=
  match v with
  | PDict d =>
      match dict_get k d with
      | Some x => Fine x
      | None => Raised (KeyError k)
      end
  | PList _ => Raised (TypeError "list indices must be integers or slices, not str")
  | PStr _ => Raised (TypeError "string indices must be integers, not 'str'")
  | _ => Raised (TypeError "object is not subscriptable")
  end.

(** The one-character strings of [s]: what iterating a [str] yields. *)
Fixpoint chars (s : string) : list string :=
  match s with
  | EmptyString => []
  | String c s' => String c EmptyString :: chars s'
  end.

(** [iter(v)]: the elements of a list, the keys of a dict, the
    characters of a string. *)
Definition py_iter (v : value) : outcome (list value) :=
  match v with
  | PList l => Fine l
  | PDict d => Fine (map (fun kv => PStr (fst kv)) d)
  | PStr s => Fine (map PStr (chars s))
  | _ => Raised (TypeError "object is not iterable")
  end.

(** [sub in s] for two strings. *)
Fixpoint is_substring (sub s : string) : bool :=
  String.prefix sub s ||
  match s with
  | EmptyString => false
  | String _ s' => is_substring sub s'
  end.

(** [k in v] for a [str] [k]: a key of a dict, an element of a list, a
    substring of a string. *)
Definition contains (k : string) (v : value) : outcome bool :=
  match v with
  | PDict d => Fine (dict_mem k d)
  | PList l =>
      Fine (existsb (fun x => match x with PStr s => String.eqb k s | _ => false end) l)
  | PStr s => Fine (is_substring k s)
  | _ => Raised (TypeError "argument is not iterable")
  end.

(** [text + v] with [text] a [str]. *)
Definition str_add (text : string) (v : value) : outcome string :=
  match v with
  | PStr s => Fine (text +:+ s)
  | _ => Raised (TypeError "can only concatenate str to str")
  end.

(** [l.append(x)] *)
Definition append (l x : value) : outcome value :=
  match l with
  | PList xs => Fine (PList (xs ++ [x]))
  | _ => Raised (AttributeError "object has no attribute 'append'")
  end.

(** One element of the sequence given to [dict.update]: it must unpack
    into a key and a value. *)
Definition update_item (x : value) (d : list (key * value))
    : outcome (list (key * value)) :=
  match py_iter x with
  | Raised _ =>
      Raised (TypeError "cannot convert dictionary update sequence element to a sequence")
  | Fine [k; v] =>
      match to_key k with
      | Some k' => Fine (param_set k' v d)
      | None => Raised (TypeError "unhashable type")
      end
  | Fine _ =>
      Raised (ValueError "dictionary update sequence element has length other than 2")
  end.

(** The items before a bad element are already stored when it raises:
    the dictionary reached comes with the result. *)
Fixpoint update_items (xs : list value) (d : list (key * value))
    : list (key * value) * option exn :=
  match xs with
  | [] => (d, None)
  | x :: xs' =>
      match update_item x d with
      | Fine d' => update_items xs' d'
      | Raised e => (d, Some e)
      end
  end.

(** [d.update(other)]: [other] is a mapping, or an iterable of pairs. *)
Definition dict_update (d : list (key * value)) (other : value)
    : list (key * value) * option exn :=
  match other with
  | PDict o =>
      (fold_left
         (fun acc k => match dict_get k o with
                       | Some v => param_set (KStr k) v acc
                       | None => acc
                       end)
         (map fst o) d, None)
  | _ =>
      match py_iter other with
      | Fine xs => update_items xs d
      | Raised e => (d, Some e)
      end
  end.

(* ================================================================== *)
(** ** Library functions taken as given                                 *)
(* ================================================================== *)

(** The contents of a [configparser.ConfigParser]: the [DEFAULT] section
    and the named sections, each an ordered list of options. *)
Record config := {
  defaults : list (string * string);
  sections : list (string * list (string * string))
}.

(** Functions of the Python library that convert between text and
    numbers, and the text transformations of [configparser].  Their
    definitions are not part of the program: the development is stated
    for any such functions. *)
Class Builtins := {
  (** [str(v)], which is also what an f-string inserts for [v] *)
  py_str : value -> string;
  (** [float(s)] for a [str]; [None] when it raises [ValueError] *)
  float_of_str : string -> option pyfloat;
  (** [s.lower()], the [optionxform] of [ConfigParser] *)
  str_lower : string -> string;
  (** [BasicInterpolation.before_get]: the value of an option whose raw
      text is given, in a section of a configuration; [None] when it
      raises [InterpolationError] *)
  interpolate : config -> string -> string -> option string;
  (** what [ConfigParser.read] finds in a file written by
      [ConfigParser.write] *)
  ini_reread : config -> config
}.

(** [float(v)].  An [int] of magnitude [2^1024 - 2^970] or more has no
    float. *)
Definition float_limit : Z := 2 ^ 1024 - 2 ^ 970.

Definition py_float `{Builtins} (v : value) : outcome pyfloat :=
  match v with
  | PStr s =>
      match float_of_str s with
      | Some f => Fine f
      | None => Raised (ValueError ("could not convert string to float: " +:+ s))
      end
  | PInt z =>
      if Z.ltb (Z.abs z) float_limit then Fine (FFin z 0)
      else Raised (OverflowError "int too large to convert to float")
  | PBool b => Fine (FFin (if b then 1 else 0) 0)
  | PFloat f => Fine f
  | _ => Raised (TypeError "float() argument must be a string or a real number")
  end.

(** The key [json.dump] writes for a key of a dictionary. *)
Definition json_key `{Builtins} (k : key) : string :=
  match k with
  | KStr s => s
  | KNone => "null"
  | KBool true => "true"
  | KBool false => "false"
  | KInt z => dec z
  | KFloat f => py_str (PFloat f)
  end.

(** [self.parameters] as [json.load] reads it back from what
    [json.dump] wrote. *)
Definition json_of_params `{Builtins} (p : list (key * value)) : value :=
  PDict (fold_left (fun d kv => dict_set (json_key (fst kv)) (snd kv) d) p []).

(* ================================================================== *)
(** ** configparser                                                     *)
(* ================================================================== *)

(** [value.replace('%%', '')] *)
Fixpoint drop_escaped (s : string) : string :=
  match s with
  | String "%" (String "%" r) => drop_escaped r
  | String c r => String c (drop_escaped r)
  | EmptyString => EmptyString
  end.

(** The scan of [BasicInterpolation.before_set]: once the matches of
    [%\(([^)]+)\)s] are removed, no ["%"] may remain. *)
Inductive scan := Idle | Percent | Opened | InKey | Closed.

Fixpoint keys_only (st : scan) (s : string) : bool :=
  match s with
  | EmptyString => match st with Idle => true | _ => false end
  | String c r =>
      match st with
      | Idle => if Ascii.eqb c "%" then keys_only Percent r else keys_only Idle r
      | Percent => if Ascii.eqb c "(" then keys_only Opened r else false
      | Opened => if Ascii.eqb c ")" then false else keys_only InKey r
      | InKey => if Ascii.eqb c ")" then keys_only Closed r else keys_only InKey r
      | Closed => if Ascii.eqb c "s" then keys_only Idle r else false
      end
  end.

Definition valid_interpolation (s : string) : bool :=
  keys_only Idle (drop_escaped s).

(** [name in config] *)
Definition cfg_has_section (name : string) (c : config) : bool :=
  String.eqb name "DEFAULT" || items_mem String.eqb name (sections c).

(** [config[name] = {}] for a section that is not there yet. *)
Definition cfg_new_section (name : string) (c : config) : config :=
  {| defaults := defaults c; sections := sections c ++ [(name, [])] |}.

(** The raw text of an option: the section's own, else the default. *)
Definition cfg_raw `{Builtins} (sect k : string) (c : config) : option string :=
  match items_get String.eqb sect (sections c) with
  | Some opts =>
      match items_get String.eqb (str_lower k) opts with
      | Some v => Some v
      | None => items_get String.eqb (str_lower k) (defaults c)
      end
  | None => None
  end.

(** [k in config[sect]] *)
Definition cfg_has_option `{Builtins} (sect k : string) (c : config) : bool :=
  match cfg_raw sect k c with Some _ => true | None => false end.

(** [config[sect][k]] *)
Definition cfg_get `{Builtins} (sect k : string) (c : config) : outcome string :=
  match cfg_raw sect k c with
  | Some raw =>
      match interpolate c sect raw with
      | Some v => Fine v
      | None => Raised (ConfigParserError "bad interpolation")
      end
  | None => Raised (KeyError k)
  end.

(** [config[sect][k] = v] for a section that exists: the value must be a
    [str], and a non-empty one must pass [before_set]. *)
Definition cfg_set `{Builtins} (sect k : string) (v : value) (c : config)
    : outcome config :=
  match v with
  | PStr s =>
      if negb (String.eqb s "") && negb (valid_interpolation s)
      then Raised (ValueError ("invalid interpolation syntax in " +:+ s))
      else
        Fine {| defaults := defaults c;
                sections :=
                  map (fun so =>
                         if String.eqb (fst so) sect
                         then (fst so, items_set String.eqb (str_lower k) s (snd so))
                         else so)
                      (sections c) |}
  | _ => Raised (TypeError "option values must be strings")
  end.

(* ================================================================== *)
(** ** The session and its world                                        *)
(* ================================================================== *)

(** The attributes of an [OllamaChat] object. *)
Record session := {
  base_url : string;
  model : value;
  api_generate : string;
  api_chat : string;
  api_models : string;
  conversation : value;
  save_dir : string;
  system_prompt : value;
  chat_name : value;
  parameters : list (key * value);
  config_ : config
}.

(** A file, by what its readers find in it: a JSON document (what
    [json.load] returns), a configuration (what [ConfigParser.read]
    finds), or text that is neither. *)
Inductive file :=
| Json (doc : value)
| Ini (c : config)
| Text (s : string).

(** The disk maps a path to a file; directories are not modelled.
    [denied] holds the paths [open] and [os.rename] refuse with an
    [OSError] (no permission, no such directory).  [logged] is what
    went to the logger, [sunk] the arguments the stream callback
    received.  Of the window only [current_file_path] is kept; what it
    displays is not modelled. *)
Record world := {
  self : session;
  files : gmap string file;
  denied : gset string;
  logged : list string;
  sunk : list value;
  current_file_path : option string   (* attribute of the GUI object *)
}.

Definition with_self (s : session) (w : world) : world :=
  {| self := s; files := files w; denied := denied w;
     logged := logged w; sunk := sunk w;
     current_file_path := current_file_path w |}.

Definition with_files (fs : gmap string file) (w : world) : world :=
  {| self := self w; files := fs; denied := denied w;
     logged := logged w; sunk := sunk w;
     current_file_path := current_file_path w |}.

Definition with_logged (l : list string) (w : world) : world :=
  {| self := self w; files := files w; denied := denied w;
     logged := l; sunk := sunk w;
     current_file_path := current_file_path w |}.

Definition with_sunk (l : list value) (w : world) : world :=
  {| self := self w; files := files w; denied := denied w;
     logged := logged w; sunk := l;
     current_file_path := current_file_path w |}.

Definition with_current_file_path (p : option string) (w : world) : world :=
  {| self := self w; files := files w; denied := denied w;
     logged := logged w; sunk := sunk w; current_file_path := p |}.

Definition with_model (v : value) (s : session) : session :=
  {| base_url := base_url s; model := v; api_generate := api_generate s;
     api_chat := api_chat s; api_models := api_models s;
     conversation := conversation s; save_dir := save_dir s;
     system_prompt := system_prompt s; chat_name := chat_name s;
     parameters := parameters s; config_ := config_ s |}.

Definition with_base_url (u : string) (s : session) : session :=
  {| base_url := u; model := model s; api_generate := api_generate s;
     api_chat := api_chat s; api_models := api_models s;
     conversation := conversation s; save_dir := save_dir s;
     system_prompt := system_prompt s; chat_name := chat_name s;
     parameters := parameters s; config_ := config_ s |}.

Definition with_endpoint (u : string) (s : session) : session :=
  {| base_url := u; model := model s;
     api_generate := u +:+ "/api/generate";
     api_chat := u +:+ "/api/chat";
     api_models := u +:+ "/api/tags";
     conversation := conversation s; save_dir := save_dir s;
     system_prompt := system_prompt s; chat_name := chat_name s;
     parameters := parameters s; config_ := config_ s |}.

Definition with_conversation (v : value) (s : session) : session :=
  {| base_url := base_url s; model := model s; api_generate := api_generate s;
     api_chat := api_chat s; api_models := api_models s;
     conversation := v; save_dir := save_dir s;
     system_prompt := system_prompt s; chat_name := chat_name s;
     parameters := parameters s; config_ := config_ s |}.

Definition with_system_prompt (v : value) (s : session) : session :=
  {| base_url := base_url s; model := model s; api_generate := api_generate s;
     api_chat := api_chat s; api_models := api_models s;
     conversation := conversation s; save_dir := save_dir s;
     system_prompt := v; chat_name := chat_name s;
     parameters := parameters s; config_ := config_ s |}.

Definition with_chat_name (v : value) (s : session) : session :=
  {| base_url := base_url s; model := model s; api_generate := api_generate s;
     api_chat := api_chat s; api_models := api_models s;
     conversation := conversation s; save_dir := save_dir s;
     system_prompt := system_prompt s; chat_name := v;
     parameters := parameters s; config_ := config_ s |}.

Definition with_parameters (p : list (key * value)) (s : session) : session :=
  {| base_url := base_url s; model := model s; api_generate := api_generate s;
     api_chat := api_chat s; api_models := api_models s;
     conversation := conversation s; save_dir := save_dir s;
     system_prompt := system_prompt s; chat_name := chat_name s;
     parameters := p; config_ := config_ s |}.

Definition with_config (c : config) (s : session) : session :=
  {| base_url := base_url s; model := model s; api_generate := api_generate s;
     api_chat := api_chat s; api_models := api_models s;
     conversation := conversation s; save_dir := save_dir s;
     system_prompt := system_prompt s; chat_name := chat_name s;
     parameters := parameters s; config_ := c |}.

(* ================================================================== *)
(** ** Methods: state and exceptions                                    *)
(* ================================================================== *)

Inductive res (A : Type) :=
| Ret (a : A) (w : world)
| Exc (e : exn) (w : world).
Arguments Ret {A} a w.
Arguments Exc {A} e w.

Definition M (A : Type) : Type := world -> res A.

Definition ret {A} (a : A) : M A := fun w => Ret a w.

Definition raise {A} (e : exn) : M A := fun w => Exc e w.

Definition bind {A B} (m : M A) (k : A -> M B) : M B :=
  fun w => match m w with
           | Ret a w' => k a w'
           | Exc e w' => Exc e w'
           end.

Declare Scope py_scope.
Delimit Scope py_scope with py.
Notation "'let*' x ':=' m 'in' k" := (bind m (fun x => k))
  (at level 10, x name, m at level 100, k at level 200) : py_scope.
Notation "m ';;;' k" := (bind m (fun _ => k))
  (at level 100, k at level 200, right associativity) : py_scope.
Local Open Scope py_scope.

(** The result of a library call, inside a method. *)
Definition lift {A} (o : outcome A) : M A :=
  match o with
  | Fine a => ret a
  | Raised e => raise e
  end.

(** [try: m  except <class> as e: h e] *)
Definition try_except {A} (m : M A) (caught : exn -> bool) (h : exn -> M A)
    : M A :=
  fun w => match m w with
           | Ret a w' => Ret a w'
           | Exc e w' => if caught e then h e w' else Exc e w'
           end.

Definition any_Exception (e : exn) : bool := true.

(** Reading and writing the attributes of [self]. *)
Definition attr {A} (f : session -> A) : M A := fun w => Ret (f (self w)) w.

Definition assign (f : session -> session) : M unit :=
  fun w => Ret tt (with_self (f (self w)) w).

(** [logger.error(msg)], [logger.info(msg)] *)
Definition log (msg : string) : M unit :=
  fun w => Ret tt (with_logged (logged w ++ [msg]) w).

(* ================================================================== *)
(** ** The disk                                                         *)
(* ================================================================== *)

(** [os.path.exists(p)] *)
Definition path_exists (p : string) : M bool :=
  fun w => Ret (bool_decide (is_Some (files w !! p))) w.

(** [open(p, "r")] and reading the whole file. *)
Definition open_read (p : string) : M file :=
  fun w =>
    if bool_decide (p ∈ denied w)
    then Exc (OSError ("Permission denied: " +:+ p)) w
    else match files w !! p with
         | Some f => Ret f w
         | None => Exc (OSError ("No such file or directory: " +:+ p)) w
         end.

(** [open(p, "w")]: the file is created or emptied. *)
Definition open_write (p : string) : M unit :=
  fun w =>
    if bool_decide (p ∈ denied w)
    then Exc (OSError ("Permission denied: " +:+ p)) w
    else Ret tt (with_files (<[p := Text ""]> (files w)) w).

(** [file.write(text)] on the file opened at [p].  The text is taken to
    be encodable in the encoding of the file. *)
Definition file_write (p text : string) : M unit :=
  fun w =>
    match files w !! p with
    | Some (Text t) => Ret tt (with_files (<[p := Text (t +:+ text)]> (files w)) w)
    | _ => Ret tt (with_files (<[p := Text text]> (files w)) w)
    end.

(** [json.dump(doc, file)] on the file opened at [p]. *)
Definition json_dump (doc : value) (p : string) : M unit :=
  fun w => Ret tt (with_files (<[p := Json doc]> (files w)) w).

(** [json.load(file)] *)
Definition json_load (f : file) : outcome value :=
  match f with
  | Json doc => Fine doc
  | _ => Raised (JSONDecodeError "Expecting value")
  end.

(** [os.rename(src, dst)]: [dst] is replaced when it exists. *)
Definition os_rename (src dst : string) : M unit :=
  fun w =>
    if bool_decide (src ∈ denied w) || bool_decide (dst ∈ denied w)
    then Exc (OSError ("Permission denied: " +:+ src)) w
    else match files w !! src with
         | Some f => Ret tt (with_files (<[dst := f]> (delete src (files w))) w)
         | None => Exc (OSError ("No such file or directory: " +:+ src)) w
         end.

(** *** Paths ([posixpath]) *)

Definition slash : ascii := "/"%char.

(** [p[:i]] and [p[i:]] for [i = p.rfind('/') + 1]. *)
Fixpoint split_path (s head cur : string) : string * string :=
  match s with
  | EmptyString => (head, cur)
  | String c r =>
      if Ascii.eqb c slash
      then split_path r (head +:+ cur +:+ "/") ""
      else split_path r head (cur +:+ String c "")
  end.

Fixpoint rstrip_slash (s : string) : string :=
  match s with
  | EmptyString => EmptyString
  | String c r =>
      let r' := rstrip_slash r in
      if String.eqb r' "" && Ascii.eqb c slash then "" else String c r'
  end.

(** [os.path.dirname(p)]: a head made of slashes only is kept whole. *)
Definition dirname (p : string) : string :=
  let head := fst (split_path p "" "") in
  if String.eqb (rstrip_slash head) "" then head else rstrip_slash head.

(** [os.path.basename(p)] *)
Definition basename (p : string) : string := snd (split_path p "" "").

Fixpoint ends_with_slash (s : string) : bool :=
  match s with
  | EmptyString => false
  | String c EmptyString => Ascii.eqb c slash
  | String _ r => ends_with_slash r
  end.

(** [os.path.join(a, b)] *)
Definition path_join (a b : string) : string :=
  if String.prefix "/" b then b
  else if String.eqb a "" || ends_with_slash a then a +:+ b
  else a +:+ "/" +:+ b.

(** [s.split('.')[0]] *)
Fixpoint before_dot (s : string) : string :=
  match s with
  | EmptyString => EmptyString
  | String c r => if Ascii.eqb c "." then "" else String c (before_dot r)
  end.

(** [s.replace(old, new)] for a non-empty [old]: every occurrence, from
    the left, without overlap.  [skip] counts the characters of a
    replaced occurrence still to pass. *)
Fixpoint replace_from (old new : string) (skip : nat) (s : string) : string :=
  match s with
  | EmptyString => EmptyString
  | String c r =>
      match skip with
      | S n => replace_from old new n r
      | O =>
          if String.prefix old s
          then new +:+ replace_from old new (Nat.pred (String.length old)) r
          else String c (replace_from old new O r)
      end
  end.

Definition str_replace (old new s : string) : string :=
  replace_from old new O s.

(** [s.endswith(suffix)] *)
Definition ends_with (suffix s : string) : bool :=
  (String.length suffix <=? String.length s)%nat &&
  String.eqb
    (String.substring (String.length s - String.length suffix)
       (String.length suffix) s)
    suffix.

(** [s[:s.rfind('.')]], when [s] has a dot. *)
Fixpoint before_last_dot (s : string) : option string :=
  match s with
  | EmptyString => None
  | String c r =>
      match before_last_dot r with
      | Some t => Some (String c t)
      | None => if Ascii.eqb c "." then Some EmptyString else None
      end
  end.

Fixpoint all_dots (s : string) : bool :=
  match s with
  | EmptyString => true
  | String c r => Ascii.eqb c "." && all_dots r
  end.

(** [os.path.splitext(p)[0]]: the extension starts at the last dot of
    the last component, the dots that lead the component apart. *)
Definition splitext_root (p : string) : string :=
  let head := fst (split_path p "" "") in
  match before_last_dot (basename p) with
  | Some stem => if all_dots stem then p else head +:+ stem
  | None => p
  end.

(* ================================================================== *)
(** ** The server                                                       *)
(* ================================================================== *)

(** A line of [response.iter_lines()]: empty, a JSON document (what
    [json.loads] returns for it), or bytes [json.loads] rejects. *)
Inductive line :=
| Blank
| Fragment (doc : value)
| Garbled (raw : string).

(** An HTTP response: [body] is what [response.json()] returns ([None]
    when the body is not JSON); [lines] are the lines [iter_lines]
    yields, after which it stops, or raises when the connection
    [broke]. *)
Record response := {
  status_code : Z;
  reason : string;
  url : string;
  body : option value;
  lines : list line;
  broke : option string
}.

(** What [requests.post] and [requests.get] give: an exception of
    [requests] (no connection, time-out, bad URL), or a response. *)
Inductive http_result :=
| Failed (msg : string)
| Answered (r : response).

Definition http (r : http_result) : M response :=
  match r with
  | Failed msg => raise (ConnectionError msg)
  | Answered resp => ret resp
  end.

(** [response.raise_for_status()] *)
Definition raise_for_status (r : response) : M unit :=
  if Z.leb 400 (status_code r) && Z.ltb (status_code r) 500 then
    raise (HTTPError (dec (status_code r) +:+ " Client Error: " +:+ reason r
                      +:+ " for url: " +:+ url r))
  else if Z.leb 500 (status_code r) && Z.ltb (status_code r) 600 then
    raise (HTTPError (dec (status_code r) +:+ " Server Error: " +:+ reason r
                      +:+ " for url: " +:+ url r))
  else ret tt.

(** [response.json()]: the error is the one of [requests], a
    [RequestException]. *)
Definition response_json (r : response) : M value :=
  match body r with
  | Some v => ret v
  | None => raise (RequestsJSONDecodeError "Expecting value")
  end.

(** [json.loads(line)] *)
Definition json_loads (l : line) : outcome value :=
  match l with
  | Fragment doc => Fine doc
  | Blank => Raised (JSONDecodeError "Expecting value")
  | Garbled _ => Raised (JSONDecodeError "Expecting value")
  end.

(** [if line:] *)
Definition line_truthy (l : line) : bool :=
  match l with Blank => false | _ => true end.

(** A stream callback: called with a chunk of text, it acts on the
    world.  [recorder] is the callback that keeps what it is given. *)
Definition callback : Type := value -> M unit.

Definition recorder : callback :=
  fun v w => Ret tt (with_sunk (sunk w ++ [v]) w).

(* ================================================================== *)
(** ** class OllamaChat                                                 *)
(* ================================================================== *)

Definition nl : string := String (ascii_of_nat 10) EmptyString.

Fixpoint repeat_string (s : string) (n : nat) : string :=
  match n with
  | O => EmptyString
  | S n' => s +:+ repeat_string s n'
  end.

(** The readings of [datetime.now()] in [save_conversation]: for the
    file name, for the record, for the transcript. *)
Record clock := {
  stamp : string;        (* strftime("%Y%m%d_%H%M%S") *)
  isoformat : string;    (* isoformat() *)
  readable : string      (* strftime('%Y-%m-%d %H:%M:%S') *)
}.

Section OllamaChat.
Context `{Builtins}.

Definition default_parameters : list (key * value) :=
  [ (KStr "temperature", PFloat (FFin 7 (-1)));
    (KStr "top_p", PFloat (FFin 9 (-1)));
    (KStr "top_k", PInt 40);
    (KStr "max_tokens", PInt 2000) ].

Definition empty_config : config := {| defaults := []; sections := [] |}.

(** [self.config.read(p)]: a file that cannot be opened is passed
    over. *)
Definition config_read (p : string) : M config :=
  fun w =>
    if bool_decide (p ∈ denied w) then Ret empty_config w
    else match files w !! p with
         | Some (Ini c) => Ret c w
         | Some _ => Exc (ConfigParserError "File contains parsing errors") w
         | None => Ret empty_config w
         end.

(** [self.parameters[k] = v] *)
Definition parameters_setitem (k : key) (v : value) : M unit :=
  assign (fun s => with_parameters (param_set k v (parameters s)) s).

(** The loop of [__init__] over the keys of [self.parameters]. *)
Fixpoint init_parameters (keys : list key) : M unit :=
  match keys with
  | [] => ret tt
  | k :: keys' =>
      let* c := attr config_ in
      match k with
      | KStr name =>
          if cfg_has_option "Parameters" name c then
            let* text := lift (cfg_get "Parameters" name c) in
            let* f := lift (py_float (PStr text)) in
            parameters_setitem k (PFloat f) ;;;
            init_parameters keys'
          else init_parameters keys'
      | _ => raise (AttributeError "object has no attribute 'lower'")
      end
  end.

(** [OllamaChat.__init__(base_url, model)].  The directory
    [chat_history] is not created here: the disk has no directories. *)
Definition init (base_url0 model0 : string) : M unit :=
  assign (fun _ =>
    {| base_url := base_url0;
       model := PStr model0;
       api_generate := base_url0 +:+ "/api/generate";
       api_chat := base_url0 +:+ "/api/chat";
       api_models := base_url0 +:+ "/api/tags";
       conversation := PList [];
       save_dir := "chat_history";
       system_prompt := PStr "";
       chat_name := PStr "";
       parameters := default_parameters;
       config_ := empty_config |}) ;;;
  let* found := path_exists "config.ini" in
  if found then
    let* c0 := config_read "config.ini" in
    assign (with_config c0) ;;;
    let* c := attr config_ in
    (if cfg_has_section "Ollama" c then
       (if cfg_has_option "Ollama" "base_url" c then
          let* v := lift (cfg_get "Ollama" "base_url" c) in
          assign (with_base_url v)
        else ret tt) ;;;
       (if cfg_has_option "Ollama" "model" c then
          let* v := lift (cfg_get "Ollama" "model" c) in
          assign (with_model (PStr v))
        else ret tt) ;;;
       (if cfg_has_option "Ollama" "system_prompt" c then
          let* v := lift (cfg_get "Ollama" "system_prompt" c) in
          assign (with_system_prompt (PStr v))
        else ret tt)
     else ret tt) ;;;
    (if cfg_has_section "Parameters" c then
       let* p := attr parameters in
       init_parameters (map fst p)
     else ret tt)
  else ret tt.

(** [self.config[sect][k] = v] *)
Definition config_set (sect k : string) (v : value) : M unit :=
  let* c := attr config_ in
  let* c' := lift (cfg_set sect k v c) in
  assign (with_config c').

(** [if sect not in self.config: self.config[sect] = {}] *)
Definition config_ensure (sect : string) : M unit :=
  let* c := attr config_ in
  if cfg_has_section sect c then ret tt
  else assign (with_config (cfg_new_section sect c)).

(** The loop of [save_config] over [self.parameters.items()]. *)
Fixpoint save_parameters (items : list (key * value)) : M unit :=
  match items with
  | [] => ret tt
  | (k, v) :: items' =>
      match k with
      | KStr name =>
          config_set "Parameters" name (PStr (py_str v)) ;;;
          save_parameters items'
      | _ => raise (TypeError "option keys must be strings")
      end
  end.

(** [self.config.write(file)] on the file opened at [p]. *)
Definition config_write (p : string) : M unit :=
  fun w =>
    Ret tt (with_files (<[p := Ini (ini_reread (config_ (self w)))]> (files w)) w).

(** [OllamaChat.save_config()] *)
Definition save_config : M unit :=
  config_ensure "Ollama" ;;;
  let* u := attr base_url in
  config_set "Ollama" "base_url" (PStr u) ;;;
  let* m := attr model in
  config_set "Ollama" "model" m ;;;
  let* sp := attr system_prompt in
  config_set "Ollama" "system_prompt" sp ;;;
  config_ensure "Parameters" ;;;
  let* p := attr parameters in
  save_parameters p ;;;
  open_write "config.ini" ;;;
  config_write "config.ini" ;;;
  log "Configuration saved".

(** The body sent to [/api/generate]: the items whose value is [None]
    are left out. *)
Definition request_data (s : session) (prompt : string) (stream : bool) : value :=
  PDict (List.filter (fun kv => match snd kv with PNone => false | _ => true end)
           [ ("model", model s);
             ("prompt", PStr prompt);
             ("stream", PBool stream);
             ("system", if truthy (system_prompt s) then system_prompt s else PNone);
             ("options", json_of_params (parameters s)) ]).

(** The loop of [chat] over [response.iter_lines()]. *)
Fixpoint stream_lines (stream_callback : callback) (ls : list line)
    (broke_ : option string) (response_text : string) : M string :=
  match ls with
  | [] =>
      match broke_ with
      | Some msg => raise (ChunkedEncodingError msg)
      | None => ret response_text
      end
  | l :: ls' =>
      if line_truthy l then
        let* chunk := lift (json_loads l) in
        let* present := lift (contains "response" chunk) in
        if present then
          let* delta := lift (subscript chunk "response") in
          let* text := lift (str_add response_text delta) in
          stream_callback delta ;;;
          stream_lines stream_callback ls' broke_ text
        else stream_lines stream_callback ls' broke_ response_text
      else stream_lines stream_callback ls' broke_ response_text
  end.

(** [self.conversation.append({"user": prompt, "assistant": answer})] *)
Definition append_exchange (prompt : string) (answer : value) : M unit :=
  let* conv := attr conversation in
  let* conv' :=
    lift (append conv (PDict [("user", PStr prompt); ("assistant", answer)])) in
  assign (with_conversation conv').

(** [stream_callback is not None] *)
Definition is_not_None {A} (o : option A) : bool :=
  match o with Some _ => true | None => false end.

(** [OllamaChat.chat(prompt, stream_callback)].  [post url data stream]
    is what [requests.post] gives. *)
Definition chat (post : string -> value -> bool -> http_result)
    (prompt : string) (stream_callback : option callback) : M value :=
  let* s := attr id in
  let data := request_data s prompt (is_not_None stream_callback) in
  try_except
    (match stream_callback with
     | Some cb =>
         let* response := http (post (api_generate s) data true) in
         raise_for_status response ;;;
         let* response_text := stream_lines cb (lines response) (broke response) "" in
         append_exchange prompt (PStr response_text) ;;;
         ret (PStr response_text)
     | None =>
         let* response := http (post (api_generate s) data false) in
         raise_for_status response ;;;
         let* result := response_json response in
         let* answer := lift (subscript result "response") in
         append_exchange prompt answer ;;;
         lift (subscript result "response")
     end)
    is_RequestException
    (fun e =>
       log ("Error communicating with Ollama: " +:+ str_exn e) ;;;
       ret (PStr ("Error communicating with Ollama: " +:+ str_exn e))).

(** [[model['name'] for model in models]] *)
Fixpoint names_of (models : list value) : outcome (list value) :=
  match models with
  | [] => Fine []
  | m :: ms =>
      match subscript m "name" with
      | Fine n =>
          match names_of ms with
          | Fine ns => Fine (n :: ns)
          | Raised e => Raised e
          end
      | Raised e => Raised e
      end
  end.

(** [OllamaChat.get_models()].  [get url] is what [requests.get]
    gives. *)
Definition get_models (get : string -> http_result) : M (list value) :=
  try_except
    (let* u := attr api_models in
     let* response := http (get u) in
     raise_for_status response ;;;
     let* result := response_json response in
     let* models := lift (subscript result "models") in
     let* ms := lift (py_iter models) in
     lift (names_of ms))
    is_RequestException
    (fun e => log ("Error getting models: " +:+ str_exn e) ;;; ret []).

(** [OllamaChat.check_connection()] *)
Definition check_connection (get : string -> http_result) : M bool :=
  try_except
    (let* u := attr base_url in
     let* response := http (get (u +:+ "/api/version")) in
     raise_for_status response ;;;
     ret true)
    is_RequestException
    (fun _ => ret false).

(** The loop of [save_conversation] over
    [enumerate(self.conversation, 1)], writing to the transcript. *)
Fixpoint write_exchanges (p : string) (i : Z) (exchanges : list value) : M unit :=
  match exchanges with
  | [] => ret tt
  | exchange :: rest =>
      let* u := lift (subscript exchange "user") in
      file_write p ("[" +:+ dec i +:+ "] User: " +:+ py_str u +:+ nl +:+ nl) ;;;
      let* a := lift (subscript exchange "assistant") in
      file_write p ("[" +:+ dec i +:+ "] Assistant: " +:+ py_str a +:+ nl +:+ nl) ;;;
      file_write p (repeat_string "-" 80 +:+ nl +:+ nl) ;;;
      write_exchanges p (i + 1) rest
  end.

(** [OllamaChat.save_conversation(custom_name)] *)
Definition save_conversation (now : clock) (custom_name : option string) : M string :=
  let* conv := attr conversation in
  if negb (truthy conv) then ret "No conversation to save"
  else
    let filename_base :=
      match custom_name with
      | Some n => if String.eqb n "" then "chat_" +:+ stamp now else n
      | None => "chat_" +:+ stamp now
      end in
    assign (with_chat_name (PStr filename_base)) ;;;
    let* s := attr id in
    let filename := save_dir s +:+ "/" +:+ filename_base +:+ ".json" in
    let data :=
      PDict [ ("model", model s);
              ("timestamp", PStr (isoformat now));
              ("system_prompt", system_prompt s);
              ("parameters", json_of_params (parameters s));
              ("chat_name", PStr filename_base);
              ("conversation", conversation s) ] in
    open_write filename ;;;
    json_dump data filename ;;;
    let text_filename := save_dir s +:+ "/" +:+ filename_base +:+ ".txt" in
    open_write text_filename ;;;
    file_write text_filename
      ("Chat with Ollama (" +:+ py_str (model s) +:+ ") - " +:+ readable now
       +:+ nl +:+ nl) ;;;
    (if truthy (system_prompt s)
     then file_write text_filename
            ("System prompt: " +:+ py_str (system_prompt s) +:+ nl +:+ nl)
     else ret tt) ;;;
    let* exchanges := lift (py_iter (conversation s)) in
    write_exchanges text_filename 1 exchanges ;;;
    ret ("Conversation saved to " +:+ filename).

(** [data.get(k, default)] *)
Definition get_method (data : value) (k : string) (default : value) : outcome value :=
  match data with
  | PDict d => Fine (dict_get_default k default d)
  | _ => Raised (AttributeError "object has no attribute 'get'")
  end.

(** [self.parameters.update(other)]: what was stored before an
    exception stays. *)
Definition parameters_update (other : value) : M unit :=
  fun w =>
    let r := dict_update (parameters (self w)) other in
    let w' := with_self (with_parameters (fst r) (self w)) w in
    match snd r with
    | Some e => Exc e w'
    | None => Ret tt w'
    end.

(** [OllamaChat.load_conversation(filename)] *)
Definition load_conversation (filename : string) : M bool :=
  try_except
    (let* f := open_read filename in
     let* data := lift (json_load f) in
     let* m0 := attr model in
     let* m := lift (get_method data "model" m0) in
     assign (with_model m) ;;;
     let* sp := lift (get_method data "system_prompt" (PStr "")) in
     assign (with_system_prompt sp) ;;;
     let* present := lift (contains "parameters" data) in
     (if present then
        let* ps := lift (subscript data "parameters") in
        parameters_update ps
      else ret tt) ;;;
     let* conv := lift (get_method data "conversation" (PList [])) in
     assign (with_conversation conv) ;;;
     let* name := lift (get_method data "chat_name"
                          (PStr (before_dot (basename filename)))) in
     assign (with_chat_name name) ;;;
     ret true)
    any_Exception
    (fun e => log ("Error loading conversation: " +:+ str_exn e) ;;; ret false).

(** [data[k] = v] for a [str] index [k]. *)
Definition setitem (data : value) (k : string) (v : value) : outcome value :=
  match data with
  | PDict d => Fine (PDict (dict_set k v d))
  | PList _ => Raised (TypeError "list indices must be integers or slices, not str")
  | _ => Raised (TypeError "object does not support item assignment")
  end.

(** [OllamaChat.rename_chat_file(old_path, new_name)] *)
Definition rename_chat_file (old_path new_name : string) : M (bool * string) :=
  try_except
    (let dir_path := dirname old_path in
     let new_json_path := path_join dir_path (new_name +:+ ".json") in
     let* taken := path_exists new_json_path in
     if taken then ret (false, "A file with this name already exists")
     else
       os_rename old_path new_json_path ;;;
       let old_txt_path := str_replace ".json" ".txt" old_path in
       let* has_txt := path_exists old_txt_path in
       (if has_txt then
          let new_txt_path := path_join dir_path (new_name +:+ ".txt") in
          os_rename old_txt_path new_txt_path
        else ret tt) ;;;
       let* f := open_read new_json_path in
       let* data := lift (json_load f) in
       let* data' := lift (setitem data "chat_name" (PStr new_name)) in
       open_write new_json_path ;;;
       json_dump data' new_json_path ;;;
       ret (true, new_json_path))
    any_Exception
    (fun e => log ("Error renaming chat file: " +:+ str_exn e) ;;;
              ret (false, str_exn e)).

(** [OllamaChat.set_model(model)] *)
Definition set_model (model0 : string) : M string :=
  assign (with_model (PStr model0)) ;;;
  save_config ;;;
  ret ("Model changed to " +:+ model0).

(** [OllamaChat.set_system_prompt(prompt)] *)
Definition set_system_prompt (prompt : string) : M string :=
  assign (with_system_prompt (PStr prompt)) ;;;
  save_config ;;;
  ret "System prompt updated".

(** [OllamaChat.set_parameter(param, value)] *)
Definition set_parameter (param : string) (v : value) : M string :=
  let* p := attr parameters in
  if param_mem (KStr param) p then
    try_except
      (let* f := lift (py_float v) in
       parameters_setitem (KStr param) (PFloat f) ;;;
       save_config ;;;
       ret ("Parameter " +:+ param +:+ " set to " +:+ py_str v))
      is_ValueError
      (fun _ => ret ("Invalid value for " +:+ param))
  else ret ("Unknown parameter: " +:+ param).

(** [OllamaChat.clear_conversation()] *)
Definition clear_conversation : M string :=
  assign (with_conversation (PList [])) ;;;
  ret "Conversation cleared".

(** [self.current_file_path = p] in the window. *)
Definition set_current_file_path (p : option string) : M unit :=
  fun w => Ret tt (with_current_file_path p w).

(** [OllamaChatGUI.clear_chat()]; [confirmed] is the answer to the
    [askyesno] dialog. *)
Definition clear_chat (confirmed : bool) : M unit :=
  if confirmed then
    let* result := clear_conversation in
    set_current_file_path None ;;;
    assign (with_chat_name (PStr ""))
  else ret tt.

(** [save_settings] of [OllamaChatGUI.show_connection_settings];
    [new_url] is the entry's text, stripped.  The check of the
    connection that follows runs in a thread of its own and changes
    the window only. *)
Definition save_settings (new_url : string) : M unit :=
  if negb (String.eqb new_url "") then
    assign (with_endpoint new_url) ;;;
    save_config
  else ret tt.

(** *** The other handlers of the window

    A handler returns the text of the message box it opens, if it opens
    one; what it writes into the conversation display and the widgets
    is not modelled. *)

(** [self.current_file_path] in the window. *)
Definition get_current_file_path : M (option string) :=
  fun w => Ret (current_file_path w) w.

(** [self.ollama.parameters[name]] *)
Definition parameters_getitem (name : string) : M value :=
  let* p := attr parameters in
  match param_get (KStr name) p with
  | Some v => ret v
  | None => raise (KeyError name)
  end.

(** [s == v] for a [str] [s]. *)
Definition str_eq_value (s : string) (v : value) : bool :=
  match v with
  | PStr t => String.eqb s t
  | _ => false
  end.

(** [OllamaChatGUI.change_model()]; [new_model] is the text of the
    model box, stripped. *)
Definition change_model (new_model : string) : M unit :=
  if negb (String.eqb new_model "") then
    let* result := set_model new_model in
    ret tt
  else ret tt.

(** The loop of [save_params] in [OllamaChatGUI.show_parameters] over
    [param_vars.items()]: the names of the parameters when the dialog
    opened, each with the text now in its entry.  The result is the
    text of the error box, which ends the handler. *)
Fixpoint save_params_entries (param_vars : list (string * string))
    : M (option string) :=
  match param_vars with
  | [] => ret None
  | (param, text) :: rest =>
      let* complaint :=
        try_except
          (let* f := lift (py_float (PStr text)) in
           let* result := set_parameter param (PFloat f) in
           ret None)
          is_ValueError
          (fun _ => ret (Some ("Invalid value for " +:+ param +:+ ": " +:+ text))) in
      match complaint with
      | Some msg => ret (Some msg)
      | None => save_params_entries rest
      end
  end.

(** [save_params]: after the loop the two sliders are set from the
    mapping. *)
Definition save_params (param_vars : list (string * string)) : M (option string) :=
  let* complaint := save_params_entries param_vars in
  match complaint with
  | Some msg => ret (Some msg)
  | None =>
      let* temperature := parameters_getitem "temperature" in
      let* top_p := parameters_getitem "top_p" in
      ret None
  end.

(** [do_rename] in [OllamaChatGUI.rename_current_chat]: [current_name]
    is the name the dialog opened with, [new_name] the text of its
    entry, stripped.  Without a current file [os.path.dirname(None)]
    raises inside [rename_chat_file], which reports it. *)
Definition do_rename (current_name : value) (new_name : string)
    : M (option string) :=
  if negb (String.eqb new_name "") && negb (str_eq_value new_name current_name)
  then
    let* cur := get_current_file_path in
    let* r :=
      match cur with
      | Some p => rename_chat_file p new_name
      | None =>
          let msg := "expected str, bytes or os.PathLike object, not NoneType" in
          log ("Error renaming chat file: " +:+ msg) ;;;
          ret (false, msg)
      end in
    if fst r then
      set_current_file_path (Some (snd r)) ;;;
      assign (with_chat_name (PStr new_name)) ;;;
      ret None
    else ret (Some ("Failed to rename chat: " +:+ snd r))
  else ret None.

(** [OllamaChatGUI.rename_current_chat()], with the dialog it opens:
    [entered] is what the user leaves in the entry, stripped, when
    pressing Rename.  The dialog is modal. *)
Definition rename_current_chat (entered : string) : M (option string) :=
  let* cur := get_current_file_path in
  match cur with
  | None => ret (Some "Please save the chat first before renaming.")
  | Some p =>
      if String.eqb p ""
      then ret (Some "Please save the chat first before renaming.")
      else
        let* there := path_exists p in
        if negb there
        then ret (Some "Please save the chat first before renaming.")
        else
          let* name := attr chat_name in
          let current_name :=
            if truthy name then name else PStr (before_dot (basename p)) in
          do_rename current_name entered
  end.

(** [process_message] in [OllamaChatGUI.send_message]: the thread that
    calls [chat] with the handler that displays the chunks.  The
    result is the error the display is given. *)
Definition process_message (post : string -> value -> bool -> http_result)
    (user_message : string) (stream_handler : callback) : M (option string) :=
  try_except
    (let* response := chat post user_message (Some stream_handler) in
     ret None)
    any_Exception
    (fun e =>
       log ("Error sending message: " +:+ str_exn e) ;;;
       ret (Some ("Error: " +:+ str_exn e))).

(** [OllamaChatGUI.save_chat(save_as)]; [chosen] is what the file
    dialog returns, the empty string when it is cancelled.  The
    directory of the chosen file is not created here: the disk has no
    directories. *)
Definition save_chat (now : clock) (save_as : bool) (chosen : string)
    : M (option string) :=
  let* conv := attr conversation in
  if negb (truthy conv) then ret (Some "No conversation to save")
  else
    let* name := attr chat_name in
    if save_as || negb (truthy name) then
      let filename := chosen in
      if String.eqb filename "" then ret None
      else
        let base_name :=
          if ends_with ".json" (str_lower (basename filename))
          then splitext_root (basename filename)
          else basename filename in
        let* s := attr id in
        let data :=
          PDict [ ("model", model s);
                  ("timestamp", PStr (isoformat now));
                  ("system_prompt", system_prompt s);
                  ("parameters", json_of_params (parameters s));
                  ("chat_name", PStr base_name);
                  ("conversation", conversation s) ] in
        open_write filename ;;;
        json_dump data filename ;;;
        let text_filename := splitext_root filename +:+ ".txt" in
        open_write text_filename ;;;
        file_write text_filename
          ("Chat with Ollama (" +:+ py_str (model s) +:+ ") - " +:+ readable now
           +:+ nl +:+ nl) ;;;
        (if truthy (system_prompt s)
         then file_write text_filename
                ("System prompt: " +:+ py_str (system_prompt s) +:+ nl +:+ nl)
         else ret tt) ;;;
        let* exchanges := lift (py_iter (conversation s)) in
        write_exchanges text_filename 1 exchanges ;;;
        set_current_file_path (Some filename) ;;;
        assign (with_chat_name (PStr base_name)) ;;;
        ret None
    else
      let* s := attr id in
      let filename := save_dir s +:+ "/" +:+ py_str (chat_name s) +:+ ".json" in
      let data :=
        PDict [ ("model", model s);
                ("timestamp", PStr (isoformat now));
                ("system_prompt", system_prompt s);
                ("parameters", json_of_params (parameters s));
                ("chat_name", chat_name s);
                ("conversation", conversation s) ] in
      open_write filename ;;;
      json_dump data filename ;;;
      let text_filename := save_dir s +:+ "/" +:+ py_str (chat_name s) +:+ ".txt" in
      open_write text_filename ;;;
      file_write text_filename
        ("Chat with Ollama (" +:+ py_str (model s) +:+ ") - " +:+ readable now
         +:+ nl +:+ nl) ;;;
      (if truthy (system_prompt s)
       then file_write text_filename
              ("System prompt: " +:+ py_str (system_prompt s) +:+ nl +:+ nl)
       else ret tt) ;;;
      let* exchanges := lift (py_iter (conversation s)) in
      write_exchanges text_filename 1 exchanges ;;;
      set_current_file_path (Some filename) ;;;
      ret None.
End OllamaChat.

(* ================================================================== *)
(** ** Reference library functions                                      *)
(* ================================================================== *)

(** Executable stand-ins for the functions of [Builtins], used to run
    the methods on concrete inputs.  They follow Python on the inputs
    below: plain decimal literals, [nan] and [inf] for [float]; [None],
    booleans, integers, strings and floats of moderate size for [str];
    ASCII letters for [lower]; option values without [%(name)s]
    references for the interpolation. *)
Module Reference.

Definition is_digit (c : ascii) : bool :=
  let n := nat_of_ascii c in (48 <=? n)%nat && (n <=? 57)%nat.

Definition digit_value (c : ascii) : Z := Z.of_nat (nat_of_ascii c) - 48.

Definition lower_ascii (c : ascii) : ascii :=
  let n := nat_of_ascii c in
  if (65 <=? n)%nat && (n <=? 90)%nat then ascii_of_nat (n + 32) else c.

Fixpoint lower (s : string) : string :=
  match s with
  | EmptyString => EmptyString
  | String c r => String (lower_ascii c) (lower r)
  end.

Fixpoint lstrip (s : string) : string :=
  match s with
  | String c r => if Ascii.eqb c " " then lstrip r else s
  | EmptyString => EmptyString
  end.

Fixpoint rstrip (s : string) : string :=
  match s with
  | EmptyString => EmptyString
  | String c r =>
      let r' := rstrip r in
      if String.eqb r' "" && Ascii.eqb c " " then "" else String c r'
  end.

(** A run of digits: its value continued from [acc], its length, and
    the rest. *)
Fixpoint digits (s : string) (acc : Z) (n : Z) : Z * Z * string :=
  match s with
  | String c r =>
      if is_digit c then digits r (10 * acc + digit_value c) (n + 1)
      else (acc, n, s)
  | EmptyString => (acc, n, s)
  end.

Definition sign_of (s : string) : bool * string :=
  match s with
  | String "-" r => (true, r)
  | String "+" r => (false, r)
  | _ => (false, s)
  end.

(** The exponent part: [e], a sign, digits, and nothing after. *)
Definition exponent (s : string) : option Z :=
  match s with
  | EmptyString => Some 0
  | String c r =>
      if Ascii.eqb (lower_ascii c) "e" then
        let '(neg, r1) := sign_of r in
        let '(v, n, rest) := digits r1 0 0 in
        if Z.ltb 0 n && String.eqb rest ""
        then Some (if neg then - v else v) else None
      else None
  end.

Definition to_float (text : string) : option pyfloat :=
  let '(neg, s) := sign_of (rstrip (lstrip text)) in
  let w := lower s in
  if String.eqb w "nan" then Some FNan
  else if String.eqb w "inf" || String.eqb w "infinity" then Some (FInf neg)
  else
    let '(ip, n1, r1) := digits s 0 0 in
    let '(m, n2, r2) :=
      match r1 with
      | String "." r => digits r ip 0
      | _ => (ip, 0, r1)
      end in
    if Z.ltb 0 (n1 + n2) then
      match exponent r2 with
      | Some e => Some (FFin (if neg then - m else m) (e - n2))
      | None => None
      end
    else None.

(** The digits of a fraction [m / 10^k], [k] of them. *)
Fixpoint pad (k : nat) (s : string) : string :=
  match k with
  | O => s
  | S k' => if Nat.ltb (String.length s) (S k') then pad k' ("0" +:+ s) else s
  end.

Fixpoint strip_zeros (fuel : nat) (m e : Z) : Z * Z :=
  match fuel with
  | O => (m, e)
  | S fuel' =>
      if Z.ltb e 0 && Z.eqb (m mod 10) 0 && negb (Z.eqb m 0)
      then strip_zeros fuel' (m / 10) (e + 1) else (m, e)
  end.

Definition str_float (f : pyfloat) : string :=
  match f with
  | FNan => "nan"
  | FInf neg => if neg then "-inf" else "inf"
  | FFin m0 e0 =>
      let '(m, e) := strip_zeros (Z.to_nat (- e0)) m0 e0 in
      let sign := if Z.ltb m 0 then "-" else "" in
      let a := Z.abs m in
      if Z.leb 0 e then sign +:+ dec (a * 10 ^ e) +:+ ".0"
      else if Z.eqb a 0 then sign +:+ "0.0"
      else
        let k := Z.to_nat (- e) in
        sign +:+ dec (a / 10 ^ (- e)) +:+ "." +:+ pad k (dec (a mod 10 ^ (- e)))
  end.

Definition to_str (v : value) : string :=
  match v with
  | PNone => "None"
  | PBool b => if b then "True" else "False"
  | PInt z => dec z
  | PFloat f => str_float f
  | PStr s => s
  | PList _ => "[...]"
  | PDict _ => "{...}"
  end.

(** [%%] stands for [%]; any other [%] is refused. *)
Fixpoint unescape (s : string) : option string :=
  match s with
  | String "%" (String "%" r) => option_map (String "%") (unescape r)
  | String "%" _ => None
  | String c r => option_map (String c) (unescape r)
  | EmptyString => Some EmptyString
  end.

Definition builtins : Builtins :=
  {| py_str := to_str;
     float_of_str := to_float;
     str_lower := lower;
     interpolate := fun _ _ raw => unescape raw;
     ini_reread := fun c => c |}.

End Reference.

(* ================================================================== *)
(** ** Vocabulary of the properties                                     *)
(* ================================================================== *)

(** The world a call leaves, whether it returned or raised. *)
Definition final {A} (r : res A) : world :=
  match r with
  | Ret _ w => w
  | Exc _ w => w
  end.

(** The text a line of the stream carries, if it is a JSON object with
    a string under ["response"]. *)
Definition delta_of (l : line) : option string :=
  match l with
  | Fragment (PDict d) =>
      match dict_get "response" d with
      | Some (PStr t) => Some t
      | _ => None
      end
  | _ => None
  end.

(** The lines of a well-formed stream: JSON objects whose ["response"],
    when they have one, is a string; empty lines may come between. *)
Definition text_fragment (l : line) : bool :=
  match l with
  | Blank => true
  | Fragment (PDict d) =>
      match dict_get "response" d with
      | Some (PStr _) | None => true
      | Some _ => false
      end
  | _ => false
  end.

Definition deltas (ls : list line) : list string := omap delta_of ls.

Definition join_text (ts : list string) : string :=
  fold_right String.append "" ts.

(** A status [raise_for_status] lets through. *)
Definition status_ok (r : response) : Prop :=
  status_code r < 400 \/ 600 <= status_code r.

(** The fixed set of generation parameters. *)
Definition fixed_names : list key :=
  [KStr "temperature"; KStr "top_p"; KStr "top_k"; KStr "max_tokens"].

(** An [int] or a [float]. *)
Definition numeric (v : value) : bool :=
  match v with
  | PInt _ | PFloat _ => true
  | _ => false
  end.

(** The keys of the mapping are the fixed names, in their order, and
    every value is a number. *)
Definition parameters_ok (p : list (key * value)) : Prop :=
  map fst p = fixed_names /\ forallb numeric (map snd p) = true.

(** The invariant, on a session. *)
Definition Pok (s : session) : Prop := parameters_ok (parameters s).

(** The operations on a session, [load_conversation] apart. *)
Inductive operation :=
| OpInit (base_url0 model0 : string)
| OpSetParameter (param : string) (v : value)
| OpSetModel (model0 : string)
| OpSetSystemPrompt (prompt : string)
| OpSaveSettings (new_url : string)
| OpSaveConfig
| OpSaveConversation (now : clock) (custom_name : option string)
| OpClearConversation
| OpClearChat (confirmed : bool)
| OpChat (post : string -> value -> bool -> http_result) (prompt : string)
    (streaming : bool)
| OpGetModels (get : string -> http_result)
| OpCheckConnection (get : string -> http_result)
| OpRename (old_path new_name : string).

(** The world an operation leaves. *)
Definition perform `{Builtins} (op : operation) (w : world) : world :=
  match op with
  | OpInit u m => final (init u m w)
  | OpSetParameter param v => final (set_parameter param v w)
  | OpSetModel m => final (set_model m w)
  | OpSetSystemPrompt prompt => final (set_system_prompt prompt w)
  | OpSaveSettings u => final (save_settings u w)
  | OpSaveConfig => final (save_config w)
  | OpSaveConversation now name => final (save_conversation now name w)
  | OpClearConversation => final (clear_conversation w)
  | OpClearChat confirmed => final (clear_chat confirmed w)
  | OpChat post prompt streaming =>
      final (chat post prompt (if streaming then Some recorder else None) w)
  | OpGetModels get => final (get_models get w)
  | OpCheckConnection get => final (check_connection get w)
  | OpRename old_path new_name => final (rename_chat_file old_path new_name w)
  end.

(** The exchange [chat] appends. *)
Definition exchange (prompt : string) (answer : value) : value :=
  PDict [("user", PStr prompt); ("assistant", answer)].

(** [preserves I m]: started in a world where [I] holds, the method [m]
    leaves a world where [I] holds, whether it returns or raises. *)
Definition preserves {A} (I : world -> Prop) (m : M A) : Prop :=
  forall w, I w -> I (final (m w)).

(** An invariant of the session alone: the disk, the logger, the
    callback's record and the window do not matter to it. *)
Definition on_self (P : session -> Prop) : world -> Prop :=
  fun w => P (self w).

(** [result] is an object whose ["models"] is an array of objects, each
    with a ["name"]: [names] are those names, in order. *)
Definition listing (result : value) (names : list value) : Prop :=
  exists d ms,
    result = PDict d /\ dict_get "models" d = Some (PList ms) /\
    Forall2 (fun m n => exists dm, m = PDict dm /\ dict_get "name" dm = Some n)
      ms names.

(** The request for the list did not go through: no answer, a 4xx or
    5xx status, or a body that is not JSON. *)
Definition no_listing (reply : http_result) : Prop :=
  (exists msg, reply = Failed msg) \/
  (exists r, reply = Answered r /\ 400 <= status_code r < 600) \/
  (exists r, reply = Answered r /\ status_ok r /\ body r = None).

(** The record [load_conversation] finds at a path: the file is there,
    can be opened, and holds a JSON object. *)
Definition record_at (filename : string) (w : world)
    : option (list (string * value)) :=
  if bool_decide (filename ∈ denied w) then None
  else match files w !! filename with
       | Some (Json (PDict d)) => Some d
       | _ => None
       end.

(** An exchange of the conversation: an object with a ["user"] and an
    ["assistant"]. *)
Definition is_exchange (v : value) : bool :=
  match v with
  | PDict d => dict_mem "user" d && dict_mem "assistant" d
  | _ => false
  end.

(** The record [save_conversation] writes for a session. *)
Definition chat_record `{Builtins} (now : clock) (name : string) (s : session)
    : value :=
  PDict [ ("model", model s);
          ("timestamp", PStr (isoformat now));
          ("system_prompt", system_prompt s);
          ("parameters", json_of_params (parameters s));
          ("chat_name", PStr name);
          ("conversation", conversation s) ].


(** An invariant of the disk alone. *)
Definition on_files (Q : gmap string file -> Prop) : world -> Prop :=
  fun w => Q (files w).

(** The disk [fs] is the disk [fs0] but for the files at the paths
    [ps]. *)
Definition same_but (ps : list string) (fs0 fs : gmap string file) : Prop :=
  forall p, ~ In p ps -> fs !! p = fs0 !! p.

(** What a key is bound to once the parameters [o] of a record have
    been merged into the mapping [p]: the value of the record, if the
    record has the key. *)
Definition merged (o : list (string * value)) (p : list (key * value))
    (k : key) : option value :=
  match k with
  | KStr s =>
      match dict_get s o with
      | Some v => Some v
      | None => param_get k p
      end
  | _ => param_get k p
  end.

(** A file that is no chat record: it does not hold a JSON object. *)
Definition not_a_record (f : file) : bool :=
  match f with
  | Json (PDict _) => false
  | _ => true
  end.

(* ================================================================== *)
(** ** Scenarios                                                        *)
(* ================================================================== *)

(** A session as [__init__] leaves it when there is no [config.ini]. *)
Definition fresh : session :=
  {| base_url := "http://localhost:11434";
     model := PStr "llama3.2";
     api_generate := "http://localhost:11434/api/generate";
     api_chat := "http://localhost:11434/api/chat";
     api_models := "http://localhost:11434/api/tags";
     conversation := PList [];
     save_dir := "chat_history";
     system_prompt := PStr "";
     chat_name := PStr "";
     parameters := default_parameters;
     config_ := empty_config |}.

(** A session on a disk, before anything was logged or streamed. *)
Definition world_of (s : session) (fs : gmap string file) : world :=
  {| self := s; files := fs; denied := ∅; logged := []; sunk := [];
     current_file_path := None |}.

(** An answer with status 200, its body and its lines. *)
Definition ok_response (b : option value) (ls : list line) : response :=
  {| status_code := 200; reason := "OK";
     url := "http://localhost:11434/api/generate";
     body := b; lines := ls; broke := None |}.

(** A server that streams ["A"], ["B"], ["C"] and a last fragment
    without text. *)
Definition abc_lines : list line :=
  [ Fragment (PDict [("response", PStr "A"); ("done", PBool false)]);
    Fragment (PDict [("response", PStr "B"); ("done", PBool false)]);
    Fragment (PDict [("response", PStr "C"); ("done", PBool false)]);
    Fragment (PDict [("done", PBool true)]) ].

Definition abc_server : string -> value -> bool -> http_result :=
  fun _ _ _ => Answered (ok_response None abc_lines).

(** The same stream closed the way Ollama closes it, by a fragment with
    an empty text. *)
Definition abc_lines_ollama : list line :=
  [ Fragment (PDict [("response", PStr "A"); ("done", PBool false)]);
    Fragment (PDict [("response", PStr "B"); ("done", PBool false)]);
    Fragment (PDict [("response", PStr "C"); ("done", PBool false)]);
    Fragment (PDict [("response", PStr ""); ("done", PBool true)]) ].

(** A server that sends bytes that are not JSON between two texts. *)
Definition garbled_lines : list line :=
  [ Fragment (PDict [("response", PStr "A"); ("done", PBool false)]);
    Garbled "{oops";
    Fragment (PDict [("response", PStr "B"); ("done", PBool true)]) ].

Definition garbled_server : string -> value -> bool -> http_result :=
  fun _ _ _ => Answered (ok_response None garbled_lines).

(** No server is listening. *)
Definition unreachable : string -> value -> bool -> http_result :=
  fun _ _ _ => Failed "Connection refused".

(** A chat record whose parameters hold a name outside the fixed set,
    with a value that is no number. *)
Definition foreign_record : value :=
  PDict [ ("model", PStr "llama3.2");
          ("parameters", PDict [("foo", PStr "bar")]);
          ("conversation", PList []) ].

Definition foreign_disk : gmap string file :=
  {[ "chat_history/foreign.json" := Json foreign_record ]}.

(** A saved chat, named [t1], with one exchange. *)
Definition named : session :=
  with_chat_name (PStr "t1")
    (with_conversation (PList [exchange "hi" (PStr "hello")]) fresh).

(** A server that answers [/api/tags] with the body [b]. *)
Definition tags_server (b : option value) : string -> http_result :=
  fun _ => Answered (ok_response b []).

(** The body of the specification's scenario. *)
Definition two_models : value :=
  PDict [("models", PList [PDict [("name", PStr "a")]; PDict [("name", PStr "b")]])].

(** A JSON body without the field ["models"]. *)
Definition error_body : value := PDict [("error", PStr "unavailable")].



(** A session whose system prompt holds a lone ["%"]. *)
Definition percent : session :=
  with_system_prompt (PStr "Answer in 50% fewer words") fresh.

(** A session with one exchange, and what is used to save it. *)
Definition greeted : session :=
  with_conversation (PList [exchange "hi" (PStr "hello")]) fresh.

(** The clock of the scenarios. *)
Definition noon : clock :=
  {| stamp := "20250101_120000";
     isoformat := "2025-01-01T12:00:00";
     readable := "2025-01-01 12:00:00" |}.

(** A session that knows a parameter the saved one does not. *)
Definition tuned : session :=
  with_parameters (param_set (KStr "seed") (PInt 7) default_parameters) fresh.

(** The disk after the chat of [greeted] was saved under the name
    [a.json]: [save_conversation] wrote [chat_history/a.json.json] and
    [chat_history/a.json.txt]. *)
Definition saved_as_a_json : world :=
  final (save_conversation (H := Reference.builtins) noon (Some "a.json")
           (world_of greeted ∅)).

(** A stream that breaks off after ["A"] and ["B"], and its server. *)
Definition broken_stream : response :=
  {| status_code := 200; reason := "OK";
     url := "http://localhost:11434/api/generate";
     body := None;
     lines := [ Fragment (PDict [("response", PStr "A"); ("done", PBool false)]);
                Fragment (PDict [("response", PStr "B"); ("done", PBool false)]) ];
     broke := Some "Connection broken: IncompleteRead" |}.

Definition breaking_server : string -> value -> bool -> http_result :=
  fun _ _ _ => Answered broken_stream.

(** A server that answers a request without streaming by the body
    [b]. *)
Definition plain_server (b : option value) : string -> value -> bool -> http_result :=
  fun _ _ _ => Answered (ok_response b []).

(** The whole answer of the model, in one body. *)
Definition hello_body : value :=
  PDict [("model", PStr "llama3.2"); ("response", PStr "hello"); ("done", PBool true)].

(** A [config.ini] that names another server, and one whose
    temperature is no number. *)
Definition moved_config : config :=
  {| defaults := [];
     sections := [("Ollama", [("base_url", "http://10.0.0.2:11434")])] |}.

Definition warm_config : config :=
  {| defaults := [];
     sections := [("Parameters", [("temperature", "warm")])] |}.

(** A session set up for another server, with a model and a system
    prompt of its own. *)
Definition remote : session :=
  with_system_prompt (PStr "Be brief.")
    (with_model (PStr "mistral") (with_endpoint "http://10.0.0.2:11434" fresh)).

(** A record that holds a conversation and nothing else, and one that
    sets two parameters, one of them unknown to the program. *)
Definition bare_record : list (string * value) :=
  [("conversation", PList [exchange "q" (PStr "a")])].

Definition seeded_record : list (string * value) :=
  [ ("parameters", PDict [("temperature", PStr "hot"); ("seed", PInt 7)]);
    ("conversation", PList []) ].

(** The disk after the chat of [greeted] was saved under the name
    [a], and the window that has this chat open. *)
Definition saved_as_a : world :=
  final (save_conversation (H := Reference.builtins) noon (Some "a")
           (world_of greeted ∅)).

Definition window_on_a : world :=
  with_current_file_path (Some "chat_history/a.json") saved_as_a.

(** A disk where the place of a chat record holds text that is not
    JSON. *)
Definition scribbled : world :=
  world_of fresh {[ "chat_history/a.json" := Text "not a record" ]}.

(* ================================================================== *)
(** ** Basic facts                                                      *)
(* ================================================================== *)

Lemma append_assoc (a b c : string) : (a +:+ b) +:+ c = a +:+ (b +:+ c).
Proof.
  induction a as [|x a IH]; [reflexivity|].
  change (String x ((a +:+ b) +:+ c) = String x (a +:+ (b +:+ c))).
  now rewrite IH.
Qed.

Lemma append_empty_r (a : string) : a +:+ "" = a.
Proof.
  induction a as [|x a IH]; [reflexivity|].
  change (String x (a +:+ "") = String x a). now rewrite IH.
Qed.

Lemma with_sunk_same (w : world) : with_sunk (sunk w) w = w.
Proof. now destruct w. Qed.

Lemma with_self_same (w : world) : with_self (self w) w = w.
Proof. now destruct w. Qed.

Lemma with_files_same (w : world) : with_files (files w) w = w.
Proof. now destruct w. Qed.

Lemma raise_for_status_ok (r : response) (w : world) :
  status_ok r -> raise_for_status r w = Ret tt w.
Proof.
  unfold status_ok, raise_for_status. intros Hs.
  destruct (Z.leb_spec 400 (status_code r)), (Z.ltb_spec (status_code r) 500),
    (Z.leb_spec 500 (status_code r)), (Z.ltb_spec (status_code r) 600);
    simpl; try reflexivity; lia.
Qed.

Lemma raise_for_status_bad (r : response) (w : world) :
  400 <= status_code r < 600 ->
  exists msg, raise_for_status r w = Exc (HTTPError msg) w.
Proof.
  unfold raise_for_status. intros Hs.
  destruct (Z.leb_spec 400 (status_code r)), (Z.ltb_spec (status_code r) 500),
    (Z.leb_spec 500 (status_code r)), (Z.ltb_spec (status_code r) 600);
    simpl; try lia; eexists; reflexivity.
Qed.

(** Without a [config.ini], [__init__] gives the session [fresh]. *)
Example init_fresh :
  init (H := Reference.builtins) "http://localhost:11434" "llama3.2"
    (world_of named ∅)
  = Ret tt (world_of fresh ∅).
Proof. vm_compute. reflexivity. Qed.

(** The functions on paths and texts, on the cases of [posixpath]. *)
Example paths_and_texts :
  map dirname ["a/b.json"; "b.json"; "/b.json"; "a//b"; "a/b/"; "//a"; "a///"]
    = ["a"; ""; "/"; "a"; "a/b"; "//"; "a"] /\
  map (path_join "chat_history") ["b.json"; "/tmp/b.json"; ""]
    = ["chat_history/b.json"; "/tmp/b.json"; "chat_history/"] /\
  path_join "" "b.json" = "b.json" /\
  before_dot (basename "chat_history/t1.v2.json") = "t1" /\
  str_replace ".json" ".txt" "chat_history/t1.json" = "chat_history/t1.txt" /\
  map valid_interpolation ["100%"; "a%%b"; "%(x)s"; "%()s"; "%(a)"; ""]
    = [false; true; true; false; false; true].
Proof. vm_compute. repeat split. Qed.

(** *** What a method preserves *)

Section Preservation.
Context (I : world -> Prop).

Lemma preserves_ret {A} (a : A) : preserves I (ret a).
Proof. intros w Hw. exact Hw. Qed.

Lemma preserves_raise {A} (e : exn) : preserves I (raise (A := A) e).
Proof. intros w Hw. exact Hw. Qed.

Lemma preserves_lift {A} (o : outcome A) : preserves I (lift o).
Proof. destruct o; [apply preserves_ret | apply preserves_raise]. Qed.

Lemma preserves_bind {A B} (m : M A) (k : A -> M B) :
  preserves I m -> (forall a, preserves I (k a)) -> preserves I (bind m k).
Proof.
  intros Hm Hk w Hw. unfold bind. specialize (Hm w Hw).
  destruct (m w) as [a w1|e w1]; simpl in *; [now apply Hk | assumption].
Qed.

Lemma preserves_try_except {A} (m : M A) (caught : exn -> bool)
    (h : exn -> M A) :
  preserves I m -> (forall e, preserves I (h e)) ->
  preserves I (try_except m caught h).
Proof.
  intros Hm Hh w Hw. unfold try_except. specialize (Hm w Hw).
  destruct (m w) as [a w1|e w1]; simpl in *; [assumption|].
  destruct (caught e); [now apply Hh | assumption].
Qed.

Lemma preserves_returned {A} (m : M A) (w w' : world) (a : A) :
  preserves I m -> I w -> m w = Ret a w' -> I w'.
Proof. intros Hm Hw E. specialize (Hm w Hw). now rewrite E in Hm. Qed.

Lemma preserves_attr {A} (f : session -> A) : preserves I (attr f).
Proof. intros w Hw. exact Hw. Qed.

Lemma preserves_http (r : http_result) : preserves I (http r).
Proof. destruct r; [apply preserves_raise | apply preserves_ret]. Qed.

Lemma preserves_raise_for_status (r : response) :
  preserves I (raise_for_status r).
Proof.
  unfold raise_for_status.
  repeat match goal with |- context [if ?b then _ else _] => destruct b end;
    (apply preserves_raise || apply preserves_ret).
Qed.

Lemma preserves_response_json (r : response) : preserves I (response_json r).
Proof.
  unfold response_json.
  destruct (body r); [apply preserves_ret | apply preserves_raise].
Qed.
End Preservation.

Section SessionInvariant.
Context (P : session -> Prop).

Lemma on_self_assign (f : session -> session) :
  (forall s, P s -> P (f s)) -> preserves (on_self P) (assign f).
Proof. intros Hf w Hw. apply Hf, Hw. Qed.

Lemma on_self_log (msg : string) : preserves (on_self P) (log msg).
Proof. intros w Hw. exact Hw. Qed.

Lemma on_self_path_exists (p : string) : preserves (on_self P) (path_exists p).
Proof. intros w Hw. exact Hw. Qed.

Lemma on_self_open_read (p : string) : preserves (on_self P) (open_read p).
Proof.
  intros w Hw. unfold open_read.
  destruct (bool_decide _); [exact Hw|]. destruct (files w !! p); exact Hw.
Qed.

Lemma on_self_open_write (p : string) : preserves (on_self P) (open_write p).
Proof.
  intros w Hw. unfold open_write. destruct (bool_decide _); exact Hw.
Qed.

Lemma on_self_file_write (p text : string) :
  preserves (on_self P) (file_write p text).
Proof.
  intros w Hw. unfold file_write.
  destruct (files w !! p) as [[| |]|]; exact Hw.
Qed.

Lemma on_self_json_dump (doc : value) (p : string) :
  preserves (on_self P) (json_dump doc p).
Proof. intros w Hw. exact Hw. Qed.

Lemma on_self_os_rename (src dst : string) :
  preserves (on_self P) (os_rename src dst).
Proof.
  intros w Hw. unfold os_rename.
  destruct (_ || _); [exact Hw|]. destruct (files w !! src); exact Hw.
Qed.

Lemma on_self_recorder (v : value) : preserves (on_self P) (recorder v).
Proof. intros w Hw. exact Hw. Qed.
End SessionInvariant.

Ltac frame_step :=
  first
    [ apply preserves_ret | apply preserves_raise | apply preserves_lift
    | apply preserves_attr | apply preserves_http
    | apply preserves_raise_for_status | apply preserves_response_json
    | apply on_self_log | apply on_self_path_exists | apply on_self_open_read
    | apply on_self_open_write | apply on_self_file_write
    | apply on_self_json_dump | apply on_self_os_rename
    | apply on_self_recorder
    | apply preserves_bind; [| intros ?]
    | apply preserves_try_except; [| intros ?]
    | match goal with
      | |- preserves _ (if ?b then _ else _) => destruct b
      | |- preserves _ (match ?x with _ => _ end) => destruct x
      end ].

(** [frame_by tac] takes a method apart down to its elementary steps,
    leaving to [tac] the calls of the methods already dealt with. *)
Ltac frame_by tac :=
  repeat first [ solve [tac] | frame_step ];
  try (apply on_self_assign; intros; auto).

Ltac frame := frame_by assumption.

(** *** The methods, one by one *)

Section MethodFrames.
Context `{Builtins} (P : session -> Prop).

Lemma on_self_config_write (p : string) : preserves (on_self P) (config_write p).
Proof. intros w Hw. exact Hw. Qed.

Lemma on_self_set_current_file_path (p : option string) :
  preserves (on_self P) (set_current_file_path p).
Proof. intros w Hw. exact Hw. Qed.

Section Config.
Hypothesis P_config : forall c s, P s -> P (with_config c s).

Lemma on_self_config_set (sect k : string) (v : value) :
  preserves (on_self P) (config_set sect k v).
Proof. unfold config_set. frame. Qed.

Lemma on_self_config_ensure (sect : string) :
  preserves (on_self P) (config_ensure sect).
Proof. unfold config_ensure. frame. Qed.

Lemma on_self_save_parameters (items : list (key * value)) :
  preserves (on_self P) (save_parameters items).
Proof.
  induction items as [|[k v] items IH]; cbn [save_parameters];
    frame_by ltac:(auto using on_self_config_set).
Qed.

Lemma on_self_save_config : preserves (on_self P) save_config.
Proof.
  unfold save_config.
  frame_by ltac:(auto using on_self_config_set, on_self_config_ensure,
                   on_self_save_parameters, on_self_config_write).
Qed.

Lemma on_self_set_model (m : string) :
  (forall v s, P s -> P (with_model v s)) ->
  preserves (on_self P) (set_model m).
Proof.
  intros Hm. unfold set_model. frame_by ltac:(auto using on_self_save_config).
Qed.

Lemma on_self_set_system_prompt (prompt : string) :
  (forall v s, P s -> P (with_system_prompt v s)) ->
  preserves (on_self P) (set_system_prompt prompt).
Proof.
  intros Hm. unfold set_system_prompt. frame_by ltac:(auto using on_self_save_config).
Qed.

Lemma on_self_save_settings (new_url : string) :
  (forall u s, P s -> P (with_endpoint u s)) ->
  preserves (on_self P) (save_settings new_url).
Proof.
  intros Hm. unfold save_settings. frame_by ltac:(auto using on_self_save_config).
Qed.
End Config.

Section Conversation.
Hypothesis P_conversation : forall v s, P s -> P (with_conversation v s).

Lemma on_self_append_exchange (prompt : string) (answer : value) :
  preserves (on_self P) (append_exchange prompt answer).
Proof. unfold append_exchange. frame. Qed.

Lemma on_self_stream_lines (cb : callback) (ls : list line)
    (b : option string) (acc : string) :
  (forall v, preserves (on_self P) (cb v)) ->
  preserves (on_self P) (stream_lines cb ls b acc).
Proof.
  intros Hcb. revert acc.
  induction ls as [|l ls IH]; intros acc; cbn [stream_lines];
    frame_by ltac:(auto).
Qed.

Lemma on_self_chat (post : string -> value -> bool -> http_result)
    (prompt : string) (cb : option callback) :
  (forall c v, cb = Some c -> preserves (on_self P) (c v)) ->
  preserves (on_self P) (chat post prompt cb).
Proof.
  intros Hcb. unfold chat.
  frame_by ltac:(eauto using on_self_append_exchange, on_self_stream_lines).
Qed.

Lemma on_self_clear_conversation : preserves (on_self P) clear_conversation.
Proof. unfold clear_conversation. frame. Qed.

Lemma on_self_clear_chat (confirmed : bool) :
  (forall v s, P s -> P (with_chat_name v s)) ->
  preserves (on_self P) (clear_chat confirmed).
Proof.
  intros Hn. unfold clear_chat.
  frame_by ltac:(auto using on_self_clear_conversation,
                   on_self_set_current_file_path).
Qed.
End Conversation.

Lemma on_self_get_models (get : string -> http_result) :
  preserves (on_self P) (get_models get).
Proof. unfold get_models. frame. Qed.

Lemma on_self_check_connection (get : string -> http_result) :
  preserves (on_self P) (check_connection get).
Proof. unfold check_connection. frame. Qed.

Lemma on_self_write_exchanges (p : string) (i : Z) (exchanges : list value) :
  preserves (on_self P) (write_exchanges p i exchanges).
Proof.
  revert i. induction exchanges as [|x xs IH]; intros i;
    cbn [write_exchanges]; frame_by ltac:(auto).
Qed.

Lemma on_self_save_conversation (now : clock) (custom_name : option string) :
  (forall v s, P s -> P (with_chat_name v s)) ->
  preserves (on_self P) (save_conversation now custom_name).
Proof.
  intros Hn. unfold save_conversation.
  frame_by ltac:(auto using on_self_write_exchanges).
Qed.

Lemma on_self_rename_chat_file (old_path new_name : string) :
  preserves (on_self P) (rename_chat_file old_path new_name).
Proof. unfold rename_chat_file. frame. Qed.
End MethodFrames.

(** *** The loop over the lines of a stream *)

Section Streaming.
Context `{Builtins}.

(** Over well-formed lines the loop hands each text to the callback in
    turn and adds it to the answer, then goes on with the lines that
    follow. *)
Lemma stream_lines_app (good rest : list line) (b : option string)
    (acc : string) (w : world) :
  forallb text_fragment good = true ->
  stream_lines recorder (good ++ rest) b acc w =
    stream_lines recorder rest b (acc +:+ join_text (deltas good))
      (with_sunk (sunk w ++ map PStr (deltas good)) w).
Proof.
  revert acc w. induction good as [|l ls IH]; intros acc w Hwf.
  - simpl. now rewrite append_empty_r, app_nil_r, with_sunk_same.
  - simpl in Hwf. apply andb_prop in Hwf as [Hl Hls].
    destruct l as [|doc|raw]; simpl in Hl; try discriminate.
    + simpl. now apply IH.
    + destruct doc as [| | | | | |d]; try discriminate.
      cbn [app stream_lines line_truthy json_loads lift bind ret contains].
      unfold dict_mem, items_mem. fold (dict_get "response" d).
      unfold deltas. cbn [omap list_omap delta_of].
      destruct (dict_get "response" d) as [v|] eqn:Hd.
      * destruct v; try discriminate.
        cbn [subscript]. rewrite Hd. cbn [lift bind ret str_add recorder].
        rewrite IH by assumption. unfold deltas.
        cbn [sunk with_sunk map join_text fold_right].
        rewrite append_assoc, <- app_assoc. reflexivity.
      * apply IH. assumption.
Qed.

Lemma stream_lines_deltas (ls : list line) (acc : string) (w : world) :
  forallb text_fragment ls = true ->
  stream_lines recorder ls None acc w =
    Ret (acc +:+ join_text (deltas ls))
        (with_sunk (sunk w ++ map PStr (deltas ls)) w).
Proof.
  intros Hwf. rewrite <- (app_nil_r ls) at 1.
  now rewrite stream_lines_app.
Qed.
End Streaming.

(* ================================================================== *)
(** ** chat: streaming                                                  *)
(* ================================================================== *)

(** C1.  A streaming [chat] whose server answers with a well-formed
    stream (JSON objects whose ["response"], if any, is a string) calls
    the callback once for each text, in the order of arrival and with
    that text, returns the concatenation of the texts, and appends the
    exchange (prompt, concatenation) to the conversation. *)
Theorem chat_stream_delivers `{Builtins}
    (post : string -> value -> bool -> http_result) (prompt : string)
    (w : world) (r : response) (log : list value) :
  post (api_generate (self w)) (request_data (self w) prompt true) true
    = Answered r ->
  status_ok r ->
  broke r = None ->
  forallb text_fragment (lines r) = true ->
  conversation (self w) = PList log ->
  let answer := join_text (deltas (lines r)) in
  chat post prompt (Some recorder) w =
    Ret (PStr answer)
        (with_self
           (with_conversation (PList (log ++ [exchange prompt (PStr answer)]))
              (self w))
           (with_sunk (sunk w ++ map PStr (deltas (lines r))) w)).
Proof.
  intros Hpost Hok Hbroke Hwf Hlog answer.
  unfold chat, try_except, bind, attr. cbn [id is_not_None].
  rewrite Hpost. cbn [http ret].
  rewrite raise_for_status_ok by assumption.
  rewrite Hbroke, stream_lines_deltas by assumption.
  unfold append_exchange, bind, attr, assign, lift, ret.
  cbn [self with_sunk]. rewrite Hlog. cbn [append].
  reflexivity.
Qed.

(** The server streams ["A"], ["B"], ["C"]: the callback receives them
    in that order and the call returns ["ABC"]. *)
Lemma chat_stream_abc :
  let r := chat (H := Reference.builtins) abc_server "hi" (Some recorder)
             (world_of fresh ∅) in
  r = Ret (PStr "ABC") (final r) /\
  sunk (final r) = [PStr "A"; PStr "B"; PStr "C"] /\
  conversation (self (final r)) = PList [exchange "hi" (PStr "ABC")].
Proof.
  cbv zeta.
  rewrite (chat_stream_delivers (H := Reference.builtins) abc_server "hi"
             (world_of fresh ∅) (ok_response None abc_lines) []);
    [ repeat split
    | reflexivity
    | left; cbn; lia
    | reflexivity
    | reflexivity
    | reflexivity ].
Defined.

(** C3, as the code has it.  In a streaming [chat], the first line that
    is not JSON ends the call: [json.loads] raises [JSONDecodeError],
    which is not a [RequestException] and leaves [chat].  The callback
    has received the texts of the well-formed lines before it, nothing
    is appended to the conversation, nothing is returned. *)
Theorem chat_stream_malformed_aborts `{Builtins}
    (post : string -> value -> bool -> http_result) (prompt : string)
    (w : world) (r : response) (good rest : list line) (raw : string) :
  post (api_generate (self w)) (request_data (self w) prompt true) true
    = Answered r ->
  status_ok r ->
  lines r = good ++ Garbled raw :: rest ->
  forallb text_fragment good = true ->
  chat post prompt (Some recorder) w =
    Exc (JSONDecodeError "Expecting value")
        (with_sunk (sunk w ++ map PStr (deltas good)) w).
Proof.
  intros Hpost Hok Hlines Hwf.
  unfold chat, try_except, bind, attr. cbn [id is_not_None].
  rewrite Hpost. cbn [http ret].
  rewrite raise_for_status_ok by assumption.
  rewrite Hlines, stream_lines_app by assumption.
  reflexivity.
Qed.

Lemma chat_stream_malformed_aborts_witness :
  chat (H := Reference.builtins) garbled_server "hi" (Some recorder)
    (world_of fresh ∅)
  = Exc (JSONDecodeError "Expecting value")
      (with_sunk [PStr "A"] (world_of fresh ∅)).
Proof.
  apply (chat_stream_malformed_aborts (H := Reference.builtins) garbled_server
           "hi" (world_of fresh ∅) (ok_response None garbled_lines)
           [Fragment (PDict [("response", PStr "A"); ("done", PBool false)])]
           [Fragment (PDict [("response", PStr "B"); ("done", PBool true)])]
           "{oops");
    [ reflexivity | left; cbn; lia | reflexivity | reflexivity ].
Defined.

(** A stream ["A"], garbage, ["B"]: the call raises instead of
    returning ["AB"]; the callback saw ["A"] only and the conversation
    is as before. *)
Lemma chat_stream_garbled_raises :
  let r := chat (H := Reference.builtins) garbled_server "hi" (Some recorder)
             (world_of fresh ∅) in
  r = Exc (JSONDecodeError "Expecting value") (final r) /\
  (forall w', r <> Ret (PStr "AB") w') /\
  sunk (final r) = [PStr "A"] /\
  conversation (self (final r)) = PList [].
Proof.
  cbv zeta.
  assert (E : chat (H := Reference.builtins) garbled_server "hi"
                (Some recorder) (world_of fresh ∅)
              = Exc (JSONDecodeError "Expecting value")
                  (with_sunk [PStr "A"] (world_of fresh ∅))) by reflexivity.
  rewrite E. repeat split. discriminate.
Qed.

(* ================================================================== *)
(** ** chat: transport failures                                         *)
(* ================================================================== *)

(** C2, as the code has it.  When the request fails (no answer from the
    server, or a 4xx or 5xx status), [chat] does not raise: it returns a
    non-empty text that tells the error.  The text goes to the logger
    and nowhere else: the conversation, and the rest of the session, the
    disk and the callback's record are as before, so no exchange is
    appended. *)
Theorem chat_transport_failure `{Builtins}
    (post : string -> value -> bool -> http_result) (prompt : string)
    (cb : option callback) (w : world) :
  (let reply := post (api_generate (self w))
                  (request_data (self w) prompt (is_not_None cb))
                  (is_not_None cb) in
   (exists msg, reply = Failed msg) \/
   (exists r, reply = Answered r /\ 400 <= status_code r < 600)) ->
  exists msg,
    let text := "Error communicating with Ollama: " +:+ msg in
    chat post prompt cb w
      = Ret (PStr text) (with_logged (logged w ++ [text]) w) /\
    text <> "" /\
    conversation (self (final (chat post prompt cb w))) = conversation (self w).
Proof.
  cbv zeta. intros Hfail.
  assert (Hrun : exists msg,
    chat post prompt cb w
      = Ret (PStr ("Error communicating with Ollama: " +:+ msg))
          (with_logged
             (logged w ++ ["Error communicating with Ollama: " +:+ msg]) w)).
  { unfold chat, try_except, bind, attr. cbn [id].
    destruct Hfail as [[msg Hr] | [r [Hr Hs]]].
    - exists msg. destruct cb; cbn [is_not_None] in Hr |- *;
        rewrite Hr; reflexivity.
    - destruct (raise_for_status_bad r w Hs) as [msg Hm]. exists msg.
      destruct cb; cbn [is_not_None] in Hr |- *;
        rewrite Hr; cbn [http ret]; rewrite Hm; reflexivity. }
  destruct Hrun as [msg Hrun]. exists msg. rewrite Hrun.
  repeat split. discriminate.
Qed.

Lemma chat_transport_failure_witness :
  exists msg,
    let text := "Error communicating with Ollama: " +:+ msg in
    chat (H := Reference.builtins) unreachable "hi" (Some recorder)
        (world_of fresh ∅)
      = Ret (PStr text) (with_logged [text] (world_of fresh ∅)) /\
    text <> "" /\
    conversation
      (self (final (chat (H := Reference.builtins) unreachable "hi"
                      (Some recorder) (world_of fresh ∅))))
      = PList [].
Proof.
  apply (chat_transport_failure (H := Reference.builtins) unreachable "hi"
           (Some recorder) (world_of fresh ∅)).
  left. exists "Connection refused". reflexivity.
Defined.

(** The server is unreachable: [chat] returns the error text and the
    conversation stays empty, where the claim has one exchange
    appended. *)
Lemma chat_unreachable_appends_nothing :
  let r := chat (H := Reference.builtins) unreachable "hi" (Some recorder)
             (world_of fresh ∅) in
  r = Ret (PStr "Error communicating with Ollama: Connection refused") (final r) /\
  conversation (self (world_of fresh ∅)) = PList [] /\
  conversation (self (final r)) = PList [].
Proof. cbv zeta. repeat split. Qed.

(** X1.  A streaming [chat] whose connection breaks after well-formed
    lines does not raise: the callback has received the texts of those
    lines, the error text is returned and logged, and the session is as
    before, so that no exchange is appended for the part received. *)
Lemma chat_stream_broken `{Builtins}
    (post : string -> value -> bool -> http_result) (prompt : string)
    (w : world) (r : response) (msg : string) :
  post (api_generate (self w)) (request_data (self w) prompt true) true
    = Answered r ->
  status_ok r ->
  broke r = Some msg ->
  forallb text_fragment (lines r) = true ->
  let text := "Error communicating with Ollama: " +:+ msg in
  chat post prompt (Some recorder) w =
    Ret (PStr text)
        (with_logged (logged w ++ [text])
           (with_sunk (sunk w ++ map PStr (deltas (lines r))) w)).
Proof.
  intros Hpost Hok Hbroke Hwf text.
  unfold chat, try_except, bind, attr. cbn [id is_not_None].
  rewrite Hpost. cbn [http ret].
  rewrite raise_for_status_ok by assumption.
  rewrite Hbroke. rewrite <- (app_nil_r (lines r)) at 1.
  rewrite stream_lines_app by assumption. reflexivity.
Qed.

Lemma chat_stream_broken_witness :
  let text := "Error communicating with Ollama: "
              +:+ "Connection broken: IncompleteRead" in
  chat (H := Reference.builtins) breaking_server "hi" (Some recorder)
    (world_of fresh ∅)
  = Ret (PStr text)
      (with_logged [text] (with_sunk [PStr "A"; PStr "B"] (world_of fresh ∅))).
Proof.
  apply (chat_stream_broken (H := Reference.builtins) breaking_server "hi"
           (world_of fresh ∅) broken_stream "Connection broken: IncompleteRead");
    [ reflexivity | left; cbn; lia | reflexivity | reflexivity ].
Defined.

(** X2.  A [chat] without callback whose answer is a JSON object with
    a ["response"] returns that value, whatever its type, and appends
    the exchange (prompt, value) to the conversation; nothing else
    changes and nothing is logged. *)
Lemma chat_plain_answers `{Builtins}
    (post : string -> value -> bool -> http_result) (prompt : string)
    (w : world) (r : response) (d : list (string * value)) (answer : value)
    (log : list value) :
  post (api_generate (self w)) (request_data (self w) prompt false) false
    = Answered r ->
  status_ok r ->
  body r = Some (PDict d) -> dict_get "response" d = Some answer ->
  conversation (self w) = PList log ->
  chat post prompt None w =
    Ret answer
        (with_self
           (with_conversation (PList (log ++ [exchange prompt answer])) (self w))
           w).
Proof.
  intros Hpost Hok Hbody Hd Hlog.
  unfold chat, try_except, bind, attr. cbn [id is_not_None].
  rewrite Hpost. cbn [http ret].
  rewrite raise_for_status_ok by assumption.
  unfold response_json. rewrite Hbody. cbn [ret subscript lift]. rewrite Hd.
  cbn [lift ret]. unfold append_exchange, bind, attr, assign, lift, ret.
  rewrite Hlog. reflexivity.
Qed.

Lemma chat_plain_answers_witness :
  chat (H := Reference.builtins) (plain_server (Some hello_body)) "hi" None
    (world_of fresh ∅)
  = Ret (PStr "hello")
      (with_self
         (with_conversation (PList ([] ++ [exchange "hi" (PStr "hello")]))
            (self (world_of fresh ∅)))
         (world_of fresh ∅)).
Proof.
  apply (chat_plain_answers (H := Reference.builtins)
           (plain_server (Some hello_body)) "hi" (world_of fresh ∅)
           (ok_response (Some hello_body) [])
           [("model", PStr "llama3.2"); ("response", PStr "hello");
            ("done", PBool true)]);
    [ reflexivity | left; cbn; lia | reflexivity | reflexivity | reflexivity ].
Defined.

(** X3.  A [chat] without callback whose answer is a JSON object
    without ["response"] raises: the [KeyError] is no
    [RequestException] and leaves [chat], nothing is logged and the
    session is as before. *)
Theorem chat_plain_missing_response `{Builtins}
    (post : string -> value -> bool -> http_result) (prompt : string)
    (w : world) (r : response) (d : list (string * value)) :
  post (api_generate (self w)) (request_data (self w) prompt false) false
    = Answered r ->
  status_ok r ->
  body r = Some (PDict d) -> dict_get "response" d = None ->
  chat post prompt None w = Exc (KeyError "response") w.
Proof.
  intros Hpost Hok Hbody Hd.
  unfold chat, try_except, bind, attr. cbn [id is_not_None].
  rewrite Hpost. cbn [http ret].
  rewrite raise_for_status_ok by assumption.
  unfold response_json. rewrite Hbody. cbn [ret subscript lift]. rewrite Hd.
  reflexivity.
Qed.

Lemma chat_plain_missing_response_witness :
  chat (H := Reference.builtins) (plain_server (Some error_body)) "hi" None
    (world_of fresh ∅)
  = Exc (KeyError "response") (world_of fresh ∅).
Proof.
  apply (chat_plain_missing_response (H := Reference.builtins)
           (plain_server (Some error_body)) "hi" (world_of fresh ∅)
           (ok_response (Some error_body) []) [("error", PStr "unavailable")]);
    [ reflexivity | left; cbn; lia | reflexivity | reflexivity ].
Defined.

(** X4.  Whatever the server does, [chat] changes nothing in the
    session but the conversation, and the conversation only by
    appending one exchange, made of the prompt and of the answer it
    returns.  When [chat] raises, or returns without appending, the
    session is as before.  The callback is any that leaves the session
    alone. *)
Theorem chat_appends_only `{Builtins}
    (post : string -> value -> bool -> http_result) (prompt : string)
    (cb : option callback) (w : world) :
  (forall c v w0, cb = Some c -> self (final (c v w0)) = self w0) ->
  let r := chat post prompt cb w in
  self (final r) = self w \/
  exists answer log,
    conversation (self w) = PList log /\
    r = Ret answer (final r) /\
    self (final r)
      = with_conversation (PList (log ++ [exchange prompt answer])) (self w).
Proof.
  intros Hcb r.
  assert (Hr :
    match r with
    | Ret answer w' =>
        self w' = self w \/
        exists log, conversation (self w) = PList log /\
          self w' = with_conversation (PList (log ++ [exchange prompt answer])) (self w)
    | Exc _ w' => self w' = self w
    end).
  2:{ destruct r as [answer w'|e w']; cbn [final]; [|now left].
      destruct Hr as [Hr | (log & Hc & Hw')]; [now left|].
      right. now exists answer, log. }
  subst r.
  assert (Happend : forall answer w1,
    self w1 = self w ->
    match append_exchange prompt answer w1 with
    | Ret _ w2 =>
        exists log, conversation (self w) = PList log /\
          self w2 = with_conversation (PList (log ++ [exchange prompt answer])) (self w)
    | Exc e w2 => self w2 = self w
    end).
  { intros answer w1 Hw1. unfold append_exchange, bind, attr, assign.
    rewrite Hw1.
    destruct (conversation (self w)) as [| | | | |log|];
      cbn [append lift raise ret]; auto.
    exists log. cbn [self with_self]. now rewrite Hw1. }
  assert (Hstatus : forall resp,
    match raise_for_status resp w with
    | Ret _ w1 => self w1 = self w
    | Exc _ w1 => self w1 = self w
    end).
  { intros resp.
    pose proof (preserves_raise_for_status (on_self (fun s => s = self w)) resp
                  w eq_refl) as Hs.
    unfold on_self in Hs. now destruct (raise_for_status resp w). }
  unfold chat. unfold bind at 1, attr at 1. cbn [id].
  unfold try_except.
  destruct cb as [c|]; cbn [is_not_None].
  - unfold bind at 1. destruct (post _ _ true) as [msg|resp]; cbn [http ret raise].
    { cbn. now left. }
    unfold bind at 1. specialize (Hstatus resp).
    destruct (raise_for_status resp w) as [[] w1|e w1].
    2:{ destruct (is_RequestException e); cbn; auto. }
    unfold bind at 1.
    pose proof (on_self_stream_lines (fun s => s = self w) c (lines resp)
                  (broke resp) ""
                  (fun v w0 Hw0 => eq_trans (Hcb c v w0 eq_refl) Hw0) w1 Hstatus) as Hl.
    unfold on_self in Hl.
    destruct (stream_lines c (lines resp) (broke resp) "" w1) as [text w2|e w2];
      cbn [final] in Hl.
    2:{ destruct (is_RequestException e); cbn; auto. }
    unfold bind at 1. specialize (Happend (PStr text) w2 Hl).
    destruct (append_exchange prompt (PStr text) w2) as [[] w3|e w3].
    + right. exact Happend.
    + destruct (is_RequestException e); cbn; auto.
  - unfold bind at 1. destruct (post _ _ false) as [msg|resp]; cbn [http ret raise].
    { cbn. now left. }
    unfold bind at 1. specialize (Hstatus resp).
    destruct (raise_for_status resp w) as [[] w1|e w1].
    2:{ destruct (is_RequestException e); cbn; auto. }
    unfold bind at 1, response_json at 1.
    destruct (body resp) as [result|]; cbn [ret raise is_RequestException].
    2:{ cbn. now left. }
    unfold bind at 1.
    destruct (subscript result "response") as [answer|e] eqn:Ha; cbn [lift ret raise].
    2:{ destruct (is_RequestException e); cbn; auto. }
    unfold bind at 1. specialize (Happend answer w1 Hstatus).
    destruct (append_exchange prompt answer w1) as [[] w3|e w3].
    + right. exact Happend.
    + destruct (is_RequestException e); cbn; auto.
Qed.

Lemma chat_appends_only_witness :
  let r := chat (H := Reference.builtins) abc_server "hi" (Some recorder)
             (world_of fresh ∅) in
  self (final r) = self (world_of fresh ∅) \/
  exists answer log,
    conversation (self (world_of fresh ∅)) = PList log /\
    r = Ret answer (final r) /\
    self (final r)
      = with_conversation (PList (log ++ [exchange "hi" answer]))
          (self (world_of fresh ∅)).
Proof.
  apply (chat_appends_only (H := Reference.builtins) abc_server "hi"
           (Some recorder) (world_of fresh ∅)).
  intros c v w0 [= <-]. reflexivity.
Defined.

(** Closed the way Ollama closes a stream, by a fragment whose text is
    empty, the stream ["A"], ["B"], ["C"] gives the callback a fourth
    call, with the empty text. *)
Remark chat_stream_empty_delta :
  let r := chat (H := Reference.builtins)
             (fun _ _ _ => Answered (ok_response None abc_lines_ollama))
             "hi" (Some recorder) (world_of fresh ∅) in
  r = Ret (PStr "ABC") (final r) /\
  sunk (final r) = [PStr "A"; PStr "B"; PStr "C"; PStr ""].
Proof. vm_compute. split; reflexivity. Qed.

(* ================================================================== *)
(** ** Dictionaries: facts                                              *)
(* ================================================================== *)

Section ItemsFacts.
Context {K V : Type} (eqb : K -> K -> bool).

Lemma items_mem_cons (k k' : K) (v : V) (d : list (K * V)) :
  items_mem eqb k ((k', v) :: d) = eqb k k' || items_mem eqb k d.
Proof. unfold items_mem. simpl. now destruct (eqb k k'). Qed.

(** Whether a key is in a dictionary depends on its keys only. *)
Lemma items_mem_keys (k : K) (d1 d2 : list (K * V)) :
  map fst d1 = map fst d2 -> items_mem eqb k d1 = items_mem eqb k d2.
Proof.
  revert d2. induction d1 as [|[k1 v1] d1 IH]; intros [|[k2 v2] d2] Hk;
    simpl in Hk; try discriminate; [reflexivity|].
  injection Hk as -> Hk. rewrite !items_mem_cons. now rewrite (IH d2).
Qed.

(** Assigning to a key that is there changes no key. *)
Lemma items_set_keys (k : K) (v : V) (d : list (K * V)) :
  items_mem eqb k d = true -> map fst (items_set eqb k v d) = map fst d.
Proof.
  induction d as [|[k' v'] d IH]; intros Hm; [discriminate|].
  rewrite items_mem_cons in Hm. simpl.
  destruct (eqb k k'); simpl; [reflexivity|]. now rewrite IH.
Qed.

(** Assigning adds at most the key, at the end. *)
Lemma items_set_keys_app (k : K) (v : V) (d : list (K * V)) :
  map fst (items_set eqb k v d) = map fst d \/
  map fst (items_set eqb k v d) = map fst d ++ [k].
Proof.
  induction d as [|[k' v'] d IH]; simpl; [now right|].
  destruct (eqb k k'); simpl; [now left|].
  destruct IH as [-> | ->]; [now left | now right].
Qed.

Lemma items_mem_app (k : K) (d1 d2 : list (K * V)) :
  items_mem eqb k (d1 ++ d2) = items_mem eqb k d1 || items_mem eqb k d2.
Proof.
  induction d1 as [|[k' v'] d1 IH]; simpl; [reflexivity|].
  rewrite !items_mem_cons, IH. now rewrite orb_assoc.
Qed.

(** A key that is there stays there. *)
Lemma items_set_mem (k k' : K) (v : V) (d : list (K * V)) :
  items_mem eqb k d = true -> items_mem eqb k (items_set eqb k' v d) = true.
Proof.
  intros Hm. destruct (items_set_keys_app k' v d) as [E | E].
  - rewrite (items_mem_keys k (items_set eqb k' v d) d E). exact Hm.
  - rewrite (items_mem_keys k (items_set eqb k' v d) (d ++ [(k', v)])).
    + rewrite items_mem_app, Hm. reflexivity.
    + rewrite E, map_app. reflexivity.
Qed.

Lemma items_set_values (Q : V -> bool) (k : K) (v : V) (d : list (K * V)) :
  Q v = true -> forallb Q (map snd d) = true ->
  forallb Q (map snd (items_set eqb k v d)) = true.
Proof.
  intros Hv. induction d as [|[k' v'] d IH]; simpl; intros Hd.
  - now rewrite Hv.
  - apply andb_prop in Hd as [H1 H2].
    destruct (eqb k k'); simpl; [now rewrite Hv, H2 | now rewrite H1, IH].
Qed.

(** Reading a key after assigning to it, when the key equals itself. *)
Lemma items_get_set (k : K) (v : V) (d : list (K * V)) :
  eqb k k = true -> items_get eqb k (items_set eqb k v d) = Some v.
Proof.
  intros Hr. induction d as [|[k' v'] d IH]; simpl; [now rewrite Hr|].
  destruct (eqb k k') eqn:E; simpl; now rewrite E.
Qed.
End ItemsFacts.

(** A [str] key equals the [str] keys of the same text and no other
    key. *)
Lemma key_eqb_str (s : string) (k : key) :
  key_eqb (KStr s) k = true <-> k = KStr s.
Proof.
  destruct k; simpl; try (split; [discriminate | discriminate]).
  rewrite String.eqb_eq. split; [now intros -> | now intros [= ->]].
Qed.

Lemma key_eqb_str_r (s : string) (k : key) :
  key_eqb k (KStr s) = true <-> k = KStr s.
Proof.
  destruct k; simpl; try (split; [discriminate | discriminate]).
  rewrite String.eqb_eq. split; [now intros -> | now intros [= ->]].
Qed.

(** Reading any key after assigning to a [str] key. *)
Lemma param_get_set_str (k : key) (s : string) (v : value)
    (p : list (key * value)) :
  param_get k (param_set (KStr s) v p) =
    if key_eqb k (KStr s) then Some v else param_get k p.
Proof.
  unfold param_get, param_set.
  induction p as [|[k' v'] p IH]; cbn [items_get items_set]; [reflexivity|].
  destruct (key_eqb (KStr s) k') eqn:E; cbn [items_get].
  - apply key_eqb_str in E as ->. now destruct (key_eqb k (KStr s)).
  - rewrite IH. destruct (key_eqb k k') eqn:E'; [|reflexivity].
    destruct (key_eqb k (KStr s)) eqn:E''; [|reflexivity].
    apply key_eqb_str_r in E'' as ->. congruence.
Qed.

(* ================================================================== *)
(** ** The generation parameters                                        *)
(* ================================================================== *)

Lemma items_mem_existsb {K V : Type} (eqb : K -> K -> bool) (k : K)
    (d : list (K * V)) :
  items_mem eqb k d = existsb (eqb k) (map fst d).
Proof.
  induction d as [|[k' v'] d IH]; [reflexivity|].
  rewrite items_mem_cons, IH. reflexivity.
Qed.

Lemma default_parameters_ok : parameters_ok default_parameters.
Proof. split; reflexivity. Qed.

(** Under the invariant the keys of the mapping are the fixed names:
    a name is in the mapping exactly when it is one of them. *)
Lemma parameters_ok_mem (p : list (key * value)) (k : key) :
  parameters_ok p -> param_mem k p = existsb (key_eqb k) fixed_names.
Proof.
  intros [Hk _]. unfold param_mem. now rewrite items_mem_existsb, Hk.
Qed.

Lemma parameters_ok_set (p : list (key * value)) (k : key) (v : value) :
  parameters_ok p -> existsb (key_eqb k) fixed_names = true ->
  numeric v = true ->
  parameters_ok (param_set k v p).
Proof.
  intros Hp Hk Hv. pose proof (parameters_ok_mem p k Hp) as Hm.
  rewrite Hk in Hm. destruct Hp as [Hkeys Hvals]. split.
  - unfold param_set. now rewrite items_set_keys.
  - now apply items_set_values.
Qed.

Lemma fixed_names_reject (name : string) :
  ~ In (KStr name) fixed_names ->
  existsb (key_eqb (KStr name)) fixed_names = false.
Proof.
  intros Hn. apply not_true_is_false. intros Hex.
  apply existsb_exists in Hex as [k [Hin Hk]].
  apply key_eqb_str in Hk as ->. contradiction.
Qed.

(** [dict.update] removes no key. *)
Lemma update_items_mem (k : key) (xs : list value) (d : list (key * value)) :
  param_mem k d = true -> param_mem k (fst (update_items xs d)) = true.
Proof.
  revert d. induction xs as [|x xs IH]; intros d Hm; [exact Hm|].
  cbn [update_items]. destruct (update_item x d) as [d'|e] eqn:E; [|exact Hm].
  apply IH. unfold update_item in E.
  destruct (py_iter x) as [[|a [|b [|c l]]]|]; try discriminate.
  destruct (to_key a); [|discriminate]. injection E as <-.
  now apply items_set_mem.
Qed.

Lemma dict_update_mem (k : key) (d : list (key * value)) (other : value) :
  param_mem k d = true -> param_mem k (fst (dict_update d other)) = true.
Proof.
  intros Hm. unfold dict_update.
  assert (Hseq : forall xs, param_mem k (fst (update_items xs d)) = true)
    by (intros xs; now apply update_items_mem).
  destruct other; cbn [py_iter fst]; try exact Hm; try apply Hseq.
  revert d Hm Hseq. generalize (map fst d0) as ks.
  induction ks as [|k0 ks IH]; intros d Hm _; [exact Hm|].
  cbn [fold_left]. apply IH.
  - destruct (dict_get k0 d0); [now apply items_set_mem | exact Hm].
  - intros xs. apply update_items_mem.
    destruct (dict_get k0 d0); [now apply items_set_mem | exact Hm].
Qed.

Section ParametersInvariant.
Context `{Builtins}.

Lemma Pok_parameters_setitem (k : key) (v : value) :
  existsb (key_eqb k) fixed_names = true -> numeric v = true ->
  preserves (on_self Pok) (parameters_setitem k v).
Proof.
  intros Hk Hv. apply on_self_assign. intros s Hs.
  now apply parameters_ok_set.
Qed.

Lemma Pok_init_parameters (keys : list key) :
  forallb (fun k => existsb (key_eqb k) fixed_names) keys = true ->
  preserves (on_self Pok) (init_parameters keys).
Proof.
  induction keys as [|k keys IH]; intros Hk; cbn [init_parameters].
  - apply preserves_ret.
  - cbn [forallb] in Hk. apply andb_prop in Hk as [Hk Hks].
    frame_by ltac:(auto using Pok_parameters_setitem).
Qed.

Lemma fixed_names_self :
  forallb (fun k => existsb (key_eqb k) fixed_names) fixed_names = true.
Proof. reflexivity. Qed.

Lemma Pok_init (base_url0 model0 : string) (w : world) :
  Pok (self (final (init base_url0 model0 w))).
Proof.
  unfold init. unfold bind at 1. unfold assign at 1.
  match goal with
  | |- Pok (self (final (?rest (with_self ?s0 w)))) =>
      change (on_self Pok (final (rest (with_self s0 w))));
      apply (fun Hr : preserves (on_self Pok) rest => Hr (with_self s0 w))
  end; [| exact default_parameters_ok].
  apply preserves_bind; [apply on_self_path_exists|]. intros found.
  destruct found; [|apply preserves_ret].
  apply preserves_bind.
  { intros w1 Hw1. unfold config_read.
    destruct (bool_decide _); [exact Hw1|].
    destruct (files w1 !! "config.ini") as [[| |]|]; exact Hw1. }
  intros c0. apply preserves_bind; [frame|]. intros _.
  apply preserves_bind; [apply preserves_attr|]. intros c.
  apply preserves_bind; [frame|]. intros _.
  destruct (cfg_has_section "Parameters" c); [|apply preserves_ret].
  intros w1 Hw1. unfold bind, attr.
  apply Pok_init_parameters; [|exact Hw1].
  destruct Hw1 as [-> _]. exact fixed_names_self.
Qed.

Lemma Pok_set_parameter (param : string) (v : value) :
  preserves (on_self Pok) (set_parameter param v).
Proof.
  intros w Hw. unfold set_parameter. unfold bind at 1, attr at 1.
  destruct (param_mem (KStr param) (parameters (self w))) eqn:Hm; [|exact Hw].
  rewrite (parameters_ok_mem _ _ Hw) in Hm.
  revert w Hw.
  change (preserves (on_self Pok)
            (try_except
               (let* f := lift (py_float v) in
                parameters_setitem (KStr param) (PFloat f) ;;;
                save_config ;;;
                ret ("Parameter " +:+ param +:+ " set to " +:+ py_str v))
               is_ValueError
               (fun _ => ret ("Invalid value for " +:+ param)))).
  frame_by ltac:(auto using Pok_parameters_setitem, on_self_save_config).
Qed.

Lemma Pok_perform (op : operation) : 
  forall w, Pok (self w) -> Pok (self (perform op w)).
Proof.
  destruct op; cbn [perform]; intros w Hw.
  - apply Pok_init.
  - now apply Pok_set_parameter.
  - apply (on_self_set_model Pok); auto.
  - apply (on_self_set_system_prompt Pok); auto.
  - apply (on_self_save_settings Pok); auto.
  - apply (on_self_save_config Pok); auto.
  - apply (on_self_save_conversation Pok); auto.
  - apply (on_self_clear_conversation Pok); auto.
  - apply (on_self_clear_chat Pok); auto.
  - apply (on_self_chat Pok); auto.
    intros c v Hc. destruct streaming; [|discriminate].
    injection Hc as <-. apply on_self_recorder.
  - apply (on_self_get_models Pok); auto.
  - apply (on_self_check_connection Pok); auto.
  - apply (on_self_rename_chat_file Pok); auto.
Qed.

(** [load_conversation] removes no key from the mapping. *)
Lemma load_conversation_keeps_keys (filename : string) (k : key) :
  preserves (on_self (fun s => param_mem k (parameters s) = true))
    (load_conversation filename).
Proof.
  unfold load_conversation.
  frame_by ltac:(
    intros w Hw; unfold parameters_update, on_self;
    destruct (snd _); cbn [final self with_self parameters with_parameters];
    now apply dict_update_mem).
Qed.
End ParametersInvariant.

(** C9, as the code has it.  Every operation other than
    [load_conversation] keeps the mapping on exactly the fixed names,
    each bound to a number ([__init__] and [set_parameter] store what
    [float] returns); initialisation establishes this; [set_parameter]
    rejects every name outside the mapping and changes nothing then.
    [load_conversation] merges whatever the record holds: it removes no
    key, and that is all it keeps. *)
Theorem parameters_invariant `{Builtins} (w : world) :
  parameters_ok (parameters (self w)) ->
  (forall op, parameters_ok (parameters (self (perform op w)))) /\
  (forall name v, ~ In (KStr name) fixed_names ->
     set_parameter name v w = Ret ("Unknown parameter: " +:+ name) w) /\
  (forall filename k, param_mem k (parameters (self w)) = true ->
     param_mem k (parameters (self (final (load_conversation filename w))))
       = true) /\
  (forall base_url0 model0 w0,
     parameters_ok (parameters (self (final (init base_url0 model0 w0))))).
Proof.
  intros Hw. split; [|split; [|split]].
  - intros op. apply (Pok_perform op w Hw).
  - intros name v Hn. unfold set_parameter. unfold bind at 1, attr at 1.
    rewrite (parameters_ok_mem _ _ Hw), fixed_names_reject by assumption.
    reflexivity.
  - intros filename k Hk.
    now apply (load_conversation_keeps_keys filename k w).
  - intros base_url0 model0 w0. apply Pok_init.
Qed.

Lemma parameters_invariant_witness :
  parameters_ok (parameters (self (world_of fresh ∅))) /\
  parameters_ok
    (parameters
       (self (perform (H := Reference.builtins)
                (OpSetParameter "temperature" (PStr "0.5"))
                (world_of fresh ∅)))) /\
  set_parameter (H := Reference.builtins) "mirostat" (PStr "2")
      (world_of fresh ∅)
    = Ret "Unknown parameter: mirostat" (world_of fresh ∅).
Proof.
  pose proof (parameters_invariant (H := Reference.builtins)
                (world_of fresh ∅) default_parameters_ok) as [Hop [Hrej _]].
  split; [exact default_parameters_ok|]. split.
  - apply Hop.
  - apply (Hrej "mirostat" (PStr "2")). cbn.
    intros [E|[E|[E|[E|[]]]]]; discriminate.
Defined.

(** Loading a record whose parameters are [{"foo": "bar"}] succeeds and
    brings the name [foo], bound to a string, into the mapping. *)
Lemma load_brings_foreign_parameter :
  let w := world_of fresh foreign_disk in
  let r := load_conversation "chat_history/foreign.json" w in
  parameters_ok (parameters (self w)) /\
  r = Ret true (final r) /\
  param_get (KStr "foo") (parameters (self (final r))) = Some (PStr "bar") /\
  ~ parameters_ok (parameters (self (final r))).
Proof.
  cbv zeta. split; [exact default_parameters_ok|].
  split; [reflexivity|]. split; [reflexivity|].
  intros [Hk _]. vm_compute in Hk. discriminate.
Qed.

(* ================================================================== *)
(** ** clear                                                            *)
(* ================================================================== *)

(** C10, as the code has it.  [clear_conversation] empties the
    conversation and leaves every other attribute of the session as it
    was, the chat name included.  The chat name is reset by the window:
    [clear_chat], once confirmed, calls [clear_conversation], forgets
    the current file and sets the chat name to the empty string; the
    endpoint, the model, the system prompt and the parameters are as
    before. *)
Theorem clear_conversation_frame (w : world) :
  clear_conversation w =
    Ret "Conversation cleared" (with_self (with_conversation (PList []) (self w)) w) /\
  (let s := self (final (clear_conversation w)) in
   conversation s = PList [] /\
   chat_name s = chat_name (self w) /\
   base_url s = base_url (self w) /\
   model s = model (self w) /\
   system_prompt s = system_prompt (self w) /\
   parameters s = parameters (self w)) /\
  (let g := final (clear_chat true w) in
   clear_chat true w = Ret tt g /\
   conversation (self g) = PList [] /\
   chat_name (self g) = PStr "" /\
   current_file_path g = None /\
   base_url (self g) = base_url (self w) /\
   model (self g) = model (self w) /\
   system_prompt (self g) = system_prompt (self w) /\
   parameters (self g) = parameters (self w)) /\
  clear_chat false w = Ret tt w.
Proof. repeat split. Qed.

(** Clearing the conversation of the chat [t1] leaves it named [t1]. *)
Lemma clear_conversation_keeps_chat_name :
  let r := clear_conversation (world_of named ∅) in
  conversation (self (final r)) = PList [] /\
  chat_name (self (final r)) = PStr "t1" /\
  chat_name (self (final r)) <> PStr "".
Proof. cbv zeta. repeat split. discriminate. Qed.

(* ================================================================== *)
(** ** get_models                                                       *)
(* ================================================================== *)

Lemma names_of_listing (ms names : list value) :
  Forall2 (fun m n => exists dm, m = PDict dm /\ dict_get "name" dm = Some n)
    ms names ->
  names_of ms = Fine names.
Proof.
  induction 1 as [|m n ms names [dm [-> Hn]] _ IH]; [reflexivity|].
  cbn [names_of subscript]. now rewrite Hn, IH.
Qed.

(** C8, as the code has it.  Against a server whose answer lists the
    models, [get_models] returns their names in order.  When the
    request does not go through (no answer, a 4xx or 5xx status, a body
    that is not JSON) it logs the error and returns the empty list.  A
    JSON body without ["models"], or with an entry without ["name"],
    is not such a failure: the [KeyError] leaves [get_models]. *)
Theorem get_models_outcomes (get : string -> http_result) (w : world) :
  (forall r result names,
     get (api_models (self w)) = Answered r -> status_ok r ->
     body r = Some result -> listing result names ->
     get_models get w = Ret names w) /\
  (no_listing (get (api_models (self w))) ->
     exists msg,
       get_models get w =
         Ret [] (with_logged (logged w ++ ["Error getting models: " +:+ msg]) w)) /\
  (forall r d,
     get (api_models (self w)) = Answered r -> status_ok r ->
     body r = Some (PDict d) -> dict_get "models" d = None ->
     get_models get w = Exc (KeyError "models") w) /\
  (forall r d good dm rest names,
     get (api_models (self w)) = Answered r -> status_ok r ->
     body r = Some (PDict d) ->
     dict_get "models" d = Some (PList (good ++ PDict dm :: rest)) ->
     listing (PDict [("models", PList good)]) names ->
     dict_get "name" dm = None ->
     get_models get w = Exc (KeyError "name") w).
Proof.
  split; [|split; [|split]].
  - intros r result names Hget Hok Hbody (d & ms & -> & Hms & Hnames).
    unfold get_models, try_except, bind, attr. rewrite Hget. cbn [http ret].
    rewrite raise_for_status_ok by assumption.
    unfold response_json. rewrite Hbody. cbn [ret subscript lift]. rewrite Hms.
    cbn [lift ret py_iter]. now rewrite (names_of_listing ms names).
  - unfold get_models, try_except, bind, attr.
    intros [[msg Hr] | [[r [Hr Hs]] | [r [Hr [Hs Hb]]]]]; rewrite Hr;
      cbn [http ret raise].
    + exists msg. reflexivity.
    + destruct (raise_for_status_bad r w Hs) as [msg Hm]. exists msg.
      now rewrite Hm.
    + exists "Expecting value". rewrite raise_for_status_ok by assumption.
      unfold response_json. now rewrite Hb.
  - intros r d Hget Hok Hbody Hms.
    unfold get_models, try_except, bind, attr. rewrite Hget. cbn [http ret].
    rewrite raise_for_status_ok by assumption.
    unfold response_json. rewrite Hbody. cbn [ret subscript lift].
    now rewrite Hms.
  - intros r d good dm rest names Hget Hok Hbody Hms (d' & ms & Hd & Hg & Hnames) Hn.
    injection Hd as <-. cbn in Hg. injection Hg as <-.
    unfold get_models, try_except, bind, attr. rewrite Hget. cbn [http ret].
    rewrite raise_for_status_ok by assumption.
    unfold response_json. rewrite Hbody. cbn [ret subscript lift]. rewrite Hms.
    cbn [lift ret py_iter].
    assert (E : names_of (good ++ PDict dm :: rest) = Raised (KeyError "name")).
    { clear -Hnames Hn. induction Hnames as [|m n ms names [dm' [-> Hm]] _ IH].
      - cbn [app names_of subscript]. now rewrite Hn.
      - cbn [app names_of subscript]. now rewrite Hm, IH. }
    now rewrite E.
Qed.

Lemma get_models_outcomes_witness :
  get_models (tags_server (Some two_models))
      (world_of fresh ∅)
    = Ret [PStr "a"; PStr "b"] (world_of fresh ∅) /\
  (exists msg,
     get_models (fun _ => Failed "Connection refused")
         (world_of fresh ∅)
       = Ret [] (with_logged ["Error getting models: " +:+ msg]
                   (world_of fresh ∅))).
Proof.
  pose proof (get_models_outcomes
                (tags_server (Some two_models)) (world_of fresh ∅))
    as [Hlist _].
  pose proof (get_models_outcomes
                (fun _ => Failed "Connection refused") (world_of fresh ∅))
    as [_ [Hfail _]].
  split.
  - apply (Hlist (ok_response (Some two_models) []) two_models);
      [ reflexivity | left; cbn; lia | reflexivity |].
    exists [("models", PList [PDict [("name", PStr "a")]; PDict [("name", PStr "b")]])],
      [PDict [("name", PStr "a")]; PDict [("name", PStr "b")]].
    repeat split. repeat constructor; eexists; split; reflexivity.
  - apply Hfail. left. exists "Connection refused". reflexivity.
Defined.

(** The server answers with a JSON object that has no ["models"]:
    [get_models] raises [KeyError] where the claim has it return the
    empty list. *)
Lemma get_models_missing_field_raises :
  let r := get_models (tags_server (Some error_body))
             (world_of fresh ∅) in
  r = Exc (KeyError "models") (world_of fresh ∅) /\
  (forall w', r <> Ret [] w').
Proof. cbv zeta. split; [reflexivity | discriminate]. Qed.

(* ================================================================== *)
(** ** load_conversation                                                *)
(* ================================================================== *)




(* ================================================================== *)
(** ** The configuration file                                           *)
(* ================================================================== *)

Lemma bind_ret_inv {A B} (m : M A) (k : A -> M B) (w w' : world) (b : B) :
  bind m k w = Ret b w' ->
  exists a w1, m w = Ret a w1 /\ k a w1 = Ret b w'.
Proof.
  unfold bind. destruct (m w) as [a w1|e w1]; [|discriminate].
  intros Hk. now exists a, w1.
Qed.

Section StringItems.
Context {V : Type}.

Lemma string_items_get_set (k k' : string) (v : V) (d : list (string * V)) :
  items_get String.eqb k (items_set String.eqb k' v d) =
    if String.eqb k k' then Some v else items_get String.eqb k d.
Proof.
  induction d as [|[k0 v0] d IH]; cbn [items_get items_set]; [reflexivity|].
  destruct (String.eqb k' k0) eqn:E; cbn [items_get].
  - apply String.eqb_eq in E as ->. now destruct (String.eqb k k0).
  - rewrite IH. destruct (String.eqb k k0) eqn:E'; [|reflexivity].
    apply String.eqb_eq in E' as ->. rewrite String.eqb_sym in E.
    now rewrite E.
Qed.
End StringItems.

Section ConfigFacts.
Context `{Builtins}.

(** Assigning to an option of a section that exists: what every option
    of that section reads afterwards, before interpolation. *)
Lemma cfg_set_raw (sect k k' : string) (s : string) (c c' : config) :
  cfg_set sect k (PStr s) c = Fine c' ->
  items_mem String.eqb sect (sections c) = true ->
  cfg_raw sect k' c' =
    if String.eqb (str_lower k') (str_lower k) then Some s
    else cfg_raw sect k' c.
Proof.
  unfold cfg_set. destruct (_ && _); [discriminate|]. intros [= <-].
  unfold cfg_raw, items_mem. cbn [sections defaults].
  induction (sections c) as [|[n opts] ss IH]; cbn [items_get map fst snd];
    [discriminate|].
  destruct (String.eqb n sect) eqn:E.
  - apply String.eqb_eq in E as ->. cbn [items_get]. rewrite String.eqb_refl.
    intros _. rewrite string_items_get_set.
    now destruct (String.eqb (str_lower k') (str_lower k)).
  - cbn [items_get]. rewrite String.eqb_sym, E. exact IH.
Qed.

Lemma cfg_set_has_section (sect k n : string) (v : value) (c c' : config) :
  cfg_set sect k v c = Fine c' ->
  items_mem String.eqb n (sections c') = items_mem String.eqb n (sections c).
Proof.
  unfold cfg_set. destruct v; try discriminate.
  destruct (_ && _); [discriminate|]. intros [= <-]. cbn [sections].
  apply items_mem_keys. rewrite map_map. apply map_ext.
  intros [n' opts]. cbn [fst snd]. now destruct (String.eqb n' sect).
Qed.

(** A successful [config_set]. *)
Lemma config_set_ret (sect k : string) (v : value) (w w' : world) :
  config_set sect k v w = Ret tt w' ->
  exists c', cfg_set sect k v (config_ (self w)) = Fine c' /\
             w' = with_self (with_config c' (self w)) w.
Proof.
  unfold config_set, bind, attr, lift, assign.
  destruct (cfg_set sect k v (config_ (self w))) as [c'|e]; cbn [ret raise];
    [|discriminate].
  intros [= <-]. now exists c'.
Qed.

Lemma config_ensure_ret (sect : string) (w : world) :
  exists c', config_ensure sect w = Ret tt (with_self (with_config c' (self w)) w) /\
             items_mem String.eqb sect (sections c') = true \/
             (String.eqb sect "DEFAULT" = true /\
              config_ensure sect w = Ret tt w).
Proof.
  unfold config_ensure, bind, attr, cfg_has_section, assign.
  destruct (String.eqb sect "DEFAULT") eqn:E; cbn [orb].
  - exists (config_ (self w)). right. now split.
  - destruct (items_mem String.eqb sect (sections (config_ (self w)))) eqn:Hm.
    + exists (config_ (self w)). left. split; [|exact Hm].
      cbn [ret]. now destruct w as [[] ? ? ? ? ?].
    + exists (cfg_new_section sect (config_ (self w))). left.
      split; [reflexivity|]. unfold cfg_new_section. cbn [sections].
      rewrite items_mem_app, items_mem_cons, String.eqb_refl.
      now rewrite orb_true_r.
Qed.
End ConfigFacts.

Section SaveConfig.
Context `{Builtins}.

(** The loop of [save_config]: the option of a parameter reads as the
    text last written for it, provided every item of the same
    lower-cased name carries that text. *)
Lemma save_parameters_binding (param text : string)
    (items : list (key * value)) (w w' : world) :
  items_mem String.eqb "Parameters" (sections (config_ (self w))) = true ->
  (forall name' x, In (KStr name', x) items ->
     str_lower name' = str_lower param -> py_str x = text) ->
  (cfg_raw "Parameters" param (config_ (self w)) = Some text \/
   exists name' x, In (KStr name', x) items /\
                   str_lower name' = str_lower param) ->
  save_parameters items w = Ret tt w' ->
  cfg_raw "Parameters" param (config_ (self w')) = Some text.
Proof.
  revert w. induction items as [|[k x] items IH]; intros w HS Hsame Hor Hrun.
  - injection Hrun as <-. destruct Hor as [HJ | (n & y & [] & _)]. exact HJ.
  - cbn [save_parameters] in Hrun. destruct k as [| | | |name]; try discriminate.
    apply bind_ret_inv in Hrun as ([] & w1 & Hset & Hrest).
    apply config_set_ret in Hset as (c1 & Hc1 & ->).
    apply IH in Hrest; [exact Hrest | | |].
    + cbn [self with_self config_ with_config].
      now rewrite (cfg_set_has_section _ _ _ _ _ _ Hc1).
    + intros name' y Hin. apply Hsame. now right.
    + cbn [self with_self config_ with_config].
      rewrite (cfg_set_raw _ _ param _ _ _ Hc1 HS).
      destruct (String.eqb (str_lower param) (str_lower name)) eqn:E.
      * left. f_equal. apply (Hsame name x); [now left|].
        apply String.eqb_eq in E. now symmetry.
      * destruct Hor as [HJ | (n & y & [Hin | Hin] & Hl)].
        -- now left.
        -- injection Hin as -> ->. rewrite Hl, String.eqb_refl in E.
           discriminate.
        -- right. now exists n, y.
Qed.

(** What a successful [save_config] leaves: the parameters are as
    before, [config.ini] holds the configuration of the session, and in
    it a parameter reads as the text of its value. *)
Lemma save_config_persists (w w' : world) (param : string) (x : value) :
  save_config w = Ret tt w' ->
  In (KStr param, x) (parameters (self w)) ->
  (forall name' y, In (KStr name', y) (parameters (self w)) ->
     str_lower name' = str_lower param -> py_str y = py_str x) ->
  parameters (self w') = parameters (self w) /\
  files w' !! "config.ini" = Some (Ini (ini_reread (config_ (self w')))) /\
  cfg_raw "Parameters" param (config_ (self w')) = Some (py_str x).
Proof.
  intros Hrun Hin Hsame.
  set (Q := on_self (fun s => parameters s = parameters (self w))).
  assert (HQ : forall c s, parameters s = parameters (self w) ->
                           parameters (with_config c s) = parameters (self w))
    by (intros c s Hs; exact Hs).
  assert (Q0 : Q w) by reflexivity.
  split; [exact (preserves_returned Q _ _ _ _
                   (on_self_save_config _ HQ) Q0 Hrun)|].
  unfold save_config in Hrun.
  apply bind_ret_inv in Hrun as ([] & w1 & H1 & Hrun).
  pose proof (preserves_returned Q _ _ _ _
                (on_self_config_ensure _ HQ _) Q0 H1) as Q1.
  apply bind_ret_inv in Hrun as (u & w1' & Ha & Hrun). injection Ha as <- <-.
  apply bind_ret_inv in Hrun as ([] & w2 & H2 & Hrun).
  pose proof (preserves_returned Q _ _ _ _
                (on_self_config_set _ HQ _ _ _) Q1 H2) as Q2.
  apply bind_ret_inv in Hrun as (m & w2' & Ha & Hrun). injection Ha as <- <-.
  apply bind_ret_inv in Hrun as ([] & w3 & H3 & Hrun).
  pose proof (preserves_returned Q _ _ _ _
                (on_self_config_set _ HQ _ _ _) Q2 H3) as Q3.
  apply bind_ret_inv in Hrun as (sp & w3' & Ha & Hrun). injection Ha as <- <-.
  apply bind_ret_inv in Hrun as ([] & w4 & H4 & Hrun).
  pose proof (preserves_returned Q _ _ _ _
                (on_self_config_set _ HQ _ _ _) Q3 H4) as Q4.
  apply bind_ret_inv in Hrun as ([] & w5 & H5 & Hrun).
  pose proof (preserves_returned Q _ _ _ _
                (on_self_config_ensure _ HQ _) Q4 H5) as Q5.
  assert (HS : items_mem String.eqb "Parameters" (sections (config_ (self w5)))
               = true).
  { destruct (config_ensure_ret "Parameters" w4) as [c' [[Hc HS] | [Hd _]]];
      [| discriminate].
    rewrite Hc in H5. injection H5 as <-. exact HS. }
  apply bind_ret_inv in Hrun as (p & w5' & Ha & Hrun). injection Ha as <- <-.
  apply bind_ret_inv in Hrun as ([] & w6 & H6 & Hrun).
  unfold Q, on_self in Q5. rewrite Q5 in H6.
  apply (save_parameters_binding param (py_str x)) in H6;
    [ | exact HS | exact Hsame | right; now exists param, x ].
  apply bind_ret_inv in Hrun as ([] & w7 & H7 & Hrun).
  unfold open_write in H7. destruct (bool_decide _); [discriminate|].
  injection H7 as <-.
  apply bind_ret_inv in Hrun as ([] & w8 & H8 & Hrun).
  injection H8 as <-. injection Hrun as <-.
  cbn [self files with_logged with_files]. split; [|exact H6].
  now rewrite lookup_insert_eq.
Qed.
End SaveConfig.

(* ================================================================== *)
(** ** set_parameter                                                    *)
(* ================================================================== *)

Lemma param_get_In (a : string) (y : value) (d : list (key * value)) :
  List.NoDup (map fst d) -> In (KStr a, y) d -> param_get (KStr a) d = Some y.
Proof.
  unfold param_get. induction d as [|[k0 v0] d IH]; intros Hnd Hin; [destruct Hin|].
  cbn [map fst] in Hnd. apply List.NoDup_cons_iff in Hnd as [Hk0 Hnd].
  cbn [items_get]. destruct (key_eqb (KStr a) k0) eqn:E.
  - apply key_eqb_str in E as ->. destruct Hin as [[= ->] | Hin]; [reflexivity|].
    exfalso. apply Hk0. change (KStr a) with (fst (KStr a, y)).
    now apply in_map.
  - destruct Hin as [[= -> ->] | Hin]; [|now apply IH].
    rewrite (proj2 (key_eqb_str a (KStr a)) eq_refl) in E. discriminate.
Qed.

Lemma param_get_Some_In (a : string) (y : value) (d : list (key * value)) :
  param_get (KStr a) d = Some y -> In (KStr a, y) d.
Proof.
  unfold param_get. induction d as [|[k0 v0] d IH]; [discriminate|].
  cbn [items_get]. destruct (key_eqb (KStr a) k0) eqn:E.
  - apply key_eqb_str in E as ->. intros [= ->]. now left.
  - intros Hg. right. now apply IH.
Qed.

Lemma fixed_names_NoDup : List.NoDup fixed_names.
Proof.
  unfold fixed_names. repeat constructor; cbn; intuition discriminate.
Qed.

Lemma existsb_fixed_In (k : string) :
  existsb (key_eqb (KStr k)) fixed_names = true -> In (KStr k) fixed_names.
Proof.
  intros Hex. apply existsb_exists in Hex as [k' [Hin Hk]].
  now apply key_eqb_str in Hk as ->.
Qed.

(** C5, as the code has it.  [set_parameter] fails with "Unknown
    parameter" when the name is not a key of the mapping, and with
    "Invalid value" when [float] raises [ValueError] on the value; in
    both cases nothing changes.  When [float] returns [f] (it returns
    [nan] and [inf] as well) and the configuration can be written, the
    mapping binds the name to [f], [config.ini] holds the configuration
    of the session, and there the parameter reads as [str(f)]. *)
Theorem set_parameter_outcomes `{Builtins} (param : string) (v : value)
    (w : world) :
  (param_mem (KStr param) (parameters (self w)) = false ->
     set_parameter param v w = Ret ("Unknown parameter: " +:+ param) w) /\
  (forall e,
     param_mem (KStr param) (parameters (self w)) = true ->
     py_float v = Raised e -> is_ValueError e = true ->
     set_parameter param v w = Ret ("Invalid value for " +:+ param) w) /\
  (forall f w',
     parameters_ok (parameters (self w)) ->
     (forall a b, In (KStr a) fixed_names -> In (KStr b) fixed_names ->
        str_lower a = str_lower b -> a = b) ->
     param_mem (KStr param) (parameters (self w)) = true ->
     py_float v = Fine f ->
     save_config
       (with_self
          (with_parameters
             (param_set (KStr param) (PFloat f) (parameters (self w))) (self w))
          w) = Ret tt w' ->
     set_parameter param v w =
       Ret ("Parameter " +:+ param +:+ " set to " +:+ py_str v) w' /\
     param_get (KStr param) (parameters (self w')) = Some (PFloat f) /\
     files w' !! "config.ini" = Some (Ini (ini_reread (config_ (self w')))) /\
     cfg_raw "Parameters" param (config_ (self w')) = Some (py_str (PFloat f))).
Proof.
  split; [|split].
  - intros Hm. unfold set_parameter. unfold bind at 1, attr at 1.
    now rewrite Hm.
  - intros e Hm Hf He. unfold set_parameter. unfold bind at 1, attr at 1.
    rewrite Hm. unfold try_except, bind. rewrite Hf. cbn [lift raise].
    now rewrite He.
  - intros f w' Hok Hinj Hm Hf Hsave.
    set (p' := param_set (KStr param) (PFloat f) (parameters (self w))) in *.
    assert (Hget : param_get (KStr param) p' = Some (PFloat f)).
    { unfold p'. rewrite param_get_set_str. cbn [key_eqb].
      now rewrite String.eqb_refl. }
    assert (Hkeys : map fst p' = fixed_names).
    { unfold p', param_set. rewrite items_set_keys by exact Hm. apply Hok. }
    assert (Hparam : In (KStr param) fixed_names).
    { apply existsb_fixed_In. now rewrite <- (parameters_ok_mem _ _ Hok). }
    destruct (save_config_persists _ _ param (PFloat f) Hsave) as (Hp & Hfile & Hraw).
    + cbn [self with_self parameters with_parameters].
      now apply param_get_Some_In.
    + cbn [self with_self parameters with_parameters].
      intros name' y Hin Hl.
      assert (name' = param) as ->.
      { apply Hinj; [|exact Hparam|exact Hl].
        rewrite <- Hkeys. change (KStr name') with (fst (KStr name', y)).
        now apply in_map. }
      apply param_get_In in Hin; [|rewrite Hkeys; apply fixed_names_NoDup].
      rewrite Hget in Hin. now injection Hin as <-.
    + split; [|split; [|split]]; [| |exact Hfile|exact Hraw].
      * unfold set_parameter. unfold bind at 1, attr at 1. rewrite Hm.
        unfold try_except, bind. rewrite Hf. cbn [lift ret].
        unfold parameters_setitem, assign. fold p'. now rewrite Hsave.
      * rewrite Hp. exact Hget.
Qed.

Lemma reference_lower_fixed (a b : string) :
  In (KStr a) fixed_names -> In (KStr b) fixed_names ->
  Reference.lower a = Reference.lower b -> a = b.
Proof.
  cbn. intros [[= <-]|[[= <-]|[[= <-]|[[= <-]|[]]]]]
              [[= <-]|[[= <-]|[[= <-]|[[= <-]|[]]]]] E;
    first [reflexivity | vm_compute in E; discriminate].
Qed.

Lemma set_parameter_outcomes_witness :
  let w := world_of fresh ∅ in
  let w' := final (set_parameter (H := Reference.builtins) "temperature"
                     (PStr "0.5") w) in
  set_parameter (H := Reference.builtins) "mirostat" (PStr "0.5") w
    = Ret ("Unknown parameter: " +:+ "mirostat") w /\
  set_parameter (H := Reference.builtins) "temperature" (PStr "warm") w
    = Ret ("Invalid value for " +:+ "temperature") w /\
  (set_parameter (H := Reference.builtins) "temperature" (PStr "0.5") w
     = Ret ("Parameter " +:+ "temperature" +:+ " set to "
            +:+ py_str (Builtins := Reference.builtins) (PStr "0.5")) w' /\
   param_get (KStr "temperature") (parameters (self w'))
     = Some (PFloat (FFin 5 (-1))) /\
   files w' !! "config.ini"
     = Some (Ini (ini_reread (Builtins := Reference.builtins)
                    (config_ (self w')))) /\
   cfg_raw (H := Reference.builtins) "Parameters" "temperature"
       (config_ (self w'))
     = Some (py_str (Builtins := Reference.builtins) (PFloat (FFin 5 (-1))))).
Proof.
  cbv zeta.
  pose proof (set_parameter_outcomes (H := Reference.builtins) "mirostat"
                (PStr "0.5") (world_of fresh ∅)) as [Hunknown _].
  pose proof (set_parameter_outcomes (H := Reference.builtins) "temperature"
                (PStr "warm") (world_of fresh ∅)) as [_ [Hinvalid _]].
  pose proof (set_parameter_outcomes (H := Reference.builtins) "temperature"
                (PStr "0.5") (world_of fresh ∅)) as [_ [_ Hset]].
  split; [apply Hunknown; vm_compute; reflexivity|].
  split.
  - apply (Hinvalid (ValueError "could not convert string to float: warm"));
      vm_compute; reflexivity.
  - apply Hset;
      [ exact default_parameters_ok | exact reference_lower_fixed
      | vm_compute; reflexivity | vm_compute; reflexivity
      | vm_compute; reflexivity ].
Defined.

(** What the call of the witness leaves, spelled out. *)
Example set_parameter_half :
  let r := set_parameter (H := Reference.builtins) "temperature" (PStr "0.5")
             (world_of fresh ∅) in
  r = Ret "Parameter temperature set to 0.5" (final r) /\
  param_get (KStr "temperature") (parameters (self (final r)))
    = Some (PFloat (FFin 5 (-1))) /\
  cfg_raw (H := Reference.builtins) "Parameters" "temperature"
    (config_ (self (final r))) = Some "0.5" /\
  files (final r) !! "config.ini" = Some (Ini (config_ (self (final r)))).
Proof. vm_compute. repeat split. Qed.

(** The value ["nan"] is no finite number, yet [set_parameter] accepts
    it: the call succeeds and the mapping binds the name to [nan]. *)
Lemma set_parameter_accepts_nan :
  let w := world_of fresh ∅ in
  let r := set_parameter (H := Reference.builtins) "temperature" (PStr "nan") w in
  r = Ret "Parameter temperature set to nan" (final r) /\
  (forall w', r <> Ret "Invalid value for temperature" w') /\
  param_get (KStr "temperature") (parameters (self w))
    = Some (PFloat (FFin 7 (-1))) /\
  param_get (KStr "temperature") (parameters (self (final r)))
    = Some (PFloat FNan).
Proof. vm_compute. repeat split. discriminate. Qed.

(** With a system prompt that holds a lone ["%"], [ConfigParser]
    refuses the configuration with a [ValueError]: [set_parameter]
    reports an invalid value although the value is a number and the
    mapping has been updated. *)
Remark set_parameter_blames_value :
  let w := world_of percent ∅ in
  let r := set_parameter (H := Reference.builtins) "temperature" (PStr "0.5") w in
  r = Ret "Invalid value for temperature" (final r) /\
  param_get (KStr "temperature") (parameters (self (final r)))
    = Some (PFloat (FFin 5 (-1))) /\
  files (final r) !! "config.ini" = None.
Proof. vm_compute. repeat split. Qed.

(* ================================================================== *)
(** ** save_conversation, then load_conversation                        *)
(* ================================================================== *)

Lemma with_files_insert_twice (p : string) (a b : file) (w : world) :
  with_files (<[p := b]> (files (with_files (<[p := a]> (files w)) w)))
    (with_files (<[p := a]> (files w)) w)
  = with_files (<[p := b]> (files w)) w.
Proof. unfold with_files. cbn. now rewrite insert_insert_eq. Qed.

Lemma file_write_text (p text t0 : string) (w : world) :
  files w !! p = Some (Text t0) ->
  file_write p text w = Ret tt (with_files (<[p := Text (t0 +:+ text)]> (files w)) w).
Proof. intros Hp. unfold file_write. now rewrite Hp. Qed.

Lemma file_write_again (p text a : string) (w : world) :
  file_write p text (with_files (<[p := Text a]> (files w)) w)
  = Ret tt (with_files (<[p := Text (a +:+ text)]> (files w)) w).
Proof.
  rewrite (file_write_text p text a) by (cbn [files with_files]; apply lookup_insert_eq).
  now rewrite with_files_insert_twice.
Qed.

Section Saving.
Context `{Builtins}.

(** On a conversation made of exchanges the transcript loop returns,
    and touches the transcript only. *)
Lemma write_exchanges_ok (p : string) (log : list value) (i : Z) (w : world)
    (t0 : string) :
  forallb is_exchange log = true ->
  files w !! p = Some (Text t0) ->
  exists t,
    write_exchanges p i log w = Ret tt (with_files (<[p := Text t]> (files w)) w).
Proof.
  revert i w t0. induction log as [|x log IH]; intros i w t0 Hlog Hp.
  - exists t0. cbn [write_exchanges ret].
    now rewrite insert_id, with_files_same.
  - cbn [forallb] in Hlog. apply andb_prop in Hlog as [Hx Hlog].
    destruct x as [| | | | | |d]; try discriminate.
    cbn [is_exchange] in Hx. apply andb_prop in Hx as [Hu Ha].
    unfold dict_mem, items_mem in Hu, Ha.
    fold (dict_get "user" d) in Hu. fold (dict_get "assistant" d) in Ha.
    destruct (dict_get "user" d) as [u|] eqn:Eu; [|discriminate].
    destruct (dict_get "assistant" d) as [a|] eqn:Ea; [|discriminate].
    cbn [write_exchanges]. unfold bind. cbn [subscript].
    rewrite Eu. cbn [lift ret].
    rewrite (file_write_text _ _ t0) by exact Hp.
    rewrite Ea. cbn [lift ret].
    rewrite !file_write_again.
    match goal with
    | |- context [write_exchanges p (i + 1) log
                    (with_files (<[p := Text ?t1]> (files w)) w)] =>
        destruct (IH (i + 1) (with_files (<[p := Text t1]> (files w)) w) t1 Hlog)
          as [t Ht]; [cbn [files with_files]; apply lookup_insert_eq|]
    end.
    exists t. rewrite Ht. now rewrite with_files_insert_twice.
Qed.

Lemma json_txt_paths (dir name : string) :
  dir +:+ "/" +:+ name +:+ ".json" <> dir +:+ "/" +:+ name +:+ ".txt".
Proof.
  intros E. apply String.app_inj in E. apply String.app_inj in E.
  apply String.app_inj in E. discriminate.
Qed.




End Saving.



(** The scenario of the specification: one exchange saved as [t1] and
    loaded into a session that has one more parameter, [seed]. *)
Example save_t1_load_t1 :
  let saved := final (save_conversation (H := Reference.builtins) noon
                        (Some "t1") (world_of greeted ∅)) in
  let r := load_conversation "chat_history/t1.json"
             (world_of tuned (files saved)) in
  is_Some (files saved !! "chat_history/t1.json") /\
  is_Some (files saved !! "chat_history/t1.txt") /\
  r = Ret true (final r) /\
  conversation (self (final r)) = PList [exchange "hi" (PStr "hello")] /\
  chat_name (self (final r)) = PStr "t1" /\
  param_get (KStr "seed") (parameters (self (final r))) = Some (PInt 7).
Proof. vm_compute. repeat split; eexists; reflexivity. Qed.

(* ================================================================== *)
(** ** rename_chat_file                                                 *)
(* ================================================================== *)

(** X18.  Renaming to a name whose record exists in the directory of
    the chat is refused: [rename_chat_file] returns [False] with the
    reason and changes nothing; no file is moved or overwritten and
    nothing is logged. *)
Lemma rename_collision (old_path new_name : string) (w : world) :
  is_Some (files w !! path_join (dirname old_path) (new_name +:+ ".json")) ->
  rename_chat_file old_path new_name w
    = Ret (false, "A file with this name already exists") w.
Proof.
  intros Hex. unfold rename_chat_file, try_except, bind, path_exists.
  now rewrite (bool_decide_eq_true_2 _ Hex).
Qed.

(** C6, on the chat saved under the name [a.json].  The data file is
    renamed to [b.json] and its chat name rewritten, and the call
    reports success; the transcript [a.json.txt] stays where it was and
    no [b.txt] appears, because the transcript is looked for at
    [old_path.replace(".json", ".txt")], here [chat_history/a.txt.txt]. *)
Theorem rename_leaves_transcript :
  let r := rename_chat_file "chat_history/a.json.json" "b" saved_as_a_json in
  str_replace ".json" ".txt" "chat_history/a.json.json" = "chat_history/a.txt.txt" /\
  is_Some (files saved_as_a_json !! "chat_history/a.json.json") /\
  is_Some (files saved_as_a_json !! "chat_history/a.json.txt") /\
  files saved_as_a_json !! "chat_history/b.json" = None /\
  r = Ret (true, "chat_history/b.json") (final r) /\
  files (final r) !! "chat_history/a.json.json" = None /\
  (exists d, files (final r) !! "chat_history/b.json" = Some (Json (PDict d)) /\
             dict_get "chat_name" d = Some (PStr "b")) /\
  files (final r) !! "chat_history/a.json.txt"
    = files saved_as_a_json !! "chat_history/a.json.txt" /\
  files (final r) !! "chat_history/b.txt" = None.
Proof.
  vm_compute.
  repeat match goal with
         | |- _ /\ _ => split
         | |- is_Some _ => eexists; reflexivity
         | |- exists _, _ => eexists
         | |- _ = _ => reflexivity
         end.
Qed.

(** The same chat saved under the name [a]: both files are renamed. *)
Example rename_plain_name :
  let saved := final (save_conversation (H := Reference.builtins) noon
                        (Some "a") (world_of greeted ∅)) in
  let r := rename_chat_file "chat_history/a.json" "b" saved in
  r = Ret (true, "chat_history/b.json") (final r) /\
  files (final r) !! "chat_history/a.json" = None /\
  files (final r) !! "chat_history/a.txt" = None /\
  is_Some (files (final r) !! "chat_history/b.json") /\
  files (final r) !! "chat_history/b.txt" = files saved !! "chat_history/a.txt" /\
  is_Some (files (final r) !! "chat_history/b.txt").
Proof.
  vm_compute.
  repeat match goal with
         | |- _ /\ _ => split
         | |- exists _, _ => eexists
         | |- _ = _ => reflexivity
         end.
Qed.

Lemma path_join_json_txt (dir name : string) :
  path_join dir (name +:+ ".json") <> path_join dir (name +:+ ".txt").
Proof.
  unfold path_join.
  assert (Hp : String.prefix "/" (name +:+ ".json")
               = String.prefix "/" (name +:+ ".txt")).
  { destruct name as [|c name]; [reflexivity|].
    change (String.prefix "/" (String c (name +:+ ".json"))
            = String.prefix "/" (String c (name +:+ ".txt"))).
    cbn [String.prefix]. destruct (ascii_dec "/" c); [|reflexivity].
    now destruct (name +:+ ".json"), (name +:+ ".txt"). }
  rewrite <- Hp.
  assert (Hne : name +:+ ".json" <> name +:+ ".txt")
    by (intros E; apply String.app_inj in E; discriminate).
  destruct (String.prefix "/" (name +:+ ".json")); [exact Hne|].
  destruct (String.eqb dir "" || ends_with_slash dir); intros E.
  - apply String.app_inj in E. contradiction.
  - apply String.app_inj in E. apply String.app_inj in E. contradiction.
Qed.

Lemma os_rename_ok (src dst : string) (f : file) (w : world) :
  denied w = ∅ -> files w !! src = Some f ->
  os_rename src dst w
    = Ret tt (with_files (<[dst := f]> (delete src (files w))) w).
Proof.
  intros Hd Hs. unfold os_rename. rewrite Hd, Hs.
  now rewrite !(bool_decide_eq_false_2 (_ ∈ ∅)) by apply not_elem_of_empty.
Qed.

Lemma open_read_ok (p : string) (f : file) (w : world) :
  denied w = ∅ -> files w !! p = Some f -> open_read p w = Ret f w.
Proof.
  intros Hd Hs. unfold open_read. rewrite Hd, Hs.
  now rewrite (bool_decide_eq_false_2 (_ ∈ ∅)) by apply not_elem_of_empty.
Qed.

Lemma open_write_ok (p : string) (w : world) :
  denied w = ∅ ->
  open_write p w = Ret tt (with_files (<[p := Text ""]> (files w)) w).
Proof.
  intros Hd. unfold open_write. rewrite Hd.
  now rewrite (bool_decide_eq_false_2 (_ ∈ ∅)) by apply not_elem_of_empty.
Qed.

(** X19.  When no record has the new name, every file can be accessed,
    the old path holds a chat record, and the transcript is where
    [rename_chat_file] looks for it, the call succeeds and returns the
    new path: both files have moved, the old paths are free, and the
    record has the new chat name and is otherwise as it was; without a
    transcript the record moves alone.  The session is as before. *)
Lemma rename_chat_file_moves (old_path new_name : string) (w : world)
    (d : list (string * value)) :
  let dir_path := dirname old_path in
  let new_json := path_join dir_path (new_name +:+ ".json") in
  let new_txt := path_join dir_path (new_name +:+ ".txt") in
  let old_txt := str_replace ".json" ".txt" old_path in
  files w !! new_json = None ->
  files w !! old_path = Some (Json (PDict d)) ->
  denied w = ∅ ->
  old_txt <> old_path -> old_txt <> new_json -> old_txt <> new_txt ->
  new_txt <> old_path ->
  exists w',
    rename_chat_file old_path new_name w = Ret (true, new_json) w' /\
    self w' = self w /\
    files w' !! old_path = None /\
    files w' !! new_json
      = Some (Json (PDict (dict_set "chat_name" (PStr new_name) d))) /\
    (forall t, files w !! old_txt = Some t ->
       files w' !! old_txt = None /\ files w' !! new_txt = Some t).
Proof.
  intros dir_path new_json new_txt old_txt Hfree Hold Hden Ho Hn Ht Hto.
  assert (Hon : old_path <> new_json) by (intros E; rewrite E in Hold; congruence).
  pose proof (path_join_json_txt dir_path new_name) as Hjt.
  fold new_json new_txt in Hjt.
  unfold rename_chat_file, try_except.
  fold dir_path. fold new_json new_txt old_txt.
  unfold bind at 1, path_exists at 1.
  rewrite (bool_decide_eq_false_2 (is_Some (files w !! new_json)))
    by (rewrite Hfree; apply is_Some_None).
  unfold bind at 1. rewrite (os_rename_ok _ _ _ _ Hden Hold).
  set (w1 := with_files (<[new_json := Json (PDict d)]> (delete old_path (files w))) w).
  assert (Hd1 : denied w1 = ∅) by exact Hden.
  unfold bind at 1, path_exists at 1.
  assert (Htxt1 : files w1 !! old_txt = files w !! old_txt).
  { unfold w1. cbn [files with_files].
    now rewrite lookup_insert_ne, lookup_delete_ne by congruence. }
  rewrite Htxt1.
  destruct (files w !! old_txt) as [t|] eqn:Etxt.
  - rewrite (bool_decide_eq_true_2 (is_Some (Some t))) by eauto.
    unfold bind at 1. rewrite (os_rename_ok _ _ t _ Hd1) by (now rewrite Htxt1).
    set (w2 := with_files (<[new_txt := t]> (delete old_txt (files w1))) w1).
    assert (Hd2 : denied w2 = ∅) by exact Hden.
    unfold bind at 1.
    rewrite (open_read_ok new_json (Json (PDict d)) w2 Hd2)
      by (unfold w2, w1; cbn [files with_files];
          rewrite lookup_insert_ne, lookup_delete_ne, lookup_insert_eq
            by congruence; reflexivity).
    unfold bind at 1. cbn [json_load lift ret].
    unfold bind at 1. cbn [setitem lift ret].
    unfold bind at 1. rewrite (open_write_ok _ _ Hd2).
    unfold bind at 1, json_dump at 1. cbn [ret].
    eexists. split; [reflexivity|]. unfold w2, w1. cbn [self files with_files].
    split; [reflexivity|]. split; [|split].
    + rewrite !lookup_insert_ne, lookup_delete_ne, lookup_insert_ne,
        lookup_delete_eq by congruence. reflexivity.
    + now rewrite lookup_insert_eq.
    + intros t' [= <-]. split.
      * rewrite !lookup_insert_ne, lookup_delete_eq by congruence. reflexivity.
      * rewrite !lookup_insert_ne, lookup_insert_eq by congruence. reflexivity.
  - rewrite (bool_decide_eq_false_2 (is_Some None)) by apply is_Some_None.
    unfold bind at 1. cbn [ret].
    unfold bind at 1.
    rewrite (open_read_ok new_json (Json (PDict d)) w1 Hd1)
      by (unfold w1; cbn [files with_files]; apply lookup_insert_eq).
    unfold bind at 1. cbn [json_load lift ret].
    unfold bind at 1. cbn [setitem lift ret].
    unfold bind at 1. rewrite (open_write_ok _ _ Hd1).
    unfold bind at 1, json_dump at 1. cbn [ret].
    eexists. split; [reflexivity|]. unfold w1. cbn [self files with_files].
    split; [reflexivity|]. split; [|split].
    + rewrite !lookup_insert_ne, lookup_delete_eq by congruence. reflexivity.
    + now rewrite lookup_insert_eq.
    + discriminate.
Qed.

(* ================================================================== *)
(** ** process_message                                                  *)
(* ================================================================== *)

(** X5.  When the request fails (no answer from the server, or a 4xx
    or 5xx status), [process_message] reports no error: [chat] has
    turned the failure into the text it returns, which
    [process_message] does not look at.  The failure goes to the log
    and nowhere else; the handler of the chunks is not called. *)
Theorem process_message_silent `{Builtins}
    (post : string -> value -> bool -> http_result) (user_message : string)
    (stream_handler : callback) (w : world) :
  (let reply := post (api_generate (self w))
                  (request_data (self w) user_message true) true in
   (exists msg, reply = Failed msg) \/
   (exists r, reply = Answered r /\ 400 <= status_code r < 600)) ->
  exists msg,
    process_message post user_message stream_handler w
      = Ret None
          (with_logged
             (logged w ++ ["Error communicating with Ollama: " +:+ msg]) w).
Proof.
  cbv zeta. intros Hfail.
  unfold process_message, try_except. unfold bind at 1.
  unfold chat, try_except, bind, attr. cbn [id is_not_None].
  destruct Hfail as [[msg Hr] | [r [Hr Hs]]].
  - exists msg. rewrite Hr. reflexivity.
  - destruct (raise_for_status_bad r w Hs) as [msg Hm]. exists msg.
    rewrite Hr. cbn [http ret]. rewrite Hm. reflexivity.
Qed.

Lemma process_message_silent_witness :
  exists msg,
    process_message (H := Reference.builtins) unreachable "hi" recorder
        (world_of fresh ∅)
      = Ret None
          (with_logged
             (logged (world_of fresh ∅)
              ++ ["Error communicating with Ollama: " +:+ msg])
             (world_of fresh ∅)).
Proof.
  apply (process_message_silent (H := Reference.builtins) unreachable "hi"
           recorder (world_of fresh ∅)).
  left. exists "Connection refused". reflexivity.
Defined.

(** X6.  A line of the stream that is not JSON makes [chat] raise;
    [process_message] catches the exception, logs it and reports it.
    The handler has received the texts of the well-formed lines before
    it, and the session is as before: no exchange is appended. *)
Theorem process_message_reports_malformed `{Builtins}
    (post : string -> value -> bool -> http_result) (user_message : string)
    (w : world) (r : response) (good rest : list line) (raw : string) :
  post (api_generate (self w)) (request_data (self w) user_message true) true
    = Answered r ->
  status_ok r ->
  lines r = good ++ Garbled raw :: rest ->
  forallb text_fragment good = true ->
  process_message post user_message recorder w =
    Ret (Some "Error: Expecting value")
        (with_logged (logged w ++ ["Error sending message: Expecting value"])
           (with_sunk (sunk w ++ map PStr (deltas good)) w)).
Proof.
  intros Hpost Hok Hlines Hwf.
  unfold process_message, try_except. unfold bind at 1.
  unfold chat, try_except, bind, attr. cbn [id is_not_None].
  rewrite Hpost. cbn [http ret].
  rewrite raise_for_status_ok by assumption.
  rewrite Hlines, stream_lines_app by assumption.
  reflexivity.
Qed.

Lemma process_message_reports_malformed_witness :
  process_message (H := Reference.builtins) garbled_server "hi" recorder
    (world_of fresh ∅)
  = Ret (Some "Error: Expecting value")
      (with_logged
         (logged (world_of fresh ∅) ++ ["Error sending message: Expecting value"])
         (with_sunk
            (sunk (world_of fresh ∅)
             ++ map PStr
                  (deltas [Fragment (PDict [("response", PStr "A");
                                            ("done", PBool false)])]))
            (world_of fresh ∅))).
Proof.
  apply (process_message_reports_malformed (H := Reference.builtins)
           garbled_server "hi" (world_of fresh ∅)
           (ok_response None garbled_lines)
           [Fragment (PDict [("response", PStr "A"); ("done", PBool false)])]
           [Fragment (PDict [("response", PStr "B"); ("done", PBool true)])]
           "{oops");
    [ reflexivity | left; cbn; lia | reflexivity | reflexivity ].
Defined.

(* ================================================================== *)
(** ** check_connection                                                 *)
(* ================================================================== *)

(** X7.  [check_connection] never raises and changes nothing.  It asks
    for [/api/version] under [base_url] and answers [True] exactly when
    the server answers with a status outside 400..599. *)
Theorem check_connection_outcome (get : string -> http_result) (w : world) :
  check_connection get w =
    Ret (match get (base_url (self w) +:+ "/api/version") with
         | Answered r =>
             negb (Z.leb 400 (status_code r) && Z.ltb (status_code r) 600)
         | Failed _ => false
         end) w.
Proof.
  unfold check_connection, try_except, bind, attr.
  destruct (get _) as [msg|r]; cbn [http ret raise]; [reflexivity|].
  unfold raise_for_status.
  destruct (Z.leb_spec 400 (status_code r)), (Z.ltb_spec (status_code r) 500),
    (Z.leb_spec 500 (status_code r)), (Z.ltb_spec (status_code r) 600);
    cbn; try reflexivity; lia.
Qed.

(* ================================================================== *)
(** ** The disk: what is written                                        *)
(* ================================================================== *)

Section DiskInvariant.
Context (Q : gmap string file -> Prop).

Lemma on_files_assign (f : session -> session) :
  preserves (on_files Q) (assign f).
Proof. intros w Hw. exact Hw. Qed.

Lemma on_files_log (msg : string) : preserves (on_files Q) (log msg).
Proof. intros w Hw. exact Hw. Qed.

Lemma on_files_path_exists (p : string) : preserves (on_files Q) (path_exists p).
Proof. intros w Hw. exact Hw. Qed.

Lemma on_files_open_read (p : string) : preserves (on_files Q) (open_read p).
Proof.
  intros w Hw. unfold open_read.
  destruct (bool_decide _); [exact Hw|]. destruct (files w !! p); exact Hw.
Qed.

Lemma on_files_recorder (v : value) : preserves (on_files Q) (recorder v).
Proof. intros w Hw. exact Hw. Qed.

Lemma on_files_set_current_file_path (p : option string) :
  preserves (on_files Q) (set_current_file_path p).
Proof. intros w Hw. exact Hw. Qed.

Lemma on_files_get_current_file_path :
  preserves (on_files Q) get_current_file_path.
Proof. intros w Hw. exact Hw. Qed.

Lemma on_files_parameters_update (other : value) :
  preserves (on_files Q) (parameters_update other).
Proof.
  intros w Hw. unfold parameters_update. destruct (snd _); exact Hw.
Qed.
End DiskInvariant.

Section DiskWrites.
Context `{Builtins} (ps : list string) (fs0 : gmap string file).

Lemma same_but_insert (p : string) (f : file) (fs : gmap string file) :
  In p ps -> same_but ps fs0 fs -> same_but ps fs0 (<[p := f]> fs).
Proof.
  intros Hp Hfs q Hq. rewrite lookup_insert_ne; [now apply Hfs|].
  intros ->. contradiction.
Qed.

Lemma same_but_delete (p : string) (fs : gmap string file) :
  In p ps -> same_but ps fs0 fs -> same_but ps fs0 (delete p fs).
Proof.
  intros Hp Hfs q Hq. rewrite lookup_delete_ne; [now apply Hfs|].
  intros ->. contradiction.
Qed.

Lemma writes_open_write (p : string) :
  In p ps -> preserves (on_files (same_but ps fs0)) (open_write p).
Proof.
  intros Hp w Hw. unfold open_write.
  destruct (bool_decide _); [exact Hw|]. now apply same_but_insert.
Qed.

Lemma writes_file_write (p text : string) :
  In p ps -> preserves (on_files (same_but ps fs0)) (file_write p text).
Proof.
  intros Hp w Hw. unfold file_write.
  destruct (files w !! p) as [[| |]|]; now apply same_but_insert.
Qed.

Lemma writes_json_dump (doc : value) (p : string) :
  In p ps -> preserves (on_files (same_but ps fs0)) (json_dump doc p).
Proof. intros Hp w Hw. now apply same_but_insert. Qed.

Lemma writes_config_write (p : string) :
  In p ps -> preserves (on_files (same_but ps fs0)) (config_write p).
Proof. intros Hp w Hw. now apply same_but_insert. Qed.

Lemma writes_os_rename (src dst : string) :
  In src ps -> In dst ps ->
  preserves (on_files (same_but ps fs0)) (os_rename src dst).
Proof.
  intros Hs Hd w Hw. unfold os_rename.
  destruct (_ || _); [exact Hw|]. destruct (files w !! src); [|exact Hw].
  apply same_but_insert; [exact Hd|]. now apply same_but_delete.
Qed.

Lemma writes_write_exchanges (p : string) (i : Z) (exchanges : list value) :
  In p ps ->
  preserves (on_files (same_but ps fs0)) (write_exchanges p i exchanges).
Proof.
  intros Hp. revert i. induction exchanges as [|x xs IH]; intros i;
    cbn [write_exchanges]; [apply preserves_ret|].
  apply preserves_bind; [apply preserves_lift|]. intros u.
  apply preserves_bind; [now apply writes_file_write|]. intros _.
  apply preserves_bind; [apply preserves_lift|]. intros a.
  apply preserves_bind; [now apply writes_file_write|]. intros _.
  apply preserves_bind; [now apply writes_file_write|]. intros _.
  apply IH.
Qed.
End DiskWrites.

Ltac disk_step :=
  first
    [ apply preserves_ret | apply preserves_raise | apply preserves_lift
    | apply preserves_attr | apply preserves_http
    | apply preserves_raise_for_status | apply preserves_response_json
    | apply on_files_assign | apply on_files_log | apply on_files_path_exists
    | apply on_files_open_read | apply on_files_recorder
    | apply on_files_set_current_file_path
    | apply on_files_get_current_file_path
    | apply on_files_parameters_update
    | apply writes_open_write; cbn [In]; solve [auto 8]
    | apply writes_file_write; cbn [In]; solve [auto 8]
    | apply writes_json_dump; cbn [In]; solve [auto 8]
    | apply writes_config_write; cbn [In]; solve [auto 8]
    | apply writes_write_exchanges; cbn [In]; solve [auto 8]
    | apply writes_os_rename; cbn [In]; solve [auto 8]
    | apply preserves_bind; [| intros ?]
    | apply preserves_try_except; [| intros ?]
    | match goal with
      | |- preserves _ (if ?b then _ else _) => destruct b
      | |- preserves _ (match ?x with _ => _ end) => destruct x
      end ].

(** [disk_by tac] takes a method apart like [frame_by], for an
    invariant of the disk. *)
Ltac disk_by tac := repeat first [ solve [tac] | disk_step ].

Section DiskFrames.
Context `{Builtins}.






End DiskFrames.



(** X10.  What [save_conversation] does, whether the files can be
    written or not.  With an empty conversation it reports that there
    is nothing to save and changes nothing.  Otherwise the chat takes
    the name given, or [chat_] and the time stamp when the name is
    missing or empty, before anything is written: the session has the
    new chat name, and nothing else of it has changed, even when the
    call raises.  Of the disk, only the record and the transcript of
    that name, under [save_dir], can have changed. *)
Theorem save_conversation_effect `{Builtins} (now : clock)
    (custom_name : option string) (w : world) :
  let base :=
    match custom_name with
    | Some n => if String.eqb n "" then "chat_" +:+ stamp now else n
    | None => "chat_" +:+ stamp now
    end in
  let w' := final (save_conversation now custom_name w) in
  (truthy (conversation (self w)) = false ->
     save_conversation now custom_name w = Ret "No conversation to save" w) /\
  (truthy (conversation (self w)) = true ->
     self w' = with_chat_name (PStr base) (self w)) /\
  same_but [ save_dir (self w) +:+ "/" +:+ base +:+ ".json";
             save_dir (self w) +:+ "/" +:+ base +:+ ".txt" ]
    (files w) (files w').
Proof.
  intros base w'. subst w'.
  split; [|split].
  - intros Ht. unfold save_conversation. unfold bind at 1, attr at 1.
    now rewrite Ht.
  - intros Ht. unfold save_conversation. unfold bind at 1, attr at 1.
    rewrite Ht. cbn [negb]. fold base. unfold bind at 1, assign at 1.
    match goal with
    | |- self (final (?rest ?w1)) = ?s1 =>
        change (on_self (fun s => s = s1) (final (rest w1)));
        apply (fun Hr : preserves (on_self (fun s => s = s1)) rest => Hr w1)
    end; [|reflexivity].
    frame_by ltac:(auto using on_self_write_exchanges).
  - unfold save_conversation. unfold bind at 1, attr at 1.
    destruct (truthy (conversation (self w))); cbn [negb];
      [|intros p _; reflexivity].
    fold base. unfold bind at 1, assign at 1.
    unfold bind at 1, attr at 1. cbn [id self with_self save_dir with_chat_name].
    match goal with
    | |- same_but ?ps (files w) (files (final (?rest ?w1))) =>
        change (on_files (same_but ps (files w)) (final (rest w1)));
        apply (fun Hr : preserves (on_files (same_but ps (files w))) rest => Hr w1)
    end; [|intros p _; reflexivity].
    disk_by fail.
Qed.


(* ================================================================== *)
(** ** __init__                                                         *)
(* ================================================================== *)

Section InitFrame.
Context `{Builtins} (P : session -> Prop).
Hypothesis P_model : forall v s, P s -> P (with_model v s).
Hypothesis P_system_prompt : forall v s, P s -> P (with_system_prompt v s).
Hypothesis P_parameters : forall p s, P s -> P (with_parameters p s).

Lemma on_self_config_read (p : string) : preserves (on_self P) (config_read p).
Proof.
  intros w Hw. unfold config_read.
  destruct (bool_decide _); [exact Hw|].
  destruct (files w !! p) as [[| |]|]; exact Hw.
Qed.

Lemma on_self_init_parameters (keys : list key) :
  preserves (on_self P) (init_parameters keys).
Proof.
  induction keys as [|k keys IH]; cbn [init_parameters];
    unfold parameters_setitem; frame_by ltac:(auto).
Qed.

(** What [__init__] does once the base URL has been dealt with. *)
Lemma on_self_init_tail (c : config) :
  preserves (on_self P)
    ((if cfg_has_option "Ollama" "model" c then
        let* v := lift (cfg_get "Ollama" "model" c) in
        assign (with_model (PStr v))
      else ret tt) ;;;
     (if cfg_has_option "Ollama" "system_prompt" c then
        let* v := lift (cfg_get "Ollama" "system_prompt" c) in
        assign (with_system_prompt (PStr v))
      else ret tt)).
Proof. frame. Qed.

Lemma on_self_init_loop (c : config) :
  preserves (on_self P)
    (if cfg_has_section "Parameters" c then
       let* p := attr parameters in
       init_parameters (map fst p)
     else ret tt).
Proof. frame_by ltac:(auto using on_self_init_parameters). Qed.
End InitFrame.

(** X12.  [__init__] computes the three endpoints from its argument
    and never again: when [config.ini] holds a base URL, the session
    takes it as [base_url], and whatever follows, [api_generate],
    [api_chat] and [api_models] still point to the argument. *)
Theorem init_endpoints `{Builtins} (base_url0 model0 : string) (w : world)
    (c : config) (u : string) :
  files w !! "config.ini" = Some (Ini c) ->
  "config.ini" ∉ denied w ->
  cfg_has_section "Ollama" c = true ->
  cfg_get "Ollama" "base_url" c = Fine u ->
  let s := self (final (init base_url0 model0 w)) in
  base_url s = u /\
  api_generate s = base_url0 +:+ "/api/generate" /\
  api_chat s = base_url0 +:+ "/api/chat" /\
  api_models s = base_url0 +:+ "/api/tags".
Proof.
  intros Hfile Hden Hsect Hget s. subst s.
  set (P := fun s : session =>
              base_url s = u /\
              api_generate s = base_url0 +:+ "/api/generate" /\
              api_chat s = base_url0 +:+ "/api/chat" /\
              api_models s = base_url0 +:+ "/api/tags").
  change (on_self P (final (init base_url0 model0 w))).
  assert (Hopt : cfg_has_option "Ollama" "base_url" c = true).
  { unfold cfg_has_option. unfold cfg_get in Hget.
    now destruct (cfg_raw "Ollama" "base_url" c). }
  unfold init. unfold bind at 1, assign at 1.
  unfold bind at 1, path_exists at 1. cbn [files with_self].
  rewrite Hfile. rewrite bool_decide_eq_true_2 by eauto.
  unfold bind at 1, config_read at 1. cbn [files denied with_self].
  rewrite (bool_decide_eq_false_2 _ Hden), Hfile.
  unfold bind at 1, assign at 1. unfold bind at 1, attr at 1.
  cbn [self with_self config_ with_config].
  rewrite Hsect, Hopt, Hget.
  unfold bind at 1 2 3. cbn [lift ret]. unfold assign at 1.
  match goal with
  | |- on_self P (final (match ?tail ?w1 with
                         | Ret _ wa => ?loop wa
                         | Exc e wb => Exc e wb
                         end)) =>
      assert (Ht : preserves (on_self P) tail)
        by (apply on_self_init_tail; intros ? ? Hs; exact Hs);
      assert (Hl : preserves (on_self P) loop)
        by (apply on_self_init_loop; intros ? ? Hs; exact Hs);
      specialize (Ht w1); destruct (tail w1) as [[] w2|e w2]
  end.
  - apply Hl, Ht. repeat split.
  - apply Ht. repeat split.
Qed.

Lemma init_endpoints_witness :
  let s := self (final (init (H := Reference.builtins) "http://localhost:11434"
                          "llama3.2"
                          (world_of fresh {[ "config.ini" := Ini moved_config ]}))) in
  base_url s = "http://10.0.0.2:11434" /\
  api_generate s = "http://localhost:11434" +:+ "/api/generate" /\
  api_chat s = "http://localhost:11434" +:+ "/api/chat" /\
  api_models s = "http://localhost:11434" +:+ "/api/tags".
Proof.
  apply (init_endpoints (H := Reference.builtins) "http://localhost:11434"
           "llama3.2" (world_of fresh {[ "config.ini" := Ini moved_config ]})
           moved_config "http://10.0.0.2:11434");
    [ vm_compute; reflexivity
    | cbn [denied world_of]; apply not_elem_of_empty
    | vm_compute; reflexivity
    | vm_compute; reflexivity ].
Defined.

Section InitRaises.
Context `{Builtins}.

(** The loop of [__init__] raises when it meets a parameter whose text
    [float] rejects, if it has not raised before. *)
Lemma init_parameters_raises (c : config) (name text : string)
    (keys : list key) (w : world) :
  config_ (self w) = c ->
  In (KStr name) keys ->
  cfg_get "Parameters" name c = Fine text ->
  float_of_str text = None ->
  exists e w', init_parameters keys w = Exc e w'.
Proof.
  intros Hc Hin Hget Hbad. revert w Hc.
  induction keys as [|k keys IH]; intros w Hc; [destruct Hin|].
  cbn [init_parameters]. unfold bind at 1, attr at 1. rewrite Hc.
  destruct k as [| | | |k0]; try (eexists _, _; reflexivity).
  destruct (cfg_has_option "Parameters" k0 c) eqn:Hopt.
  - unfold bind at 1.
    destruct (cfg_get "Parameters" k0 c) as [t|e] eqn:Hk;
      [|eexists _, _; reflexivity].
    cbn [lift ret]. unfold bind at 1.
    destruct (py_float (PStr t)) as [f|e] eqn:Hf;
      [|eexists _, _; reflexivity].
    cbn [lift ret]. unfold bind at 1, parameters_setitem, assign.
    destruct Hin as [[= ->] | Hin].
    + rewrite Hget in Hk. injection Hk as <-.
      cbn [py_float] in Hf. rewrite Hbad in Hf. discriminate.
    + apply IH; [exact Hin | exact Hc].
  - destruct Hin as [[= ->] | Hin]; [|now apply IH].
    unfold cfg_has_option in Hopt. unfold cfg_get in Hget.
    destruct (cfg_raw "Parameters" name c); discriminate.
Qed.
End InitRaises.

(** X13.  [__init__] does not check the parameters of [config.ini]:
    when the file holds, for one of the four parameters, a text that
    [float] rejects, the constructor raises. *)
Theorem init_rejects_bad_parameter `{Builtins} (base_url0 model0 : string)
    (w : world) (c : config) (name text : string) :
  files w !! "config.ini" = Some (Ini c) ->
  "config.ini" ∉ denied w ->
  In (KStr name) fixed_names ->
  cfg_get "Parameters" name c = Fine text ->
  float_of_str text = None ->
  exists e w', init base_url0 model0 w = Exc e w'.
Proof.
  intros Hfile Hden Hname Hget Hbad.
  assert (Hsect : cfg_has_section "Parameters" c = true).
  { unfold cfg_get, cfg_raw in Hget. unfold cfg_has_section, items_mem.
    destruct (items_get String.eqb "Parameters" (sections c)); [|discriminate].
    apply orb_true_r. }
  set (P := fun s : session => config_ s = c /\ map fst (parameters s) = fixed_names).
  unfold init. unfold bind at 1, assign at 1.
  unfold bind at 1, path_exists at 1. cbn [files with_self].
  rewrite Hfile. rewrite bool_decide_eq_true_2 by eauto.
  unfold bind at 1, config_read at 1. cbn [files denied with_self].
  rewrite (bool_decide_eq_false_2 _ Hden), Hfile.
  unfold bind at 1, assign at 1. unfold bind at 1, attr at 1.
  cbn [self with_self config_ with_config]. rewrite Hsect.
  unfold bind at 1.
  match goal with
  | |- exists e w', match ?ollama ?w1 with
                    | Ret _ wa => ?loop wa
                    | Exc x wb => Exc x wb
                    end = Exc e w' =>
      assert (Ho : preserves (on_self P) ollama);
      [| specialize (Ho w1 (conj eq_refl eq_refl));
         destruct (ollama w1) as [[] w2|e w2]; [|now exists e, w2] ]
  end.
  { frame_by ltac:(intros ? [? ?]; split; assumption). }
  destruct Ho as [Hc Hp]. cbn [final] in Hc, Hp. unfold bind, attr. rewrite Hp.
  now apply (init_parameters_raises c name text).
Qed.

Lemma init_rejects_bad_parameter_witness :
  exists e w',
    init (H := Reference.builtins) "http://localhost:11434" "llama3.2"
      (world_of fresh {[ "config.ini" := Ini warm_config ]})
    = Exc e w'.
Proof.
  apply (init_rejects_bad_parameter (H := Reference.builtins)
           "http://localhost:11434" "llama3.2"
           (world_of fresh {[ "config.ini" := Ini warm_config ]})
           warm_config "temperature" "warm");
    [ vm_compute; reflexivity
    | cbn [denied world_of]; apply not_elem_of_empty
    | now left
    | vm_compute; reflexivity
    | vm_compute; reflexivity ].
Defined.

(* ================================================================== *)
(** ** save_config, then __init__                                       *)
(* ================================================================== *)

Section ConfigSections.
Context `{Builtins}.

Lemma items_get_app {K V : Type} (eqb : K -> K -> bool) (k : K)
    (d1 d2 : list (K * V)) :
  items_get eqb k (d1 ++ d2) =
    match items_get eqb k d1 with
    | Some v => Some v
    | None => items_get eqb k d2
    end.
Proof.
  induction d1 as [|[k' v'] d1 IH]; cbn [app items_get]; [reflexivity|].
  now destruct (eqb k k').
Qed.

(** A new section changes nothing in the sections that exist. *)
Lemma cfg_new_section_raw (sect k n : string) (c : config) :
  items_mem String.eqb sect (sections c) = true ->
  cfg_raw sect k (cfg_new_section n c) = cfg_raw sect k c.
Proof.
  unfold items_mem, cfg_raw, cfg_new_section. cbn [sections defaults].
  rewrite items_get_app.
  now destruct (items_get String.eqb sect (sections c)).
Qed.

(** Assigning to an option of a section changes nothing in the other
    sections. *)
Lemma cfg_set_raw_other (sect sect' k k' : string) (v : value) (c c' : config) :
  cfg_set sect k v c = Fine c' -> sect' <> sect ->
  cfg_raw sect' k' c' = cfg_raw sect' k' c.
Proof.
  unfold cfg_set. destruct v; try discriminate.
  destruct (_ && _); [discriminate|]. intros [= <-] Hne.
  unfold cfg_raw. cbn [sections defaults].
  induction (sections c) as [|[n opts] ss IH]; cbn [items_get map fst snd];
    [reflexivity|].
  destruct (String.eqb n sect) eqn:E; cbn [items_get].
  - apply String.eqb_eq in E as ->.
    destruct (String.eqb sect' sect) eqn:E'; [|exact IH].
    apply String.eqb_eq in E'. contradiction.
  - destruct (String.eqb sect' n); [reflexivity | exact IH].
Qed.

Lemma cfg_set_str (sect k : string) (v : value) (c c' : config) :
  cfg_set sect k v c = Fine c' -> exists s, v = PStr s.
Proof. unfold cfg_set. destruct v; try discriminate. now eexists. Qed.

Lemma save_parameters_other (sect k : string) (items : list (key * value))
    (w w' : world) :
  sect <> "Parameters" ->
  save_parameters items w = Ret tt w' ->
  cfg_raw sect k (config_ (self w')) = cfg_raw sect k (config_ (self w)).
Proof.
  intros Hne. revert w. induction items as [|[k0 x] items IH]; intros w Hrun.
  - now injection Hrun as <-.
  - cbn [save_parameters] in Hrun. destruct k0 as [| | | |name]; try discriminate.
    apply bind_ret_inv in Hrun as ([] & w1 & Hset & Hrest).
    apply config_set_ret in Hset as (c1 & Hc1 & ->).
    rewrite (IH _ Hrest). cbn [self with_self config_ with_config].
    now apply (cfg_set_raw_other _ _ _ _ _ _ _ Hc1).
Qed.
End ConfigSections.

Section RoundTrip.
Context `{Builtins}.

(** What a successful [save_config] leaves in the section [Ollama] of
    the configuration, and on the disk. *)
Lemma save_config_ollama (w w' : world) :
  save_config w = Ret tt w' ->
  List.NoDup (map str_lower ["base_url"; "model"; "system_prompt"]) ->
  exists m sp,
    model (self w) = PStr m /\ system_prompt (self w) = PStr sp /\
    items_mem String.eqb "Ollama" (sections (config_ (self w'))) = true /\
    cfg_raw "Ollama" "base_url" (config_ (self w')) = Some (base_url (self w)) /\
    cfg_raw "Ollama" "model" (config_ (self w')) = Some m /\
    cfg_raw "Ollama" "system_prompt" (config_ (self w')) = Some sp /\
    files w' !! "config.ini" = Some (Ini (ini_reread (config_ (self w')))).
Proof.
  intros Hrun Hnd.
  assert (Hbm : String.eqb (str_lower "model") (str_lower "base_url") = false /\
                String.eqb (str_lower "system_prompt") (str_lower "base_url") = false /\
                String.eqb (str_lower "system_prompt") (str_lower "model") = false /\
                String.eqb (str_lower "base_url") (str_lower "model") = false /\
                String.eqb (str_lower "base_url") (str_lower "system_prompt") = false /\
                String.eqb (str_lower "model") (str_lower "system_prompt") = false).
  { cbn [map] in Hnd.
    apply List.NoDup_cons_iff in Hnd as [H1 Hnd].
    apply List.NoDup_cons_iff in Hnd as [H2 _].
    cbn [In] in H1, H2.
    repeat split; apply String.eqb_neq; intros E; rewrite ?E in *; tauto. }
  destruct Hbm as (E1 & E2 & E3 & E4 & E5 & E6).
  set (Q := on_self (fun s => base_url s = base_url (self w) /\
                              model s = model (self w) /\
                              system_prompt s = system_prompt (self w) /\
                              parameters s = parameters (self w))).
  assert (HQ : forall c s,
             (base_url s = base_url (self w) /\ model s = model (self w) /\
              system_prompt s = system_prompt (self w) /\
              parameters s = parameters (self w)) ->
             (base_url (with_config c s) = base_url (self w) /\
              model (with_config c s) = model (self w) /\
              system_prompt (with_config c s) = system_prompt (self w) /\
              parameters (with_config c s) = parameters (self w)))
    by (intros c s Hs; exact Hs).
  assert (Q0 : Q w) by (repeat split).
  unfold save_config in Hrun.
  apply bind_ret_inv in Hrun as ([] & w1 & H1 & Hrun).
  pose proof (preserves_returned Q _ _ _ _
                (on_self_config_ensure _ HQ _) Q0 H1) as Q1.
  assert (HS1 : items_mem String.eqb "Ollama" (sections (config_ (self w1))) = true).
  { destruct (config_ensure_ret "Ollama" w) as [c' [[Hc HS] | [Hd _]]];
      [| discriminate].
    rewrite Hc in H1. injection H1 as <-. exact HS. }
  apply bind_ret_inv in Hrun as (u & w1' & Ha & Hrun). injection Ha as <- <-.
  apply bind_ret_inv in Hrun as ([] & w2 & H2 & Hrun).
  pose proof (preserves_returned Q _ _ _ _
                (on_self_config_set _ HQ _ _ _) Q1 H2) as Q2.
  apply config_set_ret in H2 as (c2 & Hc2 & ->).
  apply bind_ret_inv in Hrun as (m & w2' & Ha & Hrun). injection Ha as <- <-.
  apply bind_ret_inv in Hrun as ([] & w3 & H3 & Hrun).
  pose proof (preserves_returned Q _ _ _ _
                (on_self_config_set _ HQ _ _ _) Q2 H3) as Q3.
  apply config_set_ret in H3 as (c3 & Hc3 & ->).
  apply bind_ret_inv in Hrun as (sp & w3' & Ha & Hrun). injection Ha as <- <-.
  apply bind_ret_inv in Hrun as ([] & w4 & H4 & Hrun).
  pose proof (preserves_returned Q _ _ _ _
                (on_self_config_set _ HQ _ _ _) Q3 H4) as Q4.
  apply config_set_ret in H4 as (c4 & Hc4 & ->).
  cbn [self with_self config_ with_config model system_prompt base_url] in *.
  destruct (cfg_set_str _ _ _ _ _ Hc3) as [ms Hms].
  destruct (cfg_set_str _ _ _ _ _ Hc4) as [sps Hsps].
  rewrite Hms in Hc3. rewrite Hsps in Hc4.
  assert (HS2 : items_mem String.eqb "Ollama" (sections c2) = true)
    by (now rewrite (cfg_set_has_section _ _ _ _ _ _ Hc2)).
  assert (HS3 : items_mem String.eqb "Ollama" (sections c3) = true)
    by (now rewrite (cfg_set_has_section _ _ _ _ _ _ Hc3)).
  assert (HS4 : items_mem String.eqb "Ollama" (sections c4) = true)
    by (now rewrite (cfg_set_has_section _ _ _ _ _ _ Hc4)).
  assert (Hraw : cfg_raw "Ollama" "base_url" c4 = Some (base_url (self w1)) /\
                 cfg_raw "Ollama" "model" c4 = Some ms /\
                 cfg_raw "Ollama" "system_prompt" c4 = Some sps).
  { rewrite !(cfg_set_raw _ _ _ _ _ _ Hc4 HS3).
    rewrite !(cfg_set_raw _ _ _ _ _ _ Hc3 HS2).
    rewrite !(cfg_set_raw _ _ _ _ _ _ Hc2 HS1).
    rewrite !String.eqb_refl, E4, E5, E6. auto. }
  apply bind_ret_inv in Hrun as ([] & w5 & H5 & Hrun).
  set (w4 := with_self (with_config c4 _) _) in *.
  assert (Hraw5 : forall k, cfg_raw "Ollama" k (config_ (self w5))
                            = cfg_raw "Ollama" k c4 /\
                  items_mem String.eqb "Ollama" (sections (config_ (self w5))) = true).
  { unfold config_ensure, bind, attr in H5.
    change (config_ (self w4)) with c4 in H5.
    destruct (cfg_has_section "Parameters" c4).
    - injection H5 as <-. intros k. now split.
    - unfold assign in H5. injection H5 as <-. intros k.
      cbn [self with_self config_ with_config]. split.
      + now apply cfg_new_section_raw.
      + unfold cfg_new_section. cbn [sections].
        now rewrite items_mem_app, HS4. }
  apply bind_ret_inv in Hrun as (p & w5' & Ha & Hrun). injection Ha as <- <-.
  apply bind_ret_inv in Hrun as ([] & w6 & H6 & Hrun).
  assert (Hraw6 : forall k, cfg_raw "Ollama" k (config_ (self w6))
                            = cfg_raw "Ollama" k c4).
  { intros k. rewrite (save_parameters_other "Ollama" k _ _ _ ltac:(discriminate) H6).
    apply Hraw5. }
  assert (HS6 : items_mem String.eqb "Ollama" (sections (config_ (self w6))) = true).
  { clear -H6 Hraw5. destruct (Hraw5 "") as [_ HS5]. clear Hraw5.
    revert H6 HS5. generalize (parameters (self w5)) as items. generalize w5.
    intros w0 items. revert w0.
    induction items as [|[k0 x] items IH]; intros w0 Hrun HS.
    - now injection Hrun as <-.
    - cbn [save_parameters] in Hrun.
      destruct k0 as [| | | |name]; try discriminate.
      apply bind_ret_inv in Hrun as ([] & wa & Hset & Hrest).
      apply config_set_ret in Hset as (ca & Hca & ->).
      apply (IH _ Hrest). cbn [self with_self config_ with_config].
      now rewrite (cfg_set_has_section _ _ _ _ _ _ Hca). }
  apply bind_ret_inv in Hrun as ([] & w7 & H7 & Hrun).
  unfold open_write in H7. destruct (bool_decide _); [discriminate|].
  injection H7 as <-.
  apply bind_ret_inv in Hrun as ([] & w8 & H8 & Hrun).
  injection H8 as <-. injection Hrun as <-.
  cbn [self files with_logged with_files].
  destruct Q1 as (Qu & Qm & Qs & _). unfold on_self in *.
  destruct Hraw as (Rb & Rm & Rs).
  exists ms, sps. rewrite <- Qm, <- Qs, !Hraw6.
  rewrite Qu in Rb.
  repeat split; try assumption.
  now rewrite lookup_insert_eq.
Qed.

(** What [__init__] takes from the section [Ollama] of a
    [config.ini], whatever the section [Parameters] holds. *)
Lemma init_reads_ollama (base_url0 model0 : string) (w : world) (c : config)
    (u m sp : string) :
  files w !! "config.ini" = Some (Ini c) ->
  "config.ini" ∉ denied w ->
  cfg_has_section "Ollama" c = true ->
  cfg_get "Ollama" "base_url" c = Fine u ->
  cfg_get "Ollama" "model" c = Fine m ->
  cfg_get "Ollama" "system_prompt" c = Fine sp ->
  let s := self (final (init base_url0 model0 w)) in
  base_url s = u /\ model s = PStr m /\ system_prompt s = PStr sp.
Proof.
  intros Hfile Hden Hsect Hu Hm Hsp s. subst s.
  assert (Hopt : forall k v, cfg_get "Ollama" k c = Fine v ->
                             cfg_has_option "Ollama" k c = true).
  { intros k v Hg. unfold cfg_has_option. unfold cfg_get in Hg.
    now destruct (cfg_raw "Ollama" k c). }
  set (P := fun s : session =>
              base_url s = u /\ model s = PStr m /\ system_prompt s = PStr sp).
  change (on_self P (final (init base_url0 model0 w))).
  unfold init. unfold bind at 1, assign at 1.
  unfold bind at 1, path_exists at 1. cbn [files with_self].
  rewrite Hfile. rewrite bool_decide_eq_true_2 by eauto.
  unfold bind at 1, config_read at 1. cbn [files denied with_self].
  rewrite (bool_decide_eq_false_2 _ Hden), Hfile.
  unfold bind at 1, assign at 1. unfold bind at 1, attr at 1.
  cbn [self with_self config_ with_config].
  rewrite Hsect, (Hopt _ _ Hu), (Hopt _ _ Hm), (Hopt _ _ Hsp), Hu, Hm, Hsp.
  unfold bind at 1 2 3 4 5 6. cbn [lift ret]. unfold assign at 1 2 3.
  cbn [self with_self].
  match goal with
  | |- on_self P (final (?loop ?w1)) =>
      apply (fun Hl : preserves (on_self P) loop => Hl w1)
  end; [|repeat split].
  apply on_self_init_loop. intros ? ? Hs; exact Hs.
Qed.
End RoundTrip.

(** X14.  The configuration survives a restart.  After a successful
    [save_config], an [OllamaChat] constructed on that disk has the
    base URL, the model and the system prompt of the session that
    saved them, whatever the arguments of the constructor.  This is
    for a [config.ini] that reads back as it was written, and for
    values that the interpolation of [ConfigParser] returns
    unchanged. *)
Theorem config_round_trip `{Builtins} (w w1 w2 : world)
    (base_url0 model0 : string) :
  save_config w = Ret tt w1 ->
  files w2 !! "config.ini" = files w1 !! "config.ini" ->
  "config.ini" ∉ denied w2 ->
  List.NoDup (map str_lower ["base_url"; "model"; "system_prompt"]) ->
  ini_reread (config_ (self w1)) = config_ (self w1) ->
  (forall raw,
     In (PStr raw) [PStr (base_url (self w)); model (self w);
                    system_prompt (self w)] ->
     interpolate (config_ (self w1)) "Ollama" raw = Some raw) ->
  let s := self (final (init base_url0 model0 w2)) in
  base_url s = base_url (self w) /\
  model s = model (self w) /\
  system_prompt s = system_prompt (self w).
Proof.
  intros Hsave Hfiles Hden Hnd Hre Hplain.
  destruct (save_config_ollama w w1 Hsave Hnd)
    as (m & sp & Hm & Hsp & HS & Rb & Rm & Rs & Hfile).
  rewrite Hm, Hsp in *. rewrite Hre in Hfile. rewrite <- Hfiles in Hfile.
  apply (init_reads_ollama base_url0 model0 w2 (config_ (self w1)));
    try assumption.
  - unfold cfg_get. rewrite Rb, Hplain; [reflexivity | now left].
  - unfold cfg_get. rewrite Rm, Hplain; [reflexivity | right; now left].
  - unfold cfg_get. rewrite Rs, Hplain; [reflexivity | right; right; now left].
Qed.

Lemma config_round_trip_witness :
  let w := world_of remote ∅ in
  let w1 := final (save_config (H := Reference.builtins) w) in
  let s := self (final (init (H := Reference.builtins)
                          "http://localhost:11434" "llama3.2"
                          (world_of fresh (files w1)))) in
  base_url s = base_url (self w) /\
  model s = model (self w) /\
  system_prompt s = system_prompt (self w).
Proof.
  apply (config_round_trip (H := Reference.builtins)
           (world_of remote ∅)
           (final (save_config (H := Reference.builtins) (world_of remote ∅)))
           (world_of fresh
              (files (final (save_config (H := Reference.builtins)
                               (world_of remote ∅)))))
           "http://localhost:11434" "llama3.2").
  - vm_compute. reflexivity.
  - vm_compute. reflexivity.
  - cbn [denied world_of]. apply not_elem_of_empty.
  - vm_compute. repeat constructor; cbn; intuition discriminate.
  - vm_compute. reflexivity.
  - intros raw Hin. vm_compute in Hin.
    destruct Hin as [[= <-] | [[= <-] | [[= <-] | []]]]; vm_compute; reflexivity.
Defined.

(** The session [remote] after a restart: the base URL is the one
    saved, the endpoints are those of the constructor's default. *)
Example restart_splits_the_endpoints :
  let w1 := final (save_config (H := Reference.builtins) (world_of remote ∅)) in
  let s := self (final (init (H := Reference.builtins)
                          "http://localhost:11434" "llama3.2"
                          (world_of fresh (files w1)))) in
  base_url s = "http://10.0.0.2:11434" /\
  model s = PStr "mistral" /\
  system_prompt s = PStr "Be brief." /\
  api_generate s = "http://localhost:11434/api/generate".
Proof. vm_compute. repeat split. Qed.

Section ParametersRoundTrip.
Context `{Builtins}.

(** What [__init__] makes of a [config.ini] whose section [Ollama] is
    complete and whose section [Parameters] holds a number for each of
    the four names. *)
Lemma init_reads_parameters (base_url0 model0 : string) (w : world) (c : config)
    (u m sp : string) (text : string -> string) (f : string -> pyfloat) :
  files w !! "config.ini" = Some (Ini c) ->
  "config.ini" ∉ denied w ->
  cfg_has_section "Ollama" c = true ->
  cfg_get "Ollama" "base_url" c = Fine u ->
  cfg_get "Ollama" "model" c = Fine m ->
  cfg_get "Ollama" "system_prompt" c = Fine sp ->
  (forall name, In (KStr name) fixed_names ->
     cfg_get "Parameters" name c = Fine (text name) /\
     float_of_str (text name) = Some (f name)) ->
  exists w',
    init base_url0 model0 w = Ret tt w' /\
    parameters (self w')
      = [ (KStr "temperature", PFloat (f "temperature"));
          (KStr "top_p", PFloat (f "top_p"));
          (KStr "top_k", PFloat (f "top_k"));
          (KStr "max_tokens", PFloat (f "max_tokens")) ].
Proof.
  intros Hfile Hden Hsect Hu Hm Hsp Hpar.
  assert (Hopt : forall sect k v, cfg_get sect k c = Fine v ->
                                  cfg_has_option sect k c = true).
  { intros sect k v Hg. unfold cfg_has_option. unfold cfg_get in Hg.
    now destruct (cfg_raw sect k c). }
  assert (Hps : cfg_has_section "Parameters" c = true).
  { destruct (Hpar "temperature") as [Hg _]; [now left|].
    unfold cfg_get, cfg_raw in Hg. unfold cfg_has_section, items_mem.
    destruct (items_get String.eqb "Parameters" (sections c)); [|discriminate].
    apply orb_true_r. }
  destruct (Hpar "temperature") as [G1 F1]; [now left|].
  destruct (Hpar "top_p") as [G2 F2]; [right; now left|].
  destruct (Hpar "top_k") as [G3 F3]; [right; right; now left|].
  destruct (Hpar "max_tokens") as [G4 F4]; [right; right; right; now left|].
  unfold init. unfold bind at 1, assign at 1.
  unfold bind at 1, path_exists at 1. cbn [files with_self].
  rewrite Hfile. rewrite bool_decide_eq_true_2 by eauto.
  unfold bind at 1, config_read at 1. cbn [files denied with_self].
  rewrite (bool_decide_eq_false_2 _ Hden), Hfile.
  unfold bind at 1, assign at 1. unfold bind at 1, attr at 1.
  cbn [self with_self config_ with_config].
  rewrite Hsect, Hps, (Hopt _ _ _ Hu), (Hopt _ _ _ Hm), (Hopt _ _ _ Hsp), Hu, Hm, Hsp.
  unfold bind at 1 2 3 4 5 6. cbn [lift ret]. unfold assign at 1 2 3.
  cbn [self with_self].
  unfold bind at 1, attr at 1.
  cbn [self with_self parameters with_config with_system_prompt with_model
       with_base_url].
  unfold default_parameters. cbn [map fst init_parameters].
  unfold bind, attr, parameters_setitem, assign.
  cbn [self with_self config_ with_config with_system_prompt with_model
       with_base_url with_parameters].
  repeat (cbv beta iota;
          cbn [self with_self config_ with_config with_system_prompt with_model
               with_base_url with_parameters parameters lift ret py_float];
          rewrite ?(Hopt _ _ _ G1), ?(Hopt _ _ _ G2), ?(Hopt _ _ _ G3),
            ?(Hopt _ _ _ G4), ?G1, ?G2, ?G3, ?G4, ?F1, ?F2, ?F3, ?F4).
  eexists. split; [reflexivity|]. reflexivity.
Qed.
End ParametersRoundTrip.

(** X15.  The parameters survive a restart, as floats.  After a
    successful [save_config] of a session whose mapping has the four
    parameters, an [OllamaChat] constructed on that disk binds each of
    them to [float(str(x))], for the value [x] that was saved: an
    [int], such as the default [top_k], comes back as a [float].  This
    is for a [config.ini] that reads back as it was written, for
    values that the interpolation of [ConfigParser] returns unchanged,
    and for numbers whose text [float] accepts. *)
Theorem parameters_round_trip `{Builtins} (w w1 w2 : world)
    (base_url0 model0 : string) :
  save_config w = Ret tt w1 ->
  parameters_ok (parameters (self w)) ->
  files w2 !! "config.ini" = files w1 !! "config.ini" ->
  "config.ini" ∉ denied w2 ->
  List.NoDup (map str_lower ["base_url"; "model"; "system_prompt"]) ->
  (forall a b, In (KStr a) fixed_names -> In (KStr b) fixed_names ->
     str_lower a = str_lower b -> a = b) ->
  ini_reread (config_ (self w1)) = config_ (self w1) ->
  (forall raw,
     In (PStr raw) [PStr (base_url (self w)); model (self w);
                    system_prompt (self w)] ->
     interpolate (config_ (self w1)) "Ollama" raw = Some raw) ->
  (forall x, In x (map snd (parameters (self w))) ->
     interpolate (config_ (self w1)) "Parameters" (py_str x) = Some (py_str x) /\
     is_Some (float_of_str (py_str x))) ->
  exists w3,
    init base_url0 model0 w2 = Ret tt w3 /\
    map fst (parameters (self w3)) = fixed_names /\
    forall name x,
      param_get (KStr name) (parameters (self w)) = Some x ->
      exists f, float_of_str (py_str x) = Some f /\
                param_get (KStr name) (parameters (self w3)) = Some (PFloat f).
Proof.
  intros Hsave [Hkeys Hvals] Hfiles Hden Hnd Hinj Hre Hplain Hnum.
  destruct (save_config_ollama w w1 Hsave Hnd)
    as (m & sp & Hm & Hsp & HS & Rb & Rm & Rs & Hfile).
  rewrite Hm, Hsp in Hplain. rewrite Hre in Hfile. rewrite <- Hfiles in Hfile.
  set (value_of := fun name =>
         match param_get (KStr name) (parameters (self w)) with
         | Some x => x
         | None => PNone
         end).
  set (text := fun name => py_str (value_of name)).
  set (f := fun name => match float_of_str (text name) with
                        | Some y => y
                        | None => FNan
                        end).
  assert (Hin : forall name, In (KStr name) fixed_names ->
            In (KStr name, value_of name) (parameters (self w))).
  { intros name Hn. apply param_get_Some_In. unfold value_of.
    destruct (param_get (KStr name) (parameters (self w))) eqn:E; [reflexivity|].
    exfalso. rewrite <- Hkeys in Hn. apply in_map_iff in Hn as ([k x] & Hk & Hx).
    cbn [fst] in Hk. subst k.
    rewrite (param_get_In name x) in E; [discriminate | | exact Hx].
    rewrite Hkeys. apply fixed_names_NoDup. }
  assert (Hpar : forall name, In (KStr name) fixed_names ->
            cfg_get "Parameters" name (config_ (self w1)) = Fine (text name) /\
            float_of_str (text name) = Some (f name)).
  { intros name Hn. specialize (Hin name Hn).
    destruct (Hnum (value_of name)) as [Hi [y Hy]].
    { change (value_of name) with (snd (KStr name, value_of name)).
      now apply in_map. }
    destruct (save_config_persists w w1 name (value_of name) Hsave Hin)
      as (_ & _ & Hraw).
    { intros name' y' Hin' Hl.
      assert (name' = name) as ->.
      { apply Hinj; [|exact Hn|exact Hl].
        rewrite <- Hkeys. change (KStr name') with (fst (KStr name', y')).
        now apply in_map. }
      apply param_get_In in Hin';
        [|rewrite Hkeys; apply fixed_names_NoDup].
      apply param_get_In in Hin;
        [|rewrite Hkeys; apply fixed_names_NoDup].
      rewrite Hin in Hin'. now injection Hin' as <-. }
    split.
    - unfold cfg_get. rewrite Hraw. fold (text name). unfold text at 1.
      now rewrite Hi.
    - unfold f. fold (text name) in Hy. now rewrite Hy. }
  destruct (init_reads_parameters base_url0 model0 w2 (config_ (self w1))
              (base_url (self w)) m sp text f Hfile Hden)
    as (w3 & Hinit & Hp); try assumption.
  - unfold cfg_get. rewrite Rb, Hplain; [reflexivity | now left].
  - unfold cfg_get. rewrite Rm, Hplain; [reflexivity | right; now left].
  - unfold cfg_get. rewrite Rs, Hplain; [reflexivity | right; right; now left].
  - exists w3. split; [exact Hinit|]. rewrite Hp. split; [reflexivity|].
    intros name x Hx.
    assert (Hn : In (KStr name) fixed_names).
    { rewrite <- Hkeys. apply param_get_Some_In in Hx.
      change (KStr name) with (fst (KStr name, x)). now apply in_map. }
    exists (f name). destruct (Hpar name Hn) as [_ Hf].
    unfold text, value_of in Hf. rewrite Hx in Hf. split; [exact Hf|].
    cbn [In fixed_names] in Hn.
    destruct Hn as [[= <-]|[[= <-]|[[= <-]|[[= <-]|[]]]]]; reflexivity.
Qed.

Lemma parameters_round_trip_witness :
  let w := world_of remote ∅ in
  let w1 := final (save_config (H := Reference.builtins) w) in
  exists w3,
    init (H := Reference.builtins) "http://localhost:11434" "llama3.2"
      (world_of fresh (files w1)) = Ret tt w3 /\
    map fst (parameters (self w3)) = fixed_names /\
    forall name x,
      param_get (KStr name) (parameters (self w)) = Some x ->
      exists f, float_of_str (Builtins := Reference.builtins)
                  (py_str (Builtins := Reference.builtins) x) = Some f /\
                param_get (KStr name) (parameters (self w3)) = Some (PFloat f).
Proof.
  apply (parameters_round_trip (H := Reference.builtins)
           (world_of remote ∅)
           (final (save_config (H := Reference.builtins) (world_of remote ∅)))
           (world_of fresh
              (files (final (save_config (H := Reference.builtins)
                               (world_of remote ∅)))))
           "http://localhost:11434" "llama3.2").
  - vm_compute. reflexivity.
  - exact default_parameters_ok.
  - vm_compute. reflexivity.
  - cbn [denied world_of]. apply not_elem_of_empty.
  - vm_compute. repeat constructor; cbn; intuition discriminate.
  - exact reference_lower_fixed.
  - vm_compute. reflexivity.
  - intros raw Hin. vm_compute in Hin.
    destruct Hin as [[= <-] | [[= <-] | [[= <-] | []]]]; vm_compute; reflexivity.
  - intros x Hin. vm_compute in Hin.
    destruct Hin as [<- | [<- | [<- | [<- | []]]]];
      (split; [vm_compute; reflexivity | vm_compute; eexists; reflexivity]).
Defined.

(** The default [top_k], the integer 40, is saved as [40] and comes
    back as the float [40.0]. *)
Example top_k_comes_back_a_float :
  let w1 := final (save_config (H := Reference.builtins) (world_of fresh ∅)) in
  let w3 := final (init (H := Reference.builtins) "http://localhost:11434"
                     "llama3.2" (world_of fresh (files w1))) in
  param_get (KStr "top_k") (parameters (self w1)) = Some (PInt 40) /\
  param_get (KStr "top_k") (parameters (self w3)) = Some (PFloat (FFin 40 0)).
Proof. vm_compute. split; reflexivity. Qed.

(* ================================================================== *)
(** ** load_conversation: what is taken from the record                 *)
(* ================================================================== *)

(** X16.  Loading a record (a JSON object whose ["parameters"], if
    any, is an object) succeeds and takes the record as it is, without
    checking the values.  A field that is missing is replaced: the
    model by the current model, the system prompt by the empty string,
    the conversation by the empty list, the chat name by the file name
    up to its first dot; without ["parameters"] the mapping is as
    before.  The endpoints, the directory, the disk and the log are as
    before. *)
Theorem load_conversation_takes (filename : string) (w : world)
    (d : list (string * value)) :
  record_at filename w = Some d ->
  (forall ps, dict_get "parameters" d = Some ps -> exists o, ps = PDict o) ->
  exists w',
    load_conversation filename w = Ret true w' /\
    model (self w') = dict_get_default "model" (model (self w)) d /\
    system_prompt (self w') = dict_get_default "system_prompt" (PStr "") d /\
    conversation (self w') = dict_get_default "conversation" (PList []) d /\
    chat_name (self w')
      = dict_get_default "chat_name" (PStr (before_dot (basename filename))) d /\
    (dict_get "parameters" d = None -> parameters (self w') = parameters (self w)) /\
    base_url (self w') = base_url (self w) /\
    api_generate (self w') = api_generate (self w) /\
    api_models (self w') = api_models (self w) /\
    save_dir (self w') = save_dir (self w) /\
    files w' = files w /\ logged w' = logged w.
Proof.
  unfold record_at. intros Hrec Hps.
  unfold load_conversation, try_except, bind, open_read.
  destruct (bool_decide (filename ∈ denied w)); [discriminate|].
  destruct (files w !! filename) as [[doc|c|t]|]; try discriminate.
  destruct doc as [| | | | | |d0]; try discriminate.
  injection Hrec as ->.
  cbn [json_load lift ret attr get_method assign contains].
  unfold dict_mem, items_mem. fold (dict_get "parameters" d).
  cbn [subscript].
  destruct (dict_get "parameters" d) as [ps|] eqn:Ep.
  - destruct (Hps ps eq_refl) as [o ->].
    cbn [lift ret parameters_update dict_update snd fst].
    eexists. split; [reflexivity|]. repeat split. discriminate.
  - eexists. split; [reflexivity|]. repeat split.
Qed.

Lemma load_conversation_takes_witness :
  exists w',
    load_conversation "chat_history/old.v2.json"
      (world_of remote {[ "chat_history/old.v2.json" := Json (PDict bare_record) ]})
    = Ret true w' /\
    model (self w') = PStr "mistral" /\
    system_prompt (self w') = PStr "" /\
    conversation (self w') = PList [exchange "q" (PStr "a")] /\
    chat_name (self w') = PStr "old".
Proof.
  destruct (load_conversation_takes "chat_history/old.v2.json"
              (world_of remote
                 {[ "chat_history/old.v2.json" := Json (PDict bare_record) ]})
              bare_record)
    as (w' & Hload & Hm & Hsp & Hc & Hn & _).
  - vm_compute. reflexivity.
  - intros ps Hp. vm_compute in Hp. discriminate.
  - exists w'. split; [exact Hload|].
    split; [exact Hm|]. split; [exact Hsp|]. split; [exact Hc | exact Hn].
Defined.


(** The merge of a record's parameters, key by key. *)
Lemma merge_takes (o : list (string * value)) (ks : list string)
    (d : list (key * value)) (k : key) :
  param_get k
    (fold_left
       (fun acc k0 => match dict_get k0 o with
                      | Some v => param_set (KStr k0) v acc
                      | None => acc
                      end) ks d)
  = match k with
    | KStr s =>
        if existsb (String.eqb s) ks
        then match dict_get s o with
             | Some v => Some v
             | None => param_get k d
             end
        else param_get k d
    | _ => param_get k d
    end.
Proof.
  revert d. induction ks as [|k0 ks IH]; intros d.
  - cbn [fold_left existsb]. now destruct k.
  - cbn [fold_left existsb]. rewrite IH.
    assert (Hstep : forall v0, dict_get k0 o = Some v0 ->
              param_get k (param_set (KStr k0) v0 d)
              = if key_eqb k (KStr k0) then Some v0 else param_get k d)
      by (intros v0 _; apply param_get_set_str).
    destruct k as [| | | |s];
      try (destruct (dict_get k0 o) as [v0|] eqn:E0; [|reflexivity];
           rewrite (Hstep v0 eq_refl); reflexivity).
    cbn [key_eqb] in Hstep.
    destruct (String.eqb s k0) eqn:Es; cbn [orb].
    + apply String.eqb_eq in Es as <-.
      destruct (dict_get s o) as [v0|] eqn:E0.
      * rewrite (Hstep v0 eq_refl).
        now destruct (existsb (String.eqb s) ks).
      * now destruct (existsb (String.eqb s) ks).
    + destruct (dict_get k0 o) as [v0|] eqn:E0; [|reflexivity].
      rewrite (Hstep v0 eq_refl). reflexivity.
Qed.

Lemma dict_update_merged (o : list (string * value)) (p : list (key * value))
    (k : key) :
  param_get k (fst (dict_update p (PDict o))) = merged o p k.
Proof.
  cbn [dict_update fst]. rewrite merge_takes. unfold merged.
  destruct k as [| | | |s]; try reflexivity.
  rewrite <- (items_mem_existsb String.eqb s o).
  unfold items_mem. fold (dict_get s o).
  now destruct (dict_get s o).
Qed.

(** X17.  The parameters of a record are merged into the mapping key
    by key and unchecked: after loading, a key of the record is bound
    to the value of the record, whatever the key and the value, and
    every other key is bound as before. *)
Theorem load_conversation_merges (filename : string) (w : world)
    (d o : list (string * value)) :
  record_at filename w = Some d ->
  dict_get "parameters" d = Some (PDict o) ->
  exists w',
    load_conversation filename w = Ret true w' /\
    forall k, param_get k (parameters (self w')) = merged o (parameters (self w)) k.
Proof.
  unfold record_at. intros Hrec Hps.
  unfold load_conversation, try_except, bind, open_read.
  destruct (bool_decide (filename ∈ denied w)); [discriminate|].
  destruct (files w !! filename) as [[doc|c|t]|]; try discriminate.
  destruct doc as [| | | | | |d0]; try discriminate.
  injection Hrec as ->.
  cbn [json_load lift ret attr get_method assign contains].
  unfold dict_mem, items_mem. fold (dict_get "parameters" d).
  cbn [subscript]. rewrite Hps.
  cbn [lift ret]. unfold parameters_update.
  cbn [dict_update snd].
  eexists. split; [reflexivity|]. intros k.
  cbn [self with_self parameters with_parameters with_chat_name
       with_conversation with_system_prompt with_model].
  apply dict_update_merged.
Qed.

Lemma load_conversation_merges_witness :
  exists w',
    load_conversation "chat_history/s.json"
      (world_of fresh {[ "chat_history/s.json" := Json (PDict seeded_record) ]})
    = Ret true w' /\
    param_get (KStr "temperature") (parameters (self w')) = Some (PStr "hot") /\
    param_get (KStr "seed") (parameters (self w')) = Some (PInt 7) /\
    param_get (KStr "top_k") (parameters (self w')) = Some (PInt 40).
Proof.
  destruct (load_conversation_merges "chat_history/s.json"
              (world_of fresh
                 {[ "chat_history/s.json" := Json (PDict seeded_record) ]})
              seeded_record [("temperature", PStr "hot"); ("seed", PInt 7)])
    as (w' & Hload & Hk).
  - vm_compute. reflexivity.
  - reflexivity.
  - exists w'. split; [exact Hload|]. rewrite !Hk. repeat split.
Defined.

(* ================================================================== *)
(** ** rename_chat_file: what it returns and leaves                     *)
(* ================================================================== *)

(** The end of [rename_chat_file], once the files have been moved:
    the record is read at its new place, given its new name and
    written back. *)
Lemma rename_rewrites_record (new_json new_name : string) (w : world) :
  match
    (let* f := open_read new_json in
     let* data := lift (json_load f) in
     let* data' := lift (setitem data "chat_name" (PStr new_name)) in
     open_write new_json ;;;
     json_dump data' new_json ;;;
     ret (true, new_json)) w
  with
  | Ret r w' =>
      self w' = self w /\ current_file_path w' = current_file_path w /\
      denied w' = denied w /\
      r = (true, new_json) /\
      exists d, record_at new_json w' = Some d /\
                dict_get "chat_name" d = Some (PStr new_name)
  | Exc _ w' =>
      self w' = self w /\ current_file_path w' = current_file_path w /\
      denied w' = denied w
  end.
Proof.
  unfold bind at 1, open_read at 1.
  destruct (bool_decide (new_json ∈ denied w)) eqn:Hden; [now repeat split|].
  destruct (files w !! new_json) as [f|]; [|now repeat split].
  unfold bind at 1.
  destruct f as [doc|c|t]; cbn [json_load lift ret raise]; try now repeat split.
  unfold bind at 1.
  destruct doc as [| | | | | |d]; cbn [setitem lift ret raise];
    try now repeat split.
  unfold bind at 1, open_write at 1. rewrite Hden.
  unfold bind at 1, json_dump at 1. cbn [ret].
  cbn [self current_file_path denied with_files].
  repeat split.
  exists (dict_set "chat_name" (PStr new_name) d). split.
  - unfold record_at. cbn [denied files with_files]. rewrite Hden.
    now rewrite lookup_insert_eq.
  - unfold dict_get, dict_set. rewrite string_items_get_set.
    now rewrite String.eqb_refl.
Qed.

(** What [rename_chat_file] returns and leaves, in general: a pair;
    the session and the window as before; and when the pair says
    success, its path is the new place of the record, which holds a
    JSON object with the new chat name. *)
Lemma rename_chat_file_result (old_path new_name : string) (w : world) :
  exists ok msg w',
    rename_chat_file old_path new_name w = Ret (ok, msg) w' /\
    self w' = self w /\
    current_file_path w' = current_file_path w /\
    (ok = true ->
       exists d, record_at msg w' = Some d /\
                 dict_get "chat_name" d = Some (PStr new_name)).
Proof.
  unfold rename_chat_file, try_except.
  set (new_json := path_join (dirname old_path) (new_name +:+ ".json")).
  set (new_txt := path_join (dirname old_path) (new_name +:+ ".txt")).
  set (old_txt := str_replace ".json" ".txt" old_path).
  match goal with
  | |- exists ok msg w', match ?body w with _ => _ end = _ /\ _ =>
      assert (HB :
        match body w with
        | Ret (ok, msg) w' =>
            self w' = self w /\ current_file_path w' = current_file_path w /\
            (ok = true ->
               exists d, record_at msg w' = Some d /\
                         dict_get "chat_name" d = Some (PStr new_name))
        | Exc _ w' =>
            self w' = self w /\ current_file_path w' = current_file_path w
        end);
      [| destruct (body w) as [[ok msg] w'|e w'] ]
  end.
  - unfold bind at 1, path_exists at 1.
    destruct (bool_decide (is_Some (files w !! new_json)));
      [cbn [ret]; repeat split; discriminate|].
    unfold bind at 1, os_rename at 1.
    destruct (_ || _); [now split|].
    destruct (files w !! old_path) as [f|]; [|now split].
    set (w1 := with_files _ w).
    unfold bind at 1, path_exists at 1.
    assert (Htail : forall wx,
      self wx = self w -> current_file_path wx = current_file_path w ->
      match
        (let* f := open_read new_json in
         let* data := lift (json_load f) in
         let* data' := lift (setitem data "chat_name" (PStr new_name)) in
         open_write new_json ;;;
         json_dump data' new_json ;;;
         ret (true, new_json)) wx
      with
      | Ret (ok, msg) w' =>
          self w' = self w /\ current_file_path w' = current_file_path w /\
          (ok = true ->
             exists d, record_at msg w' = Some d /\
                       dict_get "chat_name" d = Some (PStr new_name))
      | Exc _ w' =>
          self w' = self w /\ current_file_path w' = current_file_path w
      end).
    { intros wx Hs Hc.
      pose proof (rename_rewrites_record new_json new_name wx) as Hr.
      match goal with
      | |- match ?t wx with _ => _ end =>
          destruct (t wx) as [[ok msg] w'|e w']
      end.
      - destruct Hr as (Hs' & Hc' & _ & [= -> ->] & Hd).
        split; [congruence|]. split; [congruence|]. intros _. exact Hd.
      - destruct Hr as (Hs' & Hc' & _). split; congruence. }
    destruct (bool_decide (is_Some (files w1 !! old_txt))).
    + unfold bind at 1. unfold bind at 1, os_rename at 1.
      destruct (_ || _); [now split|].
      destruct (files w1 !! old_txt) as [t|]; [|now split].
      apply Htail; reflexivity.
    + unfold bind at 1. cbn [ret]. apply Htail; reflexivity.
  - exists ok, msg, w'. split; [reflexivity | exact HB].
  - cbn [any_Exception]. unfold bind, log. cbn [ret].
    eexists _, _, _. split; [reflexivity|].
    destruct HB as [Hs Hc]. repeat split; try assumption. discriminate.
Qed.

Lemma rename_collision_witness :
  rename_chat_file "chat_history/a.json" "a" saved_as_a
    = Ret (false, "A file with this name already exists") saved_as_a.
Proof.
  apply (rename_collision "chat_history/a.json" "a" saved_as_a).
  vm_compute. eexists. reflexivity.
Defined.

Lemma rename_chat_file_moves_witness :
  let old_path := "chat_history/a.json" in
  let new_name := "b" in
  let dir_path := dirname old_path in
  let new_json := path_join dir_path (new_name +:+ ".json") in
  let new_txt := path_join dir_path (new_name +:+ ".txt") in
  let old_txt := str_replace ".json" ".txt" old_path in
  let d := [ ("model", PStr "llama3.2");
             ("timestamp", PStr "2025-01-01T12:00:00");
             ("system_prompt", PStr "");
             ("parameters",
              json_of_params (H := Reference.builtins) default_parameters);
             ("chat_name", PStr "a");
             ("conversation", PList [exchange "hi" (PStr "hello")]) ] in
  exists w',
    rename_chat_file old_path new_name saved_as_a = Ret (true, new_json) w' /\
    self w' = self saved_as_a /\
    files w' !! old_path = None /\
    files w' !! new_json
      = Some (Json (PDict (dict_set "chat_name" (PStr new_name) d))) /\
    (forall t, files saved_as_a !! old_txt = Some t ->
       files w' !! old_txt = None /\ files w' !! new_txt = Some t).
Proof.
  cbv zeta.
  apply (rename_chat_file_moves "chat_history/a.json" "b" saved_as_a).
  - vm_compute. reflexivity.
  - vm_compute. reflexivity.
  - vm_compute. reflexivity.
  - vm_compute. discriminate.
  - vm_compute. discriminate.
  - vm_compute. discriminate.
  - vm_compute. discriminate.
Defined.

(* ================================================================== *)
(** ** rename_chat_file: a failure after the move                       *)
(* ================================================================== *)

(** X20.  [rename_chat_file] is not atomic.  When the file at the old
    path is not a chat record (it does not hold a JSON object), the
    call moves it to the new path first and fails afterwards, on
    reading it: it returns [False] with the error, which it logs, and
    leaves the file at the new path.  This is for a new name that is
    free, files that can be accessed, and no transcript at the place
    where [rename_chat_file] looks for one. *)
Theorem rename_not_atomic (old_path new_name : string) (w : world) (f : file) :
  let new_json := path_join (dirname old_path) (new_name +:+ ".json") in
  let old_txt := str_replace ".json" ".txt" old_path in
  files w !! new_json = None ->
  files w !! old_path = Some f ->
  not_a_record f = true ->
  denied w = ∅ ->
  files w !! old_txt = None ->
  old_txt <> new_json ->
  exists msg,
    rename_chat_file old_path new_name w =
      Ret (false, msg)
          (with_logged (logged w ++ ["Error renaming chat file: " +:+ msg])
             (with_files (<[new_json := f]> (delete old_path (files w))) w)).
Proof.
  intros new_json old_txt Hfree Hold Hnot Hden Htxt Hne.
  unfold rename_chat_file, try_except.
  fold new_json. fold old_txt.
  unfold bind at 1, path_exists at 1.
  rewrite (bool_decide_eq_false_2 (is_Some (files w !! new_json)))
    by (rewrite Hfree; apply is_Some_None).
  unfold bind at 1. rewrite (os_rename_ok _ _ _ _ Hden Hold).
  set (w1 := with_files (<[new_json := f]> (delete old_path (files w))) w).
  assert (Hd1 : denied w1 = ∅) by exact Hden.
  unfold bind at 1, path_exists at 1.
  assert (Htxt1 : files w1 !! old_txt = None).
  { unfold w1. cbn [files with_files].
    rewrite lookup_insert_ne by congruence.
    destruct (decide (old_path = old_txt)) as [<-|Hn].
    - apply lookup_delete_eq.
    - now rewrite lookup_delete_ne. }
  rewrite Htxt1.
  rewrite (bool_decide_eq_false_2 (is_Some None)) by apply is_Some_None.
  unfold bind at 1. cbn [ret].
  unfold bind at 1.
  rewrite (open_read_ok new_json f w1 Hd1)
    by (unfold w1; cbn [files with_files]; apply lookup_insert_eq).
  unfold bind at 1.
  destruct f as [doc|c|t]; cbn [json_load lift ret raise any_Exception];
    try (eexists; reflexivity).
  unfold bind at 1.
  destruct doc as [| | | | | |d]; try discriminate;
    cbn [setitem lift ret raise any_Exception]; eexists; reflexivity.
Qed.

Lemma rename_not_atomic_witness :
  let new_json := path_join (dirname "chat_history/a.json") ("b" +:+ ".json") in
  exists msg,
    rename_chat_file "chat_history/a.json" "b" scribbled =
      Ret (false, msg)
          (with_logged
             (logged scribbled ++ ["Error renaming chat file: " +:+ msg])
             (with_files
                (<[new_json := Text "not a record"]>
                   (delete "chat_history/a.json" (files scribbled)))
                scribbled)).
Proof.
  cbv zeta.
  apply (rename_not_atomic "chat_history/a.json" "b" scribbled
           (Text "not a record"));
    [ vm_compute; reflexivity | vm_compute; reflexivity | reflexivity
    | reflexivity | vm_compute; reflexivity | vm_compute; discriminate ].
Defined.

(* ================================================================== *)
(** ** The window: renaming the current chat                            *)
(* ================================================================== *)

(** X21.  [rename_current_chat] never raises, and for the session and
    the window it is all or nothing.  Either the session and the
    current file are as before (nothing was asked, the chat is not
    saved, or the renaming failed), or the renaming succeeded, no box
    is shown, and the three places agree on the new name: the chat
    name of the session is the name entered, and the current file is
    the new path, which holds a record with that chat name. *)
Theorem rename_current_chat_agrees (entered : string) (w : world) :
  exists shown w',
    rename_current_chat entered w = Ret shown w' /\
    ((self w' = self w /\ current_file_path w' = current_file_path w) \/
     (shown = None /\
      chat_name (self w') = PStr entered /\
      exists path d,
        current_file_path w' = Some path /\
        record_at path w' = Some d /\
        dict_get "chat_name" d = Some (PStr entered))).
Proof.
  unfold rename_current_chat. unfold bind at 1, get_current_file_path at 1.
  destruct (current_file_path w) as [p|] eqn:Hp;
    [|eexists _, _; split; [reflexivity|]; left; now rewrite Hp].
  destruct (String.eqb p "");
    [eexists _, _; split; [reflexivity|]; left; now rewrite Hp|].
  unfold bind at 1, path_exists at 1.
  destruct (bool_decide _); cbn [negb];
    [|eexists _, _; split; [reflexivity|]; left; now rewrite Hp].
  unfold bind at 1, attr at 1.
  generalize (if truthy (chat_name (self w)) then chat_name (self w)
              else PStr (before_dot (basename p))) as current_name.
  intros current_name. unfold do_rename.
  destruct (negb (String.eqb entered "") && negb (str_eq_value entered current_name));
    [|eexists _, _; split; [reflexivity|]; left; now rewrite Hp].
  unfold bind at 1, get_current_file_path at 1. rewrite Hp.
  unfold bind at 1.
  destruct (rename_chat_file_result p entered w)
    as (ok & msg & w1 & Hrun & Hs & Hc & Hrec).
  rewrite Hrun. cbn [fst snd]. destruct ok.
  - destruct (Hrec eq_refl) as (d & Hd & Hn).
    unfold bind, set_current_file_path, assign. cbn [ret].
    eexists _, _. split; [reflexivity|]. right.
    split; [reflexivity|]. split; [reflexivity|].
    exists msg, d. split; [reflexivity|]. split; [|exact Hn].
    unfold record_at in *. exact Hd.
  - eexists _, _. split; [reflexivity|]. left. split; congruence.
Qed.

(** The window on the chat [a], renamed [b]. *)
Example rename_current_chat_to_b :
  let r := rename_current_chat "b" window_on_a in
  r = Ret None (final r) /\
  current_file_path (final r) = Some "chat_history/b.json" /\
  chat_name (self (final r)) = PStr "b" /\
  files (final r) !! "chat_history/a.json" = None /\
  files (final r) !! "chat_history/a.txt" = None /\
  is_Some (files (final r) !! "chat_history/b.txt").
Proof.
  vm_compute.
  repeat match goal with
         | |- _ /\ _ => split
         | |- exists _, _ => eexists
         | |- _ = _ => reflexivity
         end.
Qed.

(* ================================================================== *)
(** ** The setters: the attribute first, the configuration after        *)
(* ================================================================== *)

Lemma with_config_same (s : session) : with_config (config_ s) s = s.
Proof. now destruct s. Qed.

(** Two sessions that differ by their configuration only. *)
Lemma up_to_config (c : config) (s s1 : session) :
  with_config c s = with_config c s1 -> s = with_config (config_ s) s1.
Proof.
  intros E. apply (f_equal (with_config (config_ s))) in E.
  rewrite <- (with_config_same s) at 1. exact E.
Qed.

Section Setters.
Context `{Builtins}.

(** [save_config] changes the configuration of the session and nothing
    else of it, whether it returns or raises. *)
Lemma save_config_up_to_config (w : world) :
  self (final (save_config w))
    = with_config (config_ (self (final (save_config w)))) (self w).
Proof.
  apply (up_to_config empty_config).
  apply (on_self_save_config
           (fun s => with_config empty_config s = with_config empty_config (self w))).
  - intros c s Hs. exact Hs.
  - reflexivity.
Qed.
End Setters.

(** X22.  [set_model], [set_system_prompt] and the window's
    [save_settings] assign first and save after: whether the
    configuration can be written or not, and whether the call returns
    or raises, the session has the new model, the new system prompt,
    or the new base URL with its three endpoints; nothing else of the
    session has changed but its configuration.  [save_settings] with
    an empty text does nothing, and the window's [change_model] leaves
    what [set_model] leaves, or nothing with an empty text. *)
Theorem setters_assign_first `{Builtins} (w : world) :
  (forall model0,
     let s := self (final (set_model model0 w)) in
     s = with_config (config_ s) (with_model (PStr model0) (self w))) /\
  (forall prompt,
     let s := self (final (set_system_prompt prompt w)) in
     s = with_config (config_ s) (with_system_prompt (PStr prompt) (self w))) /\
  (forall new_url, new_url <> "" ->
     let s := self (final (save_settings new_url w)) in
     s = with_config (config_ s) (with_endpoint new_url (self w))) /\
  save_settings "" w = Ret tt w /\
  (forall new_model,
     final (change_model new_model w)
       = if String.eqb new_model "" then w else final (set_model new_model w)).
Proof.
  assert (Hsave : forall (A : Type) (a : A) w0,
            let r := (save_config ;;; ret a) w0 in
            self (final r) = with_config (config_ (self (final r))) (self w0)).
  { intros A a w0. pose proof (save_config_up_to_config w0) as Hs.
    cbv zeta. unfold bind. destruct (save_config w0); exact Hs. }
  split; [|split; [|split; [|split]]].
  - intros model0.
    exact (Hsave string ("Model changed to " +:+ model0)
             (with_self (with_model (PStr model0) (self w)) w)).
  - intros prompt.
    exact (Hsave string "System prompt updated"
             (with_self (with_system_prompt (PStr prompt) (self w)) w)).
  - intros new_url Hne s. subst s. unfold save_settings.
    apply String.eqb_neq in Hne. rewrite Hne. cbn [negb].
    exact (save_config_up_to_config
             (with_self (with_endpoint new_url (self w)) w)).
  - reflexivity.
  - intros new_model. unfold change_model.
    destruct (String.eqb new_model ""); cbn [negb]; [reflexivity|].
    unfold bind at 1. now destruct (set_model new_model w).
Qed.

(* ================================================================== *)
(** ** set_parameter: the mapping first, the configuration after        *)
(* ================================================================== *)

(** X23.  When the name is in the mapping and [float] accepts the
    value, [set_parameter] binds the name to the float before it saves
    the configuration, and keeps it bound whatever the saving does.
    If the saving raises a [ValueError], as [ConfigParser] does for a
    system prompt with a lone ["%"], [set_parameter] answers "Invalid
    value" although the value was valid and is now in the mapping; any
    other exception of the saving leaves [set_parameter]. *)
Theorem set_parameter_updates_first `{Builtins} (param : string) (v : value)
    (f : pyfloat) (w : world) :
  param_mem (KStr param) (parameters (self w)) = true ->
  py_float v = Fine f ->
  let w1 := with_self
              (with_parameters
                 (param_set (KStr param) (PFloat f) (parameters (self w)))
                 (self w)) w in
  param_get (KStr param)
      (parameters (self (final (set_parameter param v w))))
    = Some (PFloat f) /\
  set_parameter param v w =
    match save_config w1 with
    | Ret _ w' => Ret ("Parameter " +:+ param +:+ " set to " +:+ py_str v) w'
    | Exc e w' =>
        if is_ValueError e then Ret ("Invalid value for " +:+ param) w'
        else Exc e w'
    end.
Proof.
  intros Hm Hf w1.
  assert (Hrun : set_parameter param v w =
    match save_config w1 with
    | Ret _ w' => Ret ("Parameter " +:+ param +:+ " set to " +:+ py_str v) w'
    | Exc e w' =>
        if is_ValueError e then Ret ("Invalid value for " +:+ param) w'
        else Exc e w'
    end).
  { unfold set_parameter. unfold bind at 1, attr at 1. rewrite Hm.
    unfold try_except, bind. rewrite Hf. cbn [lift ret].
    unfold parameters_setitem, assign. fold w1.
    now destruct (save_config w1) as [[] w'|e w']. }
  split; [|exact Hrun]. rewrite Hrun.
  pose proof (on_self_save_config
                (fun s => param_get (KStr param) (parameters s) = Some (PFloat f))
                (fun c s Hs => Hs) w1) as Hp.
  unfold on_self in Hp.
  assert (H1 : param_get (KStr param) (parameters (self w1)) = Some (PFloat f)).
  { unfold w1. cbn [self with_self parameters with_parameters].
    rewrite param_get_set_str. cbn [key_eqb]. now rewrite String.eqb_refl. }
  specialize (Hp H1).
  destruct (save_config w1) as [[] w'|e w']; cbn [final] in Hp |- *;
    [exact Hp|]. now destruct (is_ValueError e).
Qed.

Lemma set_parameter_updates_first_witness :
  let w := world_of percent ∅ in
  let w1 := with_self
              (with_parameters
                 (param_set (KStr "temperature") (PFloat (FFin 5 (-1)))
                    (parameters (self w)))
                 (self w)) w in
  param_get (KStr "temperature")
      (parameters
         (self (final (set_parameter (H := Reference.builtins) "temperature"
                         (PStr "0.5") w))))
    = Some (PFloat (FFin 5 (-1))) /\
  set_parameter (H := Reference.builtins) "temperature" (PStr "0.5") w =
    match save_config (H := Reference.builtins) w1 with
    | Ret _ w' =>
        Ret ("Parameter " +:+ "temperature" +:+ " set to "
             +:+ py_str (Builtins := Reference.builtins) (PStr "0.5")) w'
    | Exc e w' =>
        if is_ValueError e then Ret ("Invalid value for " +:+ "temperature") w'
        else Exc e w'
    end.
Proof.
  apply (set_parameter_updates_first (H := Reference.builtins) "temperature"
           (PStr "0.5") (FFin 5 (-1)) (world_of percent ∅));
    vm_compute; reflexivity.
Defined.

(* ================================================================== *)
(** ** The window: the dialog of the parameters                         *)
(* ================================================================== *)

Section SaveParams.
Context `{Builtins}.

Lemma save_params_entries_app (before after : list (string * string))
    (w : world) :
  save_params_entries (before ++ after) w =
    match save_params_entries before w with
    | Ret None w1 => save_params_entries after w1
    | r => r
    end.
Proof.
  revert w. induction before as [|[param text] before IH]; intros w;
    [reflexivity|].
  cbn [app save_params_entries].
  set (entry := try_except _ _ _). unfold bind.
  destruct (entry w) as [[msg|] w1|e w1]; try reflexivity.
  apply IH.
Qed.
End SaveParams.

(** X24.  The dialog of the parameters is not all or nothing.
    [save_params] sets and saves the entries one after the other and
    stops at the first text that [float] rejects, with the error box
    for it: the entries before it have been applied as if they were
    the only ones, and those after it are not looked at. *)
Theorem save_params_stops_at_invalid `{Builtins}
    (before after : list (string * string)) (param bad : string) (w : world) :
  float_of_str bad = None ->
  save_params (before ++ (param, bad) :: after) w =
    match save_params_entries before w with
    | Ret None w1 =>
        Ret (Some ("Invalid value for " +:+ param +:+ ": " +:+ bad)) w1
    | r => r
    end.
Proof.
  intros Hbad. unfold save_params. unfold bind at 1.
  rewrite save_params_entries_app.
  destruct (save_params_entries before w) as [[msg|] w1|e w1]; try reflexivity.
  cbn [save_params_entries]. unfold bind at 1, try_except at 1, bind at 1.
  cbn [py_float]. rewrite Hbad. cbn [lift raise is_ValueError ret].
  reflexivity.
Qed.

Lemma save_params_stops_at_invalid_witness :
  save_params (H := Reference.builtins)
    ([("temperature", "0.5")] ++ ("top_p", "high") :: [("top_k", "50")])
    (world_of fresh ∅)
  = match save_params_entries (H := Reference.builtins)
            [("temperature", "0.5")] (world_of fresh ∅) with
    | Ret None w1 =>
        Ret (Some ("Invalid value for " +:+ "top_p" +:+ ": " +:+ "high")) w1
    | r => r
    end.
Proof.
  apply (save_params_stops_at_invalid (H := Reference.builtins)
           [("temperature", "0.5")] [("top_k", "50")] "top_p" "high"
           (world_of fresh ∅)).
  vm_compute. reflexivity.
Defined.

(** The dialog with a good temperature, a bad [top_p] and a good
    [top_k]: the temperature is set and saved, the error box names
    [top_p], and [top_k] is as it was. *)
Example save_params_half_done :
  let r := save_params (H := Reference.builtins)
             [("temperature", "0.5"); ("top_p", "high"); ("top_k", "50")]
             (world_of fresh ∅) in
  r = Ret (Some "Invalid value for top_p: high") (final r) /\
  param_get (KStr "temperature") (parameters (self (final r)))
    = Some (PFloat (FFin 5 (-1))) /\
  cfg_raw (H := Reference.builtins) "Parameters" "temperature"
    (config_ (self (final r))) = Some "0.5" /\
  is_Some (files (final r) !! "config.ini") /\
  param_get (KStr "top_p") (parameters (self (final r)))
    = Some (PFloat (FFin 9 (-1))) /\
  param_get (KStr "top_k") (parameters (self (final r))) = Some (PInt 40).
Proof.
  vm_compute.
  repeat match goal with
         | |- _ /\ _ => split
         | |- exists _, _ => eexists
         | |- _ = _ => reflexivity
         end.
Qed.

(* ================================================================== *)
(** ** The window: saving the chat                                      *)
(* ================================================================== *)

(** Two runs that go through the same steps and differ by their last
    one. *)
Lemma bind_related {A B1 B2 : Type} (R : res B1 -> res B2 -> Prop)
    (m : M A) (k1 : A -> M B1) (k2 : A -> M B2) (w : world) :
  (forall e w', R (Exc e w') (Exc e w')) ->
  (forall a w', R (k1 a w') (k2 a w')) ->
  R (bind m k1 w) (bind m k2 w).
Proof.
  intros He Hk. unfold bind. destruct (m w) as [a w'|e w']; [apply Hk | apply He].
Qed.

Lemma assign_chat_name_same (name : value) (w : world) :
  chat_name (self w) = name ->
  with_self (with_chat_name name (self w)) w = w.
Proof. intros <-. now destruct w as [[] ? ? ? ? ?]. Qed.

(** X25.  For a chat that has a name, the window's Save does what
    [save_conversation] does under that name, and then remembers the
    record as the current file: the same files are written with the
    same contents, the same exceptions leave, and the session is the
    same. *)
Theorem save_chat_as_save_conversation `{Builtins} (now : clock)
    (chosen name : string) (w : world) :
  truthy (conversation (self w)) = true ->
  chat_name (self w) = PStr name -> name <> "" ->
  py_str (PStr name) = name ->
  save_chat now false chosen w =
    match save_conversation now (Some name) w with
    | Ret _ w1 =>
        Ret None
          (with_current_file_path
             (Some (save_dir (self w) +:+ "/" +:+ name +:+ ".json")) w1)
    | Exc e w1 => Exc e w1
    end.
Proof.
  intros Hconv Hname Hne Hstr.
  apply String.eqb_neq in Hne.
  set (R := fun (r1 : res string) (r2 : res (option string)) =>
              r2 = match r1 with
                   | Ret _ w1 =>
                       Ret None
                         (with_current_file_path
                            (Some (save_dir (self w) +:+ "/" +:+ name +:+ ".json"))
                            w1)
                   | Exc e w1 => Exc e w1
                   end).
  change (R (save_conversation now (Some name) w) (save_chat now false chosen w)).
  assert (HE : forall e w', R (Exc e w') (Exc e w')) by reflexivity.
  unfold save_conversation. unfold bind at 1, attr at 1.
  rewrite Hconv. cbn [negb]. rewrite Hne.
  unfold bind at 1, assign at 1. rewrite (assign_chat_name_same _ _ Hname).
  unfold bind at 1, attr at 1. cbn [id].
  match goal with |- R ?a _ => set (c := a) end.
  unfold save_chat. unfold bind at 1, attr at 1.
  rewrite Hconv. cbn [negb]. unfold bind at 1, attr at 1.
  rewrite Hname. cbn [truthy orb negb]. rewrite Hne. cbn [negb].
  unfold bind at 1, attr at 1. cbn [id]. rewrite Hname, Hstr.
  subst c.
  repeat (apply (bind_related R); [exact HE | intros ? ?]).
  reflexivity.
Qed.

Lemma save_chat_as_save_conversation_witness :
  save_chat (H := Reference.builtins) noon false "" (world_of named ∅) =
    match save_conversation (H := Reference.builtins) noon (Some "t1")
            (world_of named ∅) with
    | Ret _ w1 =>
        Ret None
          (with_current_file_path
             (Some (save_dir (self (world_of named ∅)) +:+ "/" +:+ "t1"
                    +:+ ".json")) w1)
    | Exc e w1 => Exc e w1
    end.
Proof.
  apply (save_chat_as_save_conversation (H := Reference.builtins) noon ""
           "t1" (world_of named ∅));
    [ reflexivity | reflexivity | discriminate | reflexivity ].
Defined.

(** X26.  Save As under a name that ends in [.txt] leaves no record.
    The record is written to the chosen path, and the transcript, whose
    path is the chosen one with its extension replaced by [.txt], is
    written over it: the call succeeds, the chosen path becomes the
    current file, and it holds the transcript, which
    [load_conversation] cannot read. *)
Theorem save_chat_as_txt `{Builtins} (now : clock) (chosen : string)
    (w : world) (log : list value) :
  conversation (self w) = PList log -> log <> [] ->
  forallb is_exchange log = true ->
  chosen <> "" ->
  splitext_root chosen +:+ ".txt" = chosen ->
  chosen ∉ denied w ->
  exists t w',
    save_chat now true chosen w = Ret None w' /\
    files w' = <[chosen := Text t]> (files w) /\
    current_file_path w' = Some chosen /\
    record_at chosen w' = None.
Proof.
  intros Hconv Hne Hlog Hchosen Hext Hden.
  unfold save_chat. unfold bind at 1, attr at 1. rewrite Hconv.
  assert (Htruthy : truthy (PList log) = true) by (now destruct log).
  rewrite Htruthy. cbn [negb]. unfold bind at 1, attr at 1. cbn [orb].
  apply String.eqb_neq in Hchosen. rewrite Hchosen.
  unfold bind at 1, attr at 1. cbn [id]. rewrite Hext.
  set (data := PDict _). set (base_name := if ends_with _ _ then _ else _).
  unfold bind at 1, open_write at 1.
  rewrite (bool_decide_eq_false_2 _ Hden).
  unfold bind at 1, json_dump at 1. rewrite with_files_insert_twice.
  unfold bind at 1, open_write at 1. cbn [denied with_files].
  rewrite (bool_decide_eq_false_2 _ Hden). rewrite with_files_insert_twice.
  unfold bind at 1. rewrite file_write_again.
  unfold bind at 1.
  assert (Hsp : exists t1,
    (if truthy (system_prompt (self w))
     then file_write chosen
            ("System prompt: " +:+ py_str (system_prompt (self w)) +:+ nl +:+ nl)
     else ret tt)
      (with_files
         (<[chosen := Text ("" +:+ "Chat with Ollama (" +:+ py_str (model (self w))
                             +:+ ") - " +:+ readable now +:+ nl +:+ nl)]>
            (files w)) w)
    = Ret tt (with_files (<[chosen := Text t1]> (files w)) w)).
  { destruct (truthy (system_prompt (self w))).
    - eexists. apply file_write_again.
    - eexists. reflexivity. }
  destruct Hsp as [t1 ->].
  unfold bind at 1. rewrite Hconv. cbn [py_iter lift ret].
  unfold bind at 1.
  destruct (write_exchanges_ok chosen log 1
              (with_files (<[chosen := Text t1]> (files w)) w) t1 Hlog)
    as [t Hw]; [cbn [files with_files]; apply lookup_insert_eq|].
  rewrite Hw, with_files_insert_twice.
  unfold bind, set_current_file_path, assign. cbn [ret].
  exists t. eexists. split; [reflexivity|].
  cbn [files current_file_path with_self with_current_file_path with_files].
  split; [reflexivity|]. split; [reflexivity|].
  unfold record_at.
  cbn [files denied with_self with_current_file_path with_files].
  rewrite (bool_decide_eq_false_2 _ Hden). now rewrite lookup_insert_eq.
Qed.

Lemma save_chat_as_txt_witness :
  exists t w',
    save_chat (H := Reference.builtins) noon true "notes/talk.txt"
      (world_of greeted ∅) = Ret None w' /\
    files w' = <["notes/talk.txt" := Text t]> (files (world_of greeted ∅)) /\
    current_file_path w' = Some "notes/talk.txt" /\
    record_at "notes/talk.txt" w' = None.
Proof.
  apply (save_chat_as_txt (H := Reference.builtins) noon "notes/talk.txt"
           (world_of greeted ∅) [exchange "hi" (PStr "hello")]);
    [ reflexivity | discriminate | reflexivity | discriminate
    | vm_compute; reflexivity
    | cbn [denied world_of]; apply not_elem_of_empty ].
Defined.

(** Save As under [notes/talk.json]: the record and the transcript are
    written side by side, the chat is named [talk], and the record can
    be loaded again. *)
Example save_chat_as_json :
  let r := save_chat (H := Reference.builtins) noon true "notes/talk.json"
             (world_of greeted ∅) in
  let l := load_conversation "notes/talk.json" (world_of fresh (files (final r))) in
  r = Ret None (final r) /\
  current_file_path (final r) = Some "notes/talk.json" /\
  chat_name (self (final r)) = PStr "talk" /\
  is_Some (files (final r) !! "notes/talk.txt") /\
  l = Ret true (final l) /\
  chat_name (self (final l)) = PStr "talk" /\
  conversation (self (final l)) = PList [exchange "hi" (PStr "hello")].
Proof.
  vm_compute.
  repeat match goal with
         | |- _ /\ _ => split
         | |- exists _, _ => eexists
         | |- _ = _ => reflexivity
         end.
Qed.

(* ================================================================== *)
(** ** save_conversation: a conversation that is not made of exchanges  *)
(* ================================================================== *)

Section BadExchange.
Context `{Builtins}.

(** The transcript loop raises at the first element that is not an
    exchange, after it has written the ones before it. *)
Lemma write_exchanges_raises (p : string) (good rest : list value)
    (bad : value) (i : Z) (w : world) (t0 : string) :
  forallb is_exchange good = true ->
  is_exchange bad = false ->
  files w !! p = Some (Text t0) ->
  exists e t,
    write_exchanges p i (good ++ bad :: rest) w
      = Exc e (with_files (<[p := Text t]> (files w)) w).
Proof.
  revert i w t0. induction good as [|x good IH]; intros i w t0 Hgood Hbad Hp.
  - cbn [app write_exchanges]. unfold bind at 1.
    destruct (subscript bad "user") as [u|e] eqn:Eu; cbn [lift ret raise].
    2:{ exists e, t0. now rewrite insert_id, with_files_same. }
    unfold bind at 1. rewrite (file_write_text _ _ t0) by exact Hp.
    unfold bind at 1.
    destruct (subscript bad "assistant") as [a|e] eqn:Ea; cbn [lift ret raise].
    2:{ eexists _, _. reflexivity. }
    exfalso. destruct bad as [| | | | | |d]; try discriminate.
    cbn [subscript] in Eu, Ea. cbn [is_exchange] in Hbad.
    unfold dict_mem, items_mem in Hbad.
    fold (dict_get "user" d) in Hbad. fold (dict_get "assistant" d) in Hbad.
    destruct (dict_get "user" d); [|discriminate].
    destruct (dict_get "assistant" d); discriminate.
  - cbn [forallb] in Hgood. apply andb_prop in Hgood as [Hx Hgood].
    destruct x as [| | | | | |d]; try discriminate.
    cbn [is_exchange] in Hx. apply andb_prop in Hx as [Hu Ha].
    unfold dict_mem, items_mem in Hu, Ha.
    fold (dict_get "user" d) in Hu. fold (dict_get "assistant" d) in Ha.
    destruct (dict_get "user" d) as [u|] eqn:Eu; [|discriminate].
    destruct (dict_get "assistant" d) as [a|] eqn:Ea; [|discriminate].
    cbn [app write_exchanges]. unfold bind. cbn [subscript].
    rewrite Eu. cbn [lift ret].
    rewrite (file_write_text _ _ t0) by exact Hp.
    rewrite Ea. cbn [lift ret].
    rewrite !file_write_again.
    match goal with
    | |- context [write_exchanges p (i + 1) _
                    (with_files (<[p := Text ?t1]> (files w)) w)] =>
        destruct (IH (i + 1) (with_files (<[p := Text t1]> (files w)) w) t1
                    Hgood Hbad)
          as (e & t & Ht); [cbn [files with_files]; apply lookup_insert_eq|]
    end.
    exists e, t. rewrite Ht. now rewrite with_files_insert_twice.
Qed.
End BadExchange.

(** X27.  [save_conversation] does not check the conversation.  When
    an element of it is not an exchange (an object with a ["user"] and
    an ["assistant"]), the call raises while it writes the transcript:
    by then the session has the new chat name, and the record has been
    written in full, with the conversation as it is. *)
Theorem save_conversation_bad_exchange `{Builtins} (now : clock) (name : string)
    (w : world) (good rest : list value) (bad : value) :
  conversation (self w) = PList (good ++ bad :: rest) ->
  forallb is_exchange good = true ->
  is_exchange bad = false ->
  name <> "" ->
  let json_path := save_dir (self w) +:+ "/" +:+ name +:+ ".json" in
  let txt_path := save_dir (self w) +:+ "/" +:+ name +:+ ".txt" in
  json_path ∉ denied w -> txt_path ∉ denied w ->
  exists e w',
    save_conversation now (Some name) w = Exc e w' /\
    chat_name (self w') = PStr name /\
    files w' !! json_path
      = Some (Json (chat_record now name (with_chat_name (PStr name) (self w)))).
Proof.
  intros Hconv Hgood Hbad Hname json_path txt_path Hj Ht.
  unfold save_conversation. unfold bind at 1, attr at 1. rewrite Hconv.
  assert (Htruthy : truthy (PList (good ++ bad :: rest)) = true)
    by (now destruct good).
  rewrite Htruthy. cbn [negb].
  assert (Hn : String.eqb name "" = false) by (now apply String.eqb_neq).
  rewrite Hn.
  unfold bind, attr, assign, open_write, json_dump. cbn [id].
  cbn [self with_self denied with_files files save_dir with_chat_name
       conversation model system_prompt parameters].
  fold json_path txt_path.
  rewrite (bool_decide_eq_false_2 _ Hj), (bool_decide_eq_false_2 _ Ht).
  rewrite Hconv. cbn [py_iter lift ret].
  set (w0 := with_self (with_chat_name (PStr name) (self w)) w).
  set (data := PDict _).
  set (wbase := with_files (<[json_path := Json data]> (files w)) w0).
  assert (Hbase :
    forall a, with_files
      (<[txt_path := Text a]>
         (<[json_path := Json data]>
            (files (with_files (<[json_path := Text ""]> (files w)) w0))))
      (with_files
         (<[json_path := Json data]>
            (files (with_files (<[json_path := Text ""]> (files w)) w0)))
         (with_files (<[json_path := Text ""]> (files w)) w0))
    = with_files (<[txt_path := Text a]> (files wbase)) wbase).
  { intros a. unfold wbase, with_files. cbn. now rewrite insert_insert_eq. }
  rewrite Hbase, file_write_again.
  assert (Hsp : exists t1,
    (if truthy (system_prompt (self w))
     then file_write txt_path
            ("System prompt: " +:+ py_str (system_prompt (self w)) +:+ nl +:+ nl)
     else ret tt)
      (with_files
         (<[txt_path := Text ("" +:+ "Chat with Ollama (" +:+ py_str (model (self w))
                               +:+ ") - " +:+ readable now +:+ nl +:+ nl)]>
            (files wbase)) wbase)
    = Ret tt (with_files (<[txt_path := Text t1]> (files wbase)) wbase)).
  { destruct (truthy (system_prompt (self w))).
    - eexists. apply file_write_again.
    - eexists. reflexivity. }
  destruct Hsp as [t1 ->].
  destruct (write_exchanges_raises txt_path good rest bad 1
              (with_files (<[txt_path := Text t1]> (files wbase)) wbase) t1
              Hgood Hbad)
    as (e & t & Hw); [cbn [files with_files]; apply lookup_insert_eq|].
  rewrite Hw, with_files_insert_twice.
  exists e. eexists. split; [reflexivity|]. split; [reflexivity|].
  cbn [files with_files wbase].
  rewrite lookup_insert_ne
    by (intros E; symmetry in E; revert E; apply json_txt_paths).
  rewrite lookup_insert_eq. unfold chat_record, data.
  cbn [model system_prompt parameters conversation with_chat_name].
  now rewrite Hconv.
Qed.

Lemma save_conversation_bad_exchange_witness :
  let w := world_of
             (with_conversation
                (PList ([exchange "hi" (PStr "hello")]
                        ++ PDict [("user", PStr "and?")] :: [])) fresh) ∅ in
  let json_path := save_dir (self w) +:+ "/" +:+ "t1" +:+ ".json" in
  exists e w',
    save_conversation (H := Reference.builtins) noon (Some "t1") w = Exc e w' /\
    chat_name (self w') = PStr "t1" /\
    files w' !! json_path
      = Some (Json (chat_record (H := Reference.builtins) noon "t1"
                      (with_chat_name (PStr "t1") (self w)))).
Proof.
  cbv zeta.
  apply (save_conversation_bad_exchange (H := Reference.builtins) noon "t1"
           (world_of
              (with_conversation
                 (PList ([exchange "hi" (PStr "hello")]
                         ++ PDict [("user", PStr "and?")] :: [])) fresh) ∅)
           [exchange "hi" (PStr "hello")] [] (PDict [("user", PStr "and?")]));
    [ reflexivity | reflexivity | reflexivity | discriminate
    | cbn [denied world_of]; apply not_elem_of_empty
    | cbn [denied world_of]; apply not_elem_of_empty ].
Defined.
